(** * Response parsers of botocore ([botocore/parsers.py])

    A shallow embedding of the response parsers for the five wire
    protocols ([query], [ec2], [json], [rest-json], [rest-xml]) and the
    properties of their results.

    Modelling conventions.
    - Python objects are values of one universal type [value]; every
      operation that Python checks at run time returns a [result], whose
      [Raise] carries the exception.
    - A [str] is a Rocq [string], one character per code point (code
      points below 256); [bytes] is a [list byte].
    - A [dict] is an association list in insertion order; assigning an
      existing key keeps its position, as in Python.  Keys are compared
      structurally, which is Python's comparison for the [str], [bytes] and
      [int] keys that maps have.
    - An [xml.etree] element is a [Node]: tag, text and children.
    - A response holds its status code, its headers (a [dict] from [str] to
      [str]) and its body as [bytes].
    - The library collaborators (the codec, [json.loads], the XML
      tokenizer, [base64.b64decode], [int], [float], the injected timestamp
      parser, [http_client.responses]) are the fields of [Externals]. *)

From Stdlib Require Import String Ascii List ZArith Bool Lia.
From Stdlib.Strings Require Import Byte.
From Stdlib Require Import DecimalString SpecFloat ListDec.
Import ListNotations.

#[local] Set Warnings "-register-all".

Local Open Scope string_scope.
Local Open Scope list_scope.

(** ** Exceptions and results *)

Inductive exn : Type :=
| AttributeError
| TypeError
| ValueError
| KeyError (key : string)
| UnboundLocalError (var : string)
| IndexError
| RecursionError
| NotImplementedError (what : string)
| UnicodeDecodeError
| LibraryError (what : string)
| ResponseParserError (msg : string).

Inductive result (A : Type) : Type :=
| Ok (a : A)
| Raise (e : exn).

Arguments Ok {A} a.
Arguments Raise {A} e.

Definition bind {A B : Type} (m : result A) (k : A -> result B) : result B :=
  match m with
  | Ok a => k a
  | Raise e => Raise e
  end.

Notation "x <- m ;; k" := (bind m (fun x => k))
  (at level 61, m at next level, right associativity).

Definition mapM {A B : Type} (f : A -> result B) : list A -> result (list B) :=
  fix go (l : list A) : result (list B) :=
    match l with
    | [] => Ok []
    | x :: l' => y <- f x ;; ys <- go l' ;; Ok (y :: ys)
    end.

Fixpoint foldM {A S : Type} (f : S -> A -> result S) (l : list A) (s : S)
  : result S :=
  match l with
  | [] => Ok s
  | x :: l' => s' <- f s x ;; foldM f l' s'
  end.

(** ** XML elements and Python values *)

Inductive Node : Type :=
| Element (tag : string) (text : option string) (children : list Node).

Definition tag (n : Node) : string := let 'Element t _ _ := n in t.
Definition text (n : Node) : option string := let 'Element _ x _ := n in x.
Definition getchildren (n : Node) : list Node := let 'Element _ _ c := n in c.

Inductive value : Type :=
| VNone
| VBool (b : bool)
| VInt (n : Z)
| VFloat (f : spec_float)
| VStr (s : string)
| VBytes (b : list byte)
| VDatetime (t : Z)
| VList (l : list value)
| VDict (d : list (value * value))
| VNode (n : Node).

Definition dict : Type := list (value * value).

Notation "k |-> v" := (VStr k, v) (at level 50, no associativity).

Definition of_text (t : option string) : value :=
  match t with
  | Some s => VStr s
  | None => VNone
  end.

(** *** Decidable equality *)

Fixpoint Node_eq_dec (a b : Node) {struct a} : {a = b} + {a <> b}.
Proof.
  decide equality.
  - apply (list_eq_dec Node_eq_dec).
  - decide equality. apply string_dec.
  - apply string_dec.
Defined.

Definition spec_float_eq_dec (a b : spec_float) : {a = b} + {a <> b}.
Proof.
  decide equality; try apply Bool.bool_dec; try apply Z.eq_dec;
    apply Pos.eq_dec.
Defined.

Fixpoint value_eq_dec (a b : value) {struct a} : {a = b} + {a <> b}.
Proof.
  decide equality.
  - apply Bool.bool_dec.
  - apply Z.eq_dec.
  - apply spec_float_eq_dec.
  - apply string_dec.
  - apply (list_eq_dec Byte.byte_eq_dec).
  - apply Z.eq_dec.
  - apply (list_eq_dec value_eq_dec).
  - refine (list_eq_dec _ d d0).
    intros [k1 v1] [k2 v2].
    destruct (value_eq_dec k1 k2) as [Hk | Hk].
    + destruct (value_eq_dec v1 v2) as [Hv | Hv].
      * left. congruence.
      * right. congruence.
    + right. congruence.
  - apply Node_eq_dec.
Defined.

Definition value_eqb (a b : value) : bool :=
  if value_eq_dec a b then true else false.

(** ** Strings *)

Definition newline : ascii := "010"%char.

(** [str.lower()] on code points below 256: the ASCII capitals and the
    Latin-1 capitals U+00C0..U+00DE other than the multiplication sign. *)
Definition lower_ascii (c : ascii) : ascii :=
  let n := nat_of_ascii c in
  if ((65 <=? n) && (n <=? 90))%nat then ascii_of_nat (n + 32)
  else if ((192 <=? n) && (n <=? 222) && negb (n =? 215))%nat
       then ascii_of_nat (n + 32)
  else c.

Fixpoint lower (s : string) : string :=
  match s with
  | EmptyString => EmptyString
  | String c r => String (lower_ascii c) (lower r)
  end.

(** [s.startswith(p)] *)
Definition startswith (s p : string) : bool := String.prefix p s.

(** [s[n:]] *)
Fixpoint str_drop (n : nat) (s : string) : string :=
  match n, s with
  | O, _ => s
  | S n', String _ r => str_drop n' r
  | S _, EmptyString => EmptyString
  end.

(** [s[:n]] *)
Fixpoint str_take (n : nat) (s : string) : string :=
  match n, s with
  | S n', String c r => String c (str_take n' r)
  | _, _ => EmptyString
  end.

(** [c in s] for a one-character [c] *)
Fixpoint contains_char (c : ascii) (s : string) : bool :=
  match s with
  | EmptyString => false
  | String a r => Ascii.eqb a c || contains_char c r
  end.

(** The split of [s] at the last occurrence of [c]. *)
Fixpoint rsplit_last (c : ascii) (s : string) : option (string * string) :=
  match s with
  | EmptyString => None
  | String a r =>
      match rsplit_last c r with
      | Some (h, t) => Some (String a h, t)
      | None => if Ascii.eqb a c then Some (EmptyString, r) else None
      end
  end.

(** [s.rsplit(c, 1)] *)
Definition rsplit1 (c : ascii) (s : string) : list string :=
  match rsplit_last c s with
  | Some (h, t) => [h; t]
  | None => [s]
  end.

(** [s.split(c)] *)
Fixpoint split (c : ascii) (s : string) : list string :=
  match s with
  | EmptyString => [EmptyString]
  | String a r =>
      if Ascii.eqb a c then EmptyString :: split c r
      else match split c r with
           | h :: t => String a h :: t
           | [] => [String a EmptyString]
           end
  end.

Fixpoint join (sep : string) (l : list string) : string :=
  match l with
  | [] => EmptyString
  | [x] => x
  | x :: l' => x ++ sep ++ join sep l'
  end.

(** The position of the first [c] in [s]. *)
Fixpoint find_char (c : ascii) (s : string) : option nat :=
  match s with
  | EmptyString => None
  | String a r =>
      if Ascii.eqb a c then Some O
      else match find_char c r with
           | Some i => Some (S i)
           | None => None
           end
  end.

(** [re.sub('{.*}', '', line)] on a line without a newline: the leftmost
    match starts at the first brace that has a closing brace after it and,
    [.*] being greedy, ends at the last closing brace of the line; nothing
    after that one can match again. *)
Definition sub_braces_line (line : string) : string :=
  match find_char "{"%char line with
  | None => line
  | Some i =>
      match rsplit_last "}"%char (str_drop (S i) line) with
      | Some (_, t) => str_take i line ++ t
      | None => line
      end
  end.

(** [re.compile('{.*}').sub('', s)]: the dot does not match a newline, so
    the substitution works line by line. *)
Definition namespace_re_sub (s : string) : string :=
  join (String newline EmptyString) (map sub_braces_line (split newline s)).

(** [str(n)] for an integer *)
Definition str_of_int (n : Z) : string := NilZero.string_of_int (Z.to_int n).

(** ** Dictionaries *)

Fixpoint dict_get (d : dict) (k : value) : option value :=
  match d with
  | [] => None
  | (k', v) :: d' => if value_eqb k' k then Some v else dict_get d' k
  end.

(** [d[k] = v] for a hashable [k] *)
Fixpoint dict_set (d : dict) (k v : value) : dict :=
  match d with
  | [] => [(k, v)]
  | (k', v') :: d' =>
      if value_eqb k' k then (k', v) :: d' else (k', v') :: dict_set d' k v
  end.

Fixpoint dict_del (d : dict) (k : value) : dict :=
  match d with
  | [] => []
  | (k', v') :: d' =>
      if value_eqb k' k then dict_del d' k else (k', v') :: dict_del d' k
  end.

Definition dict_in (k : value) (d : dict) : bool :=
  match dict_get d k with Some _ => true | None => false end.

Definition keys (d : dict) : list value := map fst d.

(** [d1.update(d2)] *)
Definition dict_update (d1 d2 : dict) : dict :=
  fold_left (fun acc kv => dict_set acc (fst kv) (snd kv)) d2 d1.

Definition hashable (v : value) : bool :=
  match v with
  | VList _ | VDict _ => false
  | _ => true
  end.

(** [d[k] = v] *)
Definition setitem (d : dict) (k v : value) : result dict :=
  if hashable k then Ok (dict_set d k v) else Raise TypeError.

(** [d.pop(k)] *)
Definition pop (d : dict) (k : string) : result (value * dict) :=
  match dict_get d (VStr k) with
  | Some v => Ok (v, dict_del d (VStr k))
  | None => Raise (KeyError k)
  end.

(** [obj[k] = v] on an arbitrary object *)
Definition py_setitem (obj : value) (k : string) (v : value) : result value :=
  match obj with
  | VDict d => Ok (VDict (dict_set d (VStr k) v))
  | _ => Raise TypeError
  end.

(** [obj[k]] for a string [k] *)
Definition py_getitem (obj : value) (k : string) : result value :=
  match obj with
  | VDict d =>
      match dict_get d (VStr k) with
      | Some v => Ok v
      | None => Raise (KeyError k)
      end
  | _ => Raise TypeError
  end.

(** [obj.get(k, default)] *)
Definition py_get (obj : value) (k : string) (default : value) : result value :=
  match obj with
  | VDict d =>
      match dict_get d (VStr k) with
      | Some v => Ok v
      | None => Ok default
      end
  | _ => Raise AttributeError
  end.

(** Headers: a [dict] from [str] to [str]. *)
Definition Headers : Type := list (string * string).

Fixpoint header_get (h : Headers) (k : string) : option string :=
  match h with
  | [] => None
  | (k', v) :: h' => if String.eqb k' k then Some v else header_get h' k
  end.

Definition header_in (k : string) (h : Headers) : bool :=
  match header_get h k with Some _ => true | None => false end.

Definition header_get_default (h : Headers) (k default : string) : string :=
  match header_get h k with Some v => v | None => default end.


(** ** Shapes and responses *)

Record Serialization : Type := {
  name : option string;
  location : option string;
  flattened : bool;
  payload : option string;
  resultWrapper : option string
}.

Definition no_serialization : Serialization :=
  {| name := None; location := None; flattened := false;
     payload := None; resultWrapper := None |}.

Inductive kind : Type :=
| string_ | character | boolean | integer | long | float | double
| blob | timestamp.

Inductive Shape : Type :=
| StructureShape (serialization : Serialization)
                 (members : list (string * Shape))
| ListShape (serialization : Serialization) (member : Shape)
| MapShape (serialization : Serialization) (key value : Shape)
| ScalarShape (serialization : Serialization) (k : kind).

Definition serialization (shape : Shape) : Serialization :=
  match shape with
  | StructureShape s _ | ListShape s _ | MapShape s _ _ | ScalarShape s _ => s
  end.

Definition kind_name (k : kind) : string :=
  match k with
  | string_ => "string" | character => "character" | boolean => "boolean"
  | integer => "integer" | long => "long" | float => "float"
  | double => "double" | blob => "blob" | timestamp => "timestamp"
  end.

Definition type_name (shape : Shape) : string :=
  match shape with
  | StructureShape _ _ => "structure"
  | ListShape _ _ => "list"
  | MapShape _ _ _ => "map"
  | ScalarShape _ k => kind_name k
  end.

Record Response : Type := {
  status_code : Z;
  headers : Headers;
  body : list byte
}.

Inductive protocol : Type := ec2 | query | json | rest_json | rest_xml.

(** ** Library collaborators *)

Class Externals : Type := {
  (** [bytes.decode('utf-8')] *)
  decode : list byte -> result string;
  (** [json.loads] *)
  json_loads : string -> result value;
  (** [XMLParser.feed] followed by [XMLParser.close] *)
  XMLParser : list byte -> result Node;
  (** [base64.b64decode] *)
  b64decode : value -> result (list byte);
  (** [int(x)] *)
  py_int : value -> result Z;
  (** [float(x)] *)
  py_float : value -> result spec_float;
  (** the timestamp parser given to the constructor *)
  timestamp_parser : value -> result value;
  (** [http_client.responses.get] *)
  http_responses : Z -> option string
}.

(** ** Run-time typed access *)

(** [for item in v] *)
Definition py_iter (v : value) : result (list value) :=
  match v with
  | VNode n => Ok (map VNode (getchildren n))
  | VList l => Ok l
  | VDict d => Ok (keys d)
  | VStr s =>
      Ok (map (fun c => VStr (String c EmptyString)) (list_ascii_of_string s))
  | VBytes b => Ok (map (fun x => VInt (Z.of_N (Byte.to_N x))) b)
  | _ => Raise TypeError
  end.

(** [hasattr(v, 'text')] *)
Definition hasattr_text (v : value) : bool :=
  match v with VNode _ => true | _ => false end.

(** [v.text] *)
Definition node_text (v : value) : result value :=
  match v with
  | VNode n => Ok (of_text (text n))
  | _ => Raise AttributeError
  end.

(** [v.getchildren()] *)
Definition node_children (v : value) : result (list Node) :=
  match v with
  | VNode n => Ok (getchildren n)
  | _ => Raise AttributeError
  end.

(** [v.items()] *)
Definition py_items (v : value) : result dict :=
  match v with
  | VDict d => Ok d
  | _ => Raise AttributeError
  end.

Definition is_list (v : value) : bool :=
  match v with VList _ => true | _ => false end.

Definition is_none (v : value) : bool :=
  match v with VNone => true | _ => false end.

(** ** [BaseXMLResponseParser]: the tag index *)

Definition _node_tag (node : value) : result string :=
  match node with
  | VNode n => Ok (namespace_re_sub (tag n))
  | _ => Raise AttributeError
  end.

Definition index_item (xml_dict : dict) (item : value) : result dict :=
  key <- _node_tag item ;;
  match dict_get xml_dict (VStr key) with
  | Some (VList l) => Ok (dict_set xml_dict (VStr key) (VList (l ++ [item])))
  | Some v => Ok (dict_set xml_dict (VStr key) (VList [v; item]))
  | None => Ok (dict_set xml_dict (VStr key) item)
  end.

Definition _build_name_to_xml_node (parent_node : value) : result dict :=
  items <- py_iter parent_node ;;
  foldM index_item items [].

(** [_replace_nodes]; the recursion follows the depth of the tree, and
    [fuel] bounds it. *)
Fixpoint _replace_nodes (fuel : nat) (parsed : dict) : result dict :=
  match fuel with
  | O => Raise RecursionError
  | S fuel' =>
      foldM (fun (acc : dict) (kv : value * value) =>
               let (key, value) := kv in
               children <- node_children value ;;
               match children with
               | _ :: _ =>
                   sub_dict <- _build_name_to_xml_node value ;;
                   r <- _replace_nodes fuel' sub_dict ;;
                   Ok (dict_set acc key (VDict r))
               | [] =>
                   t <- node_text value ;;
                   Ok (dict_set acc key t)
               end) parsed parsed
  end.

Fixpoint height (n : Node) : nat :=
  match n with
  | Element _ _ children =>
      S ((fix go (l : list Node) : nat :=
            match l with
            | [] => O
            | c :: l' => Nat.max (height c) (go l')
            end) children)
  end.

(** ** [BaseXMLResponseParser]: the map handler *)

Section XMLMap.
Variables parse_key parse_value : value -> result value.
Variables key_location_name value_location_name : string.

(** The bindings of [key_name] and [val_name]; [None] is unbound. *)
Definition bindings : Type := (option value * option value)%type.

Definition map_pair (b : bindings) (single_pair : value) : result bindings :=
  tag_name <- _node_tag single_pair ;;
  if String.eqb tag_name key_location_name then
    key_name <- parse_key single_pair ;; Ok (Some key_name, snd b)
  else if String.eqb tag_name value_location_name then
    val_name <- parse_value single_pair ;; Ok (fst b, Some val_name)
  else Raise (ResponseParserError ("Unknown tag: " ++ tag_name)).

Definition map_entry (st : dict * bindings) (keyval_node : value)
  : result (dict * bindings) :=
  pairs <- py_iter keyval_node ;;
  b <- foldM map_pair pairs (snd st) ;;
  match b with
  | (_, None) => Raise (UnboundLocalError "val_name")
  | (None, Some _) => Raise (UnboundLocalError "key_name")
  | (Some key_name, Some val_name) =>
      parsed <- setitem (fst st) key_name val_name ;;
      Ok (parsed, b)
  end.

Definition map_loop (node : value) : result value :=
  entries <- py_iter node ;;
  st <- foldM map_entry entries ([], (None, None)) ;;
  Ok (VDict (fst st)).
End XMLMap.

(** [x or default] for an optional string *)
Definition or_default (x : option string) (default : string) : string :=
  match x with
  | Some EmptyString | None => default
  | Some s => s
  end.

Definition _member_key_name (shape : Shape) (member_name : string) : string :=
  let own :=
    match name (serialization shape) with
    | Some serialized_name => serialized_name
    | None => member_name
    end in
  match shape with
  | ListShape s member =>
      if flattened s then
        match name (serialization member) with
        | Some list_member_serialized_name => list_member_serialized_name
        | None => own
        end
      else own
  | _ => own
  end.

(** ** The shape handlers *)

Section Parsers.
Context {E : Externals}.

(** *** Scalars *)

Definition ResponseParser_default_handle (node : value) : result value :=
  Ok node.

Definition BaseXML_handle_boolean (node : value) : result value :=
  t <- node_text node ;;
  if value_eqb t (VStr "true") then Ok (VBool true) else Ok (VBool false).

Definition BaseXML_handle_float (node : value) : result value :=
  t <- node_text node ;; f <- py_float t ;; Ok (VFloat f).

Definition BaseXML_handle_timestamp (node : value) : result value :=
  v <- (if hasattr_text node then node_text node else Ok node) ;;
  timestamp_parser v.

Definition BaseXML_handle_integer (node : value) : result value :=
  t <- node_text node ;; n <- py_int t ;; Ok (VInt n).

Definition QueryParser_handle_string (node : value) : result value :=
  node_text node.

Definition QueryParser_handle_blob (node : value) : result value :=
  t <- node_text node ;; b <- b64decode t ;; Ok (VBytes b).

Definition BaseJSON_handle_blob (v : value) : result value :=
  b <- b64decode v ;; Ok (VBytes b).

Definition BaseJSON_handle_timestamp (v : value) : result value :=
  timestamp_parser v.

Definition RestXML_handle_float (node : value) : result value :=
  if hasattr_text node then
    t <- node_text node ;; f <- py_float t ;; Ok (VFloat f)
  else f <- py_float node ;; Ok (VFloat f).

Definition RestXML_handle_integer (node : value) : result value :=
  if hasattr_text node then
    t <- node_text node ;; n <- py_int t ;; Ok (VInt n)
  else n <- py_int node ;; Ok (VInt n).

Definition RestXML_handle_blob (node : value) : result value :=
  t <- node_text node ;; b <- b64decode t ;; Ok (VBytes b).

Definition RestXML_default_handle (node : value) : result value :=
  if hasattr_text node then node_text node else Ok node.

(** The handler that [getattr(self, '_handle_' + kind, default)] finds
    along the method resolution order of each parser class. *)
Definition scalar_handler (p : protocol) (k : kind) : value -> result value :=
  match p with
  | query | ec2 =>
      match k with
      | string_ | character => QueryParser_handle_string
      | boolean => BaseXML_handle_boolean
      | integer | long => BaseXML_handle_integer
      | float | double => BaseXML_handle_float
      | blob => QueryParser_handle_blob
      | timestamp => BaseXML_handle_timestamp
      end
  | rest_xml =>
      match k with
      | string_ | character => RestXML_default_handle
      | boolean => BaseXML_handle_boolean
      | integer | long => RestXML_handle_integer
      | float | double => RestXML_handle_float
      | blob => RestXML_handle_blob
      | timestamp => BaseXML_handle_timestamp
      end
  | json | rest_json =>
      match k with
      | blob => BaseJSON_handle_blob
      | timestamp => BaseJSON_handle_timestamp
      | _ => ResponseParser_default_handle
      end
  end.

Definition is_xml (p : protocol) : bool :=
  match p with
  | query | ec2 | rest_xml => true
  | json | rest_json => false
  end.

(** *** Containers *)

(** [BaseXMLResponseParser._handle_list]: the node handed on to the list
    handler of [ResponseParser]. *)
Definition BaseXML_list_node (s : Serialization) (node : value) : value :=
  if flattened s && negb (is_list node) then VList [node] else node.

Fixpoint _parse_shape (p : protocol) (shape : Shape) (node : value)
  {struct shape} : result value :=
  match shape with
  | ScalarShape _ k => scalar_handler p k node
  | ListShape s member =>
      let node := if is_xml p then BaseXML_list_node s node else node in
      items <- py_iter node ;;
      parsed <- mapM (_parse_shape p member) items ;;
      Ok (VList parsed)
  | MapShape _ key_shape value_shape =>
      if is_xml p then
        map_loop (_parse_shape p key_shape) (_parse_shape p value_shape)
                 (or_default (name (serialization key_shape)) "key")
                 (or_default (name (serialization value_shape)) "value")
                 node
      else
        items <- py_items node ;;
        parsed <- foldM (fun (parsed : dict) (kv : value * value) =>
                           actual_key <- _parse_shape p key_shape (fst kv) ;;
                           actual_value <- _parse_shape p value_shape (snd kv) ;;
                           setitem parsed actual_key actual_value)
                        items [] ;;
        Ok (VDict parsed)
  | StructureShape _ members =>
      if is_xml p then
        xml_dict <- _build_name_to_xml_node node ;;
        parsed <-
          (fix loop (ms : list (string * Shape)) (parsed : dict)
             : result dict :=
             match ms with
             | [] => Ok parsed
             | (member_name, member_shape) :: ms' =>
                 match location (serialization member_shape) with
                 | Some _ => loop ms' parsed
                 | None =>
                     let xml_name :=
                       _member_key_name member_shape member_name in
                     match dict_get xml_dict (VStr xml_name) with
                     | Some member_node =>
                         v <- _parse_shape p member_shape member_node ;;
                         loop ms' (dict_set parsed (VStr member_name) v)
                     | None => loop ms' parsed
                     end
                 end
             end) members [] ;;
        Ok (VDict parsed)
      else
        final_parsed <-
          (fix loop (ms : list (string * Shape)) (final_parsed : dict)
             : result dict :=
             match ms with
             | [] => Ok final_parsed
             | (member_name, member_shape) :: ms' =>
                 let json_name :=
                   match name (serialization member_shape) with
                   | Some n => n
                   | None => member_name
                   end in
                 raw_value <- py_get node json_name VNone ;;
                 if is_none raw_value then loop ms' final_parsed
                 else
                   v <- _parse_shape p member_shape raw_value ;;
                   loop ms' (dict_set final_parsed (VStr member_name) v)
             end) members [] ;;
        Ok (VDict final_parsed)
  end.
End Parsers.

(** ** The protocol variants *)

Section Variants.
Context {E : Externals}.

Definition _parse_xml_string_to_dom (xml_string : list byte) : result Node :=
  XMLParser xml_string.

(** [parsed['ResponseMetadata'] = {'RequestId': parsed.pop('RequestId')}]
    when [parsed] has the key *)
Definition promote_RequestId (parsed : dict) : dict :=
  match dict_get parsed (VStr "RequestId") with
  | Some rid =>
      dict_set (dict_del parsed (VStr "RequestId"))
               (VStr "ResponseMetadata") (VDict ["RequestId" |-> rid])
  | None => parsed
  end.

(** *** [QueryParser] *)

Definition QueryParser_do_error_parse (response : Response) : result dict :=
  root <- _parse_xml_string_to_dom (body response) ;;
  parsed <- _build_name_to_xml_node (VNode root) ;;
  parsed <- _replace_nodes (height root) parsed ;;
  Ok (promote_RequestId parsed).

Definition _find_result_wrapped_shape (element_name : string)
  (xml_root_node : value) : result value :=
  mapping <- _build_name_to_xml_node xml_root_node ;;
  py_getitem (VDict mapping) element_name.

Definition QueryParser_inject_response_metadata (node inject_into : value)
  : result value :=
  mapping <- _build_name_to_xml_node node ;;
  match dict_get mapping (VStr "ResponseMetadata") with
  | Some child_node =>
      sub_mapping <- _build_name_to_xml_node child_node ;;
      sub_mapping <-
        foldM (fun (acc : dict) (kv : value * value) =>
                 t <- node_text (snd kv) ;; Ok (dict_set acc (fst kv) t))
              sub_mapping sub_mapping ;;
      py_setitem inject_into "ResponseMetadata" (VDict sub_mapping)
  | None => Ok inject_into
  end.

Definition EC2QueryParser_inject_response_metadata (node inject_into : value)
  : result value :=
  mapping <- _build_name_to_xml_node node ;;
  match dict_get mapping (VStr "requestId") with
  | Some child_node =>
      t <- node_text child_node ;;
      py_setitem inject_into "ResponseMetadata" (VDict ["RequestId" |-> t])
  | None => Ok inject_into
  end.

Definition QueryParser_do_parse (p : protocol) (response : Response)
  (shape : option Shape) : result value :=
  root <- _parse_xml_string_to_dom (body response) ;;
  parsed <-
    match shape with
    | Some shape =>
        start <-
          match resultWrapper (serialization shape) with
          | Some wrapper => _find_result_wrapped_shape wrapper (VNode root)
          | None => Ok (VNode root)
          end ;;
        _parse_shape p shape start
    | None => Ok (VDict [])
    end ;;
  match p with
  | ec2 => EC2QueryParser_inject_response_metadata (VNode root) parsed
  | _ => QueryParser_inject_response_metadata (VNode root) parsed
  end.

(** *** [EC2QueryParser] *)

Definition EC2QueryParser_do_error_parse (response : Response)
  : result dict :=
  original <- QueryParser_do_error_parse response ;;
  popped <- pop original "RequestID" ;;
  let original :=
    dict_set (snd popped) (VStr "ResponseMetadata")
             (VDict ["RequestId" |-> fst popped]) in
  popped <- pop original "Errors" ;;
  error <- py_getitem (fst popped) "Error" ;;
  Ok (dict_set (snd popped) (VStr "Error") error).

(** *** [JSONParser] *)

(** [parsed.setdefault('ResponseMetadata', {})['RequestId'] = ...] when the
    header is there; the dictionary that [setdefault] returns is the one
    stored in [parsed]. *)
Definition JSONParser_inject_response_metadata (parsed : value)
  (headers : Headers) : result value :=
  match header_get headers "x-amzn-requestid" with
  | Some request_id =>
      match parsed with
      | VDict d =>
          let metadata :=
            match dict_get d (VStr "ResponseMetadata") with
            | Some m => m
            | None => VDict []
            end in
          metadata <- py_setitem metadata "RequestId" (VStr request_id) ;;
          Ok (VDict (dict_set d (VStr "ResponseMetadata") metadata))
      | _ => Raise AttributeError
      end
  | None => Ok parsed
  end.

Definition JSONParser_do_parse (response : Response) (shape : option Shape)
  : result value :=
  body <- decode (body response) ;;
  original_parsed <- json_loads body ;;
  parsed <-
    match shape with
    | Some shape => _parse_shape json shape original_parsed
    | None => Raise AttributeError
    end ;;
  JSONParser_inject_response_metadata parsed (headers response).

(** ['#' in code] *)
Definition contains_hash (code : value) : result bool :=
  match code with
  | VStr s => Ok (contains_char "#"%char s)
  | VList l => Ok (existsb (value_eqb (VStr "#")) l)
  | VDict d => Ok (dict_in (VStr "#") d)
  | _ => Raise TypeError
  end.

(** [code.rsplit('#', 1)[1]] *)
Definition rsplit_hash_1 (code : value) : result value :=
  match code with
  | VStr s =>
      match nth_error (rsplit1 "#"%char s) 1 with
      | Some t => Ok (VStr t)
      | None => Raise IndexError
      end
  | _ => Raise AttributeError
  end.

Definition JSONParser_do_error_parse (response : Response) : result value :=
  text <- decode (body response) ;;
  body <- json_loads text ;;
  default <- py_get body "Message" VNone ;;
  message <- py_get body "message" default ;;
  let error_Error := ["Message" |-> message] in
  code <- py_get body "__type" VNone ;;
  error_Error <-
    (if is_none code then Ok error_Error
     else
       has_hash <- contains_hash code ;;
       code <- (if has_hash : bool then rsplit_hash_1 code else Ok code) ;;
       Ok (dict_set error_Error (VStr "Code") code)) ;;
  JSONParser_inject_response_metadata
    (VDict ["Error" |-> VDict error_Error; "ResponseMetadata" |-> VDict []])
    (headers response).

(** *** [BaseRestParser] *)

Definition _populate_response_metadata (response : Response) : dict :=
  let headers := headers response in
  match header_get headers "x-amzn-requestid" with
  | Some rid => ["RequestId" |-> VStr rid]
  | None =>
      match header_get headers "x-amz-request-id" with
      | Some rid =>
          ["RequestId" |-> VStr rid;
           "HostId" |-> VStr (header_get_default headers "x-amz-id-2" "")]
      | None => []
      end
  end.

Definition RestJSON_initial_body_parse (body_contents : list byte)
  : result value :=
  match body_contents with
  | [] => Ok (VDict [])
  | _ => body <- decode body_contents ;; json_loads body
  end.

Definition RestXML_initial_body_parse (xml_string : list byte)
  : result value :=
  match xml_string with
  | [] => Ok (VNode (Element "" None []))
  | _ => root <- _parse_xml_string_to_dom xml_string ;; Ok (VNode root)
  end.

Definition _initial_body_parse (p : protocol) (body_contents : list byte)
  : result value :=
  match p with
  | rest_json => RestJSON_initial_body_parse body_contents
  | rest_xml => RestXML_initial_body_parse body_contents
  | _ => Raise (NotImplementedError "_initial_body_parse")
  end.

Definition header_prefix (shape : Shape) : string :=
  lower (match name (serialization shape) with
         | Some n => n
         | None => ""
         end).

Definition header_map_item (prefix : string) (parsed : dict)
  (h : string * string) : dict :=
  let (header_name, header_value) := h in
  if startswith (lower header_name) prefix then
    dict_set parsed (VStr (str_drop (String.length prefix) header_name))
             (VStr header_value)
  else parsed.

Definition _parse_header_map (shape : Shape) (headers : Headers) : dict :=
  let prefix := header_prefix shape in
  fold_left (header_map_item prefix) headers [].

Definition non_payload_attr (p : protocol) (response : Response)
  (final_parsed : dict) (m : string * Shape) : result dict :=
  let (member_name, member_shape) := m in
  match location (serialization member_shape) with
  | None => Ok final_parsed
  | Some loc =>
      if String.eqb loc "statusCode" then
        v <- _parse_shape p member_shape (VInt (status_code response)) ;;
        Ok (dict_set final_parsed (VStr member_name) v)
      else if String.eqb loc "headers" then
        Ok (dict_set final_parsed (VStr member_name)
              (VDict (_parse_header_map member_shape (headers response))))
      else if String.eqb loc "header" then
        let header_name :=
          match name (serialization member_shape) with
          | Some n => n
          | None => member_name
          end in
        match header_get (headers response) header_name with
        | Some h =>
            v <- _parse_shape p member_shape (VStr h) ;;
            Ok (dict_set final_parsed (VStr member_name) v)
        | None => Ok final_parsed
        end
      else Ok final_parsed
  end.

Definition _parse_non_payload_attrs (p : protocol) (response : Response)
  (member_shapes : list (string * Shape)) (final_parsed : dict)
  : result dict :=
  foldM (non_payload_attr p response) member_shapes final_parsed.

Fixpoint members_get (member_shapes : list (string * Shape)) (k : string)
  : result Shape :=
  match member_shapes with
  | [] => Raise (KeyError k)
  | (k', s) :: ms => if String.eqb k' k then Ok s else members_get ms k
  end.

Definition is_stream (body_shape : Shape) : bool :=
  String.eqb (type_name body_shape) "string"
  || String.eqb (type_name body_shape) "blob".

Definition _parse_payload (p : protocol) (response : Response)
  (shape : Shape) (member_shapes : list (string * Shape))
  (final_parsed : dict) : result dict :=
  match payload (serialization shape) with
  | Some payload_member_name =>
      body_shape <- members_get member_shapes payload_member_name ;;
      if is_stream body_shape then
        body <- decode (body response) ;;
        Ok (dict_set final_parsed (VStr payload_member_name) (VStr body))
      else
        original_parsed <- _initial_body_parse p (body response) ;;
        v <- _parse_shape p body_shape original_parsed ;;
        Ok (dict_set final_parsed (VStr payload_member_name) v)
  | None =>
      original_parsed <- _initial_body_parse p (body response) ;;
      body_parsed <- _parse_shape p shape original_parsed ;;
      match body_parsed with
      | VDict d => Ok (dict_update final_parsed d)
      | _ => Raise TypeError
      end
  end.

Definition BaseRestParser_do_parse (p : protocol) (response : Response)
  (shape : option Shape) : result value :=
  let final_parsed :=
    ["ResponseMetadata" |-> VDict (_populate_response_metadata response)] in
  match shape with
  | None => Ok (VDict final_parsed)
  | Some shape =>
      member_shapes <-
        match shape with
        | StructureShape _ members => Ok members
        | _ => Raise AttributeError
        end ;;
      final_parsed <-
        _parse_non_payload_attrs p response member_shapes final_parsed ;;
      final_parsed <-
        _parse_payload p response shape member_shapes final_parsed ;;
      Ok (VDict final_parsed)
  end.

(** *** [RestJSONParser] *)

Definition RestJSONParser_do_error_parse (response : Response)
  : result value :=
  body <- RestJSON_initial_body_parse (body response) ;;
  message <- py_get body "message" (VStr "") ;;
  let error_Error := ["Message" |-> message] in
  let error_Error :=
    match header_get (headers response) "x-amzn-errortype" with
    | Some code =>
        dict_set error_Error (VStr "Code")
                 (VStr (hd EmptyString (split ":"%char code)))
    | None => error_Error
    end in
  Ok (VDict ["Error" |-> VDict error_Error; "ResponseMetadata" |-> VDict []]).

(** *** [RestXMLParser] *)

Definition _parse_error_from_http_status (response : Response) : value :=
  VDict
    ["Error" |->
       VDict ["Code" |-> VStr (str_of_int (status_code response));
              "Message" |->
                VStr (match http_responses (status_code response) with
                      | Some phrase => phrase
                      | None => ""
                      end)];
     "ResponseMetadata" |->
       VDict ["RequestId" |->
                VStr (header_get_default (headers response)
                        "x-amz-request-id" "");
              "HostId" |->
                VStr (header_get_default (headers response)
                        "x-amz-id-2" "")]].

Definition _parse_error_from_body (response : Response) : result value :=
  root <- _parse_xml_string_to_dom (body response) ;;
  parsed <- _build_name_to_xml_node (VNode root) ;;
  parsed <- _replace_nodes (height root) parsed ;;
  if String.eqb (tag root) "Error" then
    let metadata := _populate_response_metadata response in
    let parsed := dict_del parsed (VStr "RequestId") in
    let parsed := dict_del parsed (VStr "HostId") in
    Ok (VDict ["Error" |-> VDict parsed;
               "ResponseMetadata" |-> VDict metadata])
  else Ok (VDict (promote_RequestId parsed)).

Definition RestXMLParser_do_error_parse (response : Response)
  : result value :=
  match body response with
  | _ :: _ => _parse_error_from_body response
  | [] => Ok (_parse_error_from_http_status response)
  end.

(** *** [ResponseParser.parse] *)

Definition _do_parse (p : protocol) (response : Response)
  (shape : option Shape) : result value :=
  match p with
  | query | ec2 => QueryParser_do_parse p response shape
  | json => JSONParser_do_parse response shape
  | rest_json | rest_xml => BaseRestParser_do_parse p response shape
  end.

Definition _do_error_parse (p : protocol) (response : Response)
  (shape : option Shape) : result value :=
  match p with
  | query => d <- QueryParser_do_error_parse response ;; Ok (VDict d)
  | ec2 => d <- EC2QueryParser_do_error_parse response ;; Ok (VDict d)
  | json => JSONParser_do_error_parse response
  | rest_json => RestJSONParser_do_error_parse response
  | rest_xml => RestXMLParser_do_error_parse response
  end.

Definition parse (p : protocol) (response : Response) (shape : option Shape)
  : result value :=
  if (status_code response >=? 301)%Z
  then _do_error_parse p response shape
  else _do_parse p response shape.
End Variants.

(** [PROTOCOL_PARSERS] *)
Definition create_parser (protocol_name : string) : result protocol :=
  if String.eqb protocol_name "ec2" then Ok ec2
  else if String.eqb protocol_name "query" then Ok query
  else if String.eqb protocol_name "json" then Ok json
  else if String.eqb protocol_name "rest-json" then Ok rest_json
  else if String.eqb protocol_name "rest-xml" then Ok rest_xml
  else Raise (KeyError protocol_name).

(** ** Equality of results, as Python's [==] *)

Fixpoint py_eqb (a b : value) {struct a} : bool :=
  match a, b with
  | VList l1, VList l2 =>
      (fix go (l1 l2 : list value) : bool :=
         match l1, l2 with
         | [], [] => true
         | x :: l1', y :: l2' => py_eqb x y && go l1' l2'
         | _, _ => false
         end) l1 l2
  | VDict d1, VDict d2 =>
      Nat.eqb (length d1) (length d2)
      && (fix all (l : list (value * value)) : bool :=
            match l with
            | [] => true
            | (k, v) :: l' =>
                match dict_get d2 k with
                | Some v2 => py_eqb v v2
                | None => false
                end && all l'
            end) d1
  | _, _ => value_eqb a b
  end.

(** ** A sample of the collaborators

    A small instantiation of [Externals]: on the inputs it accepts it
    returns what the library functions return; everything else is
    [LibraryError "sample"]. *)

Definition quote : string := String "034"%char EmptyString.

Definition outside {A : Type} : result A := Raise (LibraryError "sample").

Fixpoint sample_decode (b : list byte) : result string :=
  match b with
  | [] => Ok EmptyString
  | x :: r =>
      let n := Byte.to_N x in
      if (n <? 128)%N then
        s <- sample_decode r ;; Ok (String (ascii_of_N n) s)
      else if (n <? 194)%N || (245 <=? n)%N then Raise UnicodeDecodeError
      else outside
  end.

Fixpoint digits (s : string) (acc : Z) : option Z :=
  match s with
  | EmptyString => Some acc
  | String c r =>
      let n := nat_of_ascii c in
      if ((48 <=? n) && (n <=? 57))%nat
      then digits r (10 * acc + Z.of_nat (n - 48))%Z
      else None
  end.

Definition sample_int (v : value) : result Z :=
  match v with
  | VInt n => Ok n
  | VStr (String c r) =>
      match digits (String c r) 0%Z with
      | Some n => Ok n
      | None => outside
      end
  | VStr EmptyString => Raise ValueError
  | VNone => Raise TypeError
  | _ => outside
  end.

Definition foo_exception_text : string :=
  "{" ++ quote ++ "__type" ++ quote ++ ":" ++ quote ++ "com.x#FooException"
      ++ quote ++ "," ++ quote ++ "message" ++ quote ++ ":" ++ quote ++ "bad"
      ++ quote ++ "}".

Definition foo_exception_body : value :=
  VDict ["__type" |-> VStr "com.x#FooException"; "message" |-> VStr "bad"].

Definition sample_json_loads (s : string) : result value :=
  if String.eqb s "{}" then Ok (VDict [])
  else if String.eqb s foo_exception_text then Ok foo_exception_body
  else outside.

Definition ec2_error_text : string :=
  "<Response><Errors><Error><Code>E</Code><Message>bad</Message></Error>"
  ++ "</Errors><RequestID>rid</RequestID></Response>".

Definition ec2_error_root : Node :=
  Element "Response" None
    [Element "Errors" None
       [Element "Error" None
          [Element "Code" (Some "E") [];
           Element "Message" (Some "bad") []]];
     Element "RequestID" (Some "rid") []].

Definition code_only_text : string :=
  "<Response><Errors><Error><Code>E</Code></Error></Errors>"
  ++ "<RequestID>rid</RequestID></Response>".

Definition code_only_root : Node :=
  Element "Response" None
    [Element "Errors" None
       [Element "Error" None [Element "Code" (Some "E") []]];
     Element "RequestID" (Some "rid") []].

Definition sample_XMLParser (b : list byte) : result Node :=
  if String.eqb (string_of_list_byte b) ec2_error_text then Ok ec2_error_root
  else if String.eqb (string_of_list_byte b) code_only_text
       then Ok code_only_root
  else outside.

Definition sample_b64decode (v : value) : result (list byte) :=
  match v with
  | VStr s =>
      if String.eqb s "" then Ok []
      else if String.eqb s "aGk=" then Ok (list_byte_of_string "hi")
      else outside
  | VNone => Raise TypeError
  | _ => outside
  end.

Definition sample_responses (status : Z) : option string :=
  if (status =? 400)%Z then Some "Bad Request"
  else if (status =? 403)%Z then Some "Forbidden"
  else if (status =? 404)%Z then Some "Not Found"
  else if (status =? 500)%Z then Some "Internal Server Error"
  else None.

Definition sample_externals : Externals := {|
  decode := sample_decode;
  json_loads := sample_json_loads;
  XMLParser := sample_XMLParser;
  b64decode := sample_b64decode;
  py_int := sample_int;
  py_float := fun _ => outside;
  timestamp_parser := fun _ => outside;
  http_responses := sample_responses
|}.

(** The shape of an error result as the module documents it: exactly the
    keys [Error] and [ResponseMetadata], with [Code] and [Message] under
    [Error]. *)
Definition has_key (k : string) (v : value) : bool :=
  match v with
  | VDict d => dict_in (VStr k) d
  | _ => false
  end.

Definition documented_error_result (r : value) : bool :=
  match r with
  | VDict d =>
      forallb (fun k => value_eqb k (VStr "Error")
                        || value_eqb k (VStr "ResponseMetadata")) (keys d)
      && dict_in (VStr "ResponseMetadata") d
      && match dict_get d (VStr "Error") with
         | Some error => has_key "Code" error && has_key "Message" error
         | None => false
         end
  | _ => false
  end.

(** A structure whose payload member [Body] is a blob. *)
Definition blob_payload_shape : Shape :=
  StructureShape
    {| name := None; location := None; flattened := false;
       payload := Some "Body"; resultWrapper := None |}
    [("Body", ScalarShape no_serialization blob)].

Definition flattened_serialization : Serialization :=
  {| name := None; location := None; flattened := true;
     payload := None; resultWrapper := None |}.

(** The code of an error type without its namespace: what follows the
    last ["#"], or the whole string when it has none. *)
Definition strip_namespace (code : string) : string :=
  match rsplit_last "#"%char code with
  | Some (_, t) => t
  | None => code
  end.

(** The message of a JSON error body: its ["message"], else its
    ["Message"], else [None]. *)
Definition json_message (d : dict) : value :=
  match dict_get d (VStr "message") with
  | Some m => m
  | None =>
      match dict_get d (VStr "Message") with
      | Some m => m
      | None => VNone
      end
  end.

Definition foo_exception_response : Response :=
  {| status_code := 400;
     headers := [("x-amzn-requestid", "rid2")];
     body := list_byte_of_string foo_exception_text |}.

Definition ec2_error_response : Response :=
  {| status_code := 400;
     headers := [];
     body := list_byte_of_string ec2_error_text |}.

(** The [Error] entry that [JSONParser._do_error_parse] builds from the
    JSON object [d]. *)
Definition json_error (d : dict) : dict :=
  ("Message" |-> json_message d)
    :: match dict_get d (VStr "__type") with
       | Some (VStr c) => ["Code" |-> VStr (strip_namespace c)]
       | _ => []
       end.

(** The [ResponseMetadata] entry that it builds from the headers. *)
Definition json_metadata (h : Headers) : dict :=
  match header_get h "x-amzn-requestid" with
  | Some rid => ["RequestId" |-> VStr rid]
  | None => []
  end.

(** [__type] is absent, null or a string. *)
Definition type_is_string (d : dict) : Prop :=
  match dict_get d (VStr "__type") with
  | None | Some VNone | Some (VStr _) => True
  | Some _ => False
  end.

(** The local name of an element: its tag without the namespace. *)
Definition local_name (c : Node) : string := namespace_re_sub (tag c).

(** No child of [entry] has the local name [loc]. *)
Definition lacks (loc : string) (entry : Node) : bool :=
  forallb (fun c => negb (String.eqb (local_name c) loc)) (getchildren entry).

(** [d[k] = v] for each pair of [kvs] in turn. *)
Definition dict_set_all (kvs : list (value * value)) (d : dict) : dict :=
  fold_left (fun acc kv => dict_set acc (fst kv) (snd kv)) kvs d.

Section MapEntries.
Variables parse_key parse_value : value -> result value.
Variables key_location_name value_location_name : string.

(** An entry element with one key-tagged and one value-tagged child, in
    either order, that decode to [k] and [v]. *)
Definition key_value_entry (entry k v : value) : Prop :=
  exists t x kc vc,
    (entry = VNode (Element t x [kc; vc])
     \/ entry = VNode (Element t x [vc; kc]))
    /\ local_name kc = key_location_name
    /\ local_name vc = value_location_name
    /\ key_location_name <> value_location_name
    /\ parse_key (VNode kc) = Ok k
    /\ parse_value (VNode vc) = Ok v
    /\ hashable k = true.

(** Every child of the entry is key-tagged and decodes; [ks] are the
    decoded keys. *)
Definition only_keys (entry : Node) (ks : list value) : Prop :=
  Forall2 (fun c k => local_name c = key_location_name
                      /\ parse_key (VNode c) = Ok k)
          (getchildren entry) ks.

(** Every child of the entry is value-tagged and decodes; [vs] are the
    decoded values. *)
Definition only_values (entry : Node) (vs : list value) : Prop :=
  Forall2 (fun c v => local_name c = value_location_name
                      /\ local_name c <> key_location_name
                      /\ parse_value (VNode c) = Ok v)
          (getchildren entry) vs.
End MapEntries.

Definition map_entry_node (k v : string) : Node :=
  Element "entry" None
          [Element "key" (Some k) []; Element "value" (Some v) []].

Definition string_to_integer_map : Shape :=
  MapShape no_serialization (ScalarShape no_serialization string_)
           (ScalarShape no_serialization integer).

Definition string_to_string_map : Shape :=
  MapShape no_serialization (ScalarShape no_serialization string_)
           (ScalarShape no_serialization string_).

Definition two_entry_map : Node :=
  Element "Map" None [map_entry_node "a" "1"; map_entry_node "b" "2"].

(** The binding of a name after it was assigned each of [xs] in turn. *)
Definition rebind (xs : list value) (b : option value) : option value :=
  fold_left (fun _ x => Some x) xs b.

Definition key_only_entry (k : string) : Node :=
  Element "entry" None [Element "key" (Some k) []].

Definition unknown_child_entry : Node :=
  Element "entry" None [Element "foo" None []].

Definition location_serialization (loc : string) (n : option string)
  : Serialization :=
  {| name := n; location := Some loc; flattened := false;
     payload := None; resultWrapper := None |}.

(** A structure with a boolean member taken from the status code. *)
Definition flag_shape : Shape :=
  StructureShape no_serialization
    [("Flag", ScalarShape (location_serialization "statusCode" None) boolean)].

(** A structure with a [long] member taken from [Content-Length]. *)
Definition length_shape : Shape :=
  StructureShape no_serialization
    [("ContentLength",
      ScalarShape (location_serialization "header" (Some "Content-Length"))
                  long)].

Definition status_shape : Shape :=
  StructureShape no_serialization
    [("Status", ScalarShape (location_serialization "statusCode" None)
                            integer)].

(** The kinds that a REST variant hands on unchanged. *)
Definition passes_through (p : protocol) (k : kind) : bool :=
  match p, k with
  | rest_json, (blob | timestamp) => false
  | rest_json, _ => true
  | rest_xml, (string_ | character) => true
  | _, _ => false
  end.

(** The name of the header that a [header] member reads. *)
Definition member_header_name (member_name : string) (member_shape : Shape)
  : string :=
  match name (serialization member_shape) with
  | Some n => n
  | None => member_name
  end.

Definition status_response : Response :=
  {| status_code := 200;
     headers := [("x-amz-meta-Color", "red"); ("Content-Length", "42")];
     body := [] |}.

Definition status_members : list (string * Shape) :=
  [("Status", ScalarShape (location_serialization "statusCode" None) integer);
   ("Meta",
    MapShape (location_serialization "headers" (Some "X-Amz-Meta-"))
             (ScalarShape no_serialization string_)
             (ScalarShape no_serialization string_))].

(** What [_parse_non_payload_attrs] does for one member: [before] and
    [after] are the member's entry before and after. *)
Definition attr_post {E : Externals} (p : protocol) (response : Response)
  (member_name : string) (member_shape : Shape)
  (before after : option value) : Prop :=
  (location (serialization member_shape) = Some "statusCode" ->
   exists v,
     _parse_shape p member_shape (VInt (status_code response)) = Ok v
     /\ after = Some v)
  /\ (location (serialization member_shape) = Some "header" ->
      match header_get (headers response)
                       (member_header_name member_name member_shape) with
      | Some h =>
          exists v,
            _parse_shape p member_shape (VStr h) = Ok v /\ after = Some v
      | None => after = before
      end)
  /\ (location (serialization member_shape) = Some "headers" ->
      after
      = Some (VDict (_parse_header_map member_shape (headers response)))).

(** A value of the tag index of [n]: a child of [n], or a sequence. *)
Definition indexed_from (n : Node) (kv : value * value) : Prop :=
  (exists c, snd kv = VNode c /\ In c (getchildren n))
  \/ (exists l, snd kv = VList l).

(** Every element held by [parsed] is at most [fuel] high. *)
Definition within (fuel : nat) (parsed : dict) : Prop :=
  Forall (fun kv => forall n, snd kv = VNode n -> height n <= fuel) parsed.

(** ** Vocabulary of the further properties *)

(** The children of an element with the local name [t], in order. *)
Definition children_named (t : string) (cs : list Node) : list Node :=
  filter (fun c => String.eqb (local_name c) t) cs.

(** What the tag index holds for a run of same-named elements: nothing
    for none, the element itself for one, the sequence for more. *)
Definition indexed (l : list Node) : option value :=
  match l with
  | [] => None
  | [c] => Some (VNode c)
  | _ => Some (VList (map VNode l))
  end.

(** The key under which the JSON body holds a member. *)
Definition json_name (member_name : string) (member_shape : Shape) : string :=
  match name (serialization member_shape) with
  | Some n => n
  | None => member_name
  end.

Section StructureMembers.
Context {E : Externals}.

(** One turn of the member loop of
    [BaseXMLResponseParser._handle_structure]. *)
Definition xml_member (p : protocol) (xml_dict parsed : dict)
  (m : string * Shape) : result dict :=
  let (member_name, member_shape) := m in
  match location (serialization member_shape) with
  | Some _ => Ok parsed
  | None =>
      match dict_get xml_dict
                     (VStr (_member_key_name member_shape member_name)) with
      | Some member_node =>
          v <- _parse_shape p member_shape member_node ;;
          Ok (dict_set parsed (VStr member_name) v)
      | None => Ok parsed
      end
  end.

(** One turn of the member loop of [BaseJSONParser._handle_structure]. *)
Definition json_member (p : protocol) (node : value) (final_parsed : dict)
  (m : string * Shape) : result dict :=
  let (member_name, member_shape) := m in
  raw_value <- py_get node (json_name member_name member_shape) VNone ;;
  if is_none raw_value then Ok final_parsed
  else
    v <- _parse_shape p member_shape raw_value ;;
    Ok (dict_set final_parsed (VStr member_name) v).
End StructureMembers.

Definition one_string_member : Shape :=
  StructureShape no_serialization
    [("A", ScalarShape no_serialization string_)].

(** The leaf-collapsed form of an element: its text when it has no
    child, else the mapping from the local name of each child to the
    collapsed child. *)
Fixpoint collapse (n : Node) : value :=
  match n with
  | Element _ x cs =>
      match cs with
      | [] => of_text x
      | _ :: _ =>
          VDict ((fix go (l : list Node) : dict :=
                    match l with
                    | [] => []
                    | c :: l' => (VStr (local_name c), collapse c) :: go l'
                    end) cs)
      end
  end.

Definition collapse_children (cs : list Node) : dict :=
  map (fun c => (VStr (local_name c), collapse c)) cs.

(** The index of children with distinct local names. *)
Definition index_entries (cs : list Node) : dict :=
  map (fun c => (VStr (local_name c), VNode c)) cs.

(** No element of the tree has two children with the same local name. *)
Fixpoint distinct_tags (n : Node) : Prop :=
  match n with
  | Element _ _ cs =>
      NoDup (map local_name cs)
      /\ (fix all (l : list Node) : Prop :=
            match l with
            | [] => True
            | c :: l' => distinct_tags c /\ all l'
            end) cs
  end.

(** One turn of the loop of [_replace_nodes], with the fuel left for the
    recursion. *)
Definition replace_item (fuel' : nat) (acc : dict) (kv : value * value)
  : result dict :=
  let (key, value) := kv in
  children <- node_children value ;;
  match children with
  | _ :: _ =>
      sub_dict <- _build_name_to_xml_node value ;;
      r <- _replace_nodes fuel' sub_dict ;;
      Ok (dict_set acc key (VDict r))
  | [] =>
      t <- node_text value ;;
      Ok (dict_set acc key t)
  end.

Definition query_error_text : string :=
  "<ErrorResponse><Error><Code>E</Code></Error>"
  ++ "<RequestId>r1</RequestId></ErrorResponse>".

Definition query_error_root : Node :=
  Element "ErrorResponse" None
    [Element "Error" None [Element "Code" (Some "E") []];
     Element "RequestId" (Some "r1") []].

Definition two_errors_root : Node :=
  Element "Response" None
    [Element "Error" (Some "a") []; Element "Error" (Some "b") []].

Definition s3_error_root : Node :=
  Element "Error" None
    [Element "Code" (Some "NoSuchKey") [];
     Element "RequestId" (Some "r1") [];
     Element "HostId" (Some "h1") []].

(** Collaborators whose XML tokenizer returns [root] for every body and
    that are [sample_externals] otherwise. *)
Definition tokenizing_to (root : Node) : Externals := {|
  decode := sample_decode;
  json_loads := sample_json_loads;
  XMLParser := fun _ => Ok root;
  b64decode := sample_b64decode;
  py_int := sample_int;
  py_float := fun _ => outside;
  timestamp_parser := fun _ => outside;
  http_responses := sample_responses
|}.

(** Some element of the tree has two children with the same local
    name. *)
Inductive has_repeated : Node -> Prop :=
| repeated_here (n : Node) :
    ~ NoDup (map local_name (getchildren n)) -> has_repeated n
| repeated_below (n c : Node) :
    In c (getchildren n) -> has_repeated c -> has_repeated n.

(** The common start of the error paths with an XML body: tokenize,
    index the children of the root, collapse. *)
Definition collapse_xml_body {E : Externals} (xml_contents : list byte)
  : result dict :=
  root <- _parse_xml_string_to_dom xml_contents ;;
  parsed <- _build_name_to_xml_node (VNode root) ;;
  _replace_nodes (height root) parsed.

Definition two_errors_below : Node :=
  Element "Response" None
    [Element "Errors" None
       [Element "Error" (Some "a") []; Element "Error" (Some "b") []];
     Element "RequestID" (Some "rid") []].

(** The members of an output shape; none when there is no shape. *)
Definition output_members (shape : option Shape) : list (string * Shape) :=
  match shape with
  | Some (StructureShape _ ms) => ms
  | _ => []
  end.

Definition is_rest (p : protocol) : bool :=
  match p with
  | rest_json | rest_xml => true
  | _ => false
  end.

(** The mapping that a REST success parse starts from. *)
Definition initial_parsed (response : Response) : dict :=
  ["ResponseMetadata" |-> VDict (_populate_response_metadata response)].

Definition header_and_body_shape : Shape :=
  StructureShape no_serialization
    [("A", ScalarShape (location_serialization "header" (Some "X-A"))
                       string_);
     ("B", ScalarShape no_serialization string_)].

(** Collaborators whose JSON tokenizer returns [v] for every text and
    that are [sample_externals] otherwise. *)
Definition loading (v : value) : Externals := {|
  decode := sample_decode;
  json_loads := fun _ => Ok v;
  XMLParser := sample_XMLParser;
  b64decode := sample_b64decode;
  py_int := sample_int;
  py_float := fun _ => outside;
  timestamp_parser := fun _ => outside;
  http_responses := sample_responses
|}.

(** [_inject_response_metadata] of the Query variants. *)
Definition query_inject {E : Externals} (p : protocol)
  (node inject_into : value) : result value :=
  match p with
  | ec2 => EC2QueryParser_inject_response_metadata node inject_into
  | _ => QueryParser_inject_response_metadata node inject_into
  end.

Definition wrapped_shape (wrapper : string) : Shape :=
  StructureShape
    {| name := None; location := None; flattened := false;
       payload := None; resultWrapper := Some wrapper |}
    [("A", ScalarShape no_serialization string_)].

(** The decoding step of [QueryParser._do_parse], between tokenizing the
    body and injecting the metadata. *)
Definition query_body_parse {E : Externals} (p : protocol)
  (shape : option Shape) (root : Node) : result value :=
  match shape with
  | Some shape =>
      start <-
        match resultWrapper (serialization shape) with
        | Some wrapper => _find_result_wrapped_shape wrapper (VNode root)
        | None => Ok (VNode root)
        end ;;
      _parse_shape p shape start
  | None => Ok (VDict [])
  end.

(** The local names of elements with their texts, in order. *)
Definition texts (cs : list Node) : dict :=
  map (fun c => (VStr (local_name c), of_text (text c))) cs.

Definition query_metadata_root : Node :=
  Element "Response" None
    [Element "ResponseMetadata" None
       [Element "RequestId" (Some "r1") [];
        Element "Extra" None []]].

Definition ec2_request_root : Node :=
  Element "Response" None
    [Element "requestId" (Some "r1") []; Element "other" (Some "x") []].

(** The kinds that the JSON variants decode with [_default_handle]. *)
Definition json_default_kind (k : kind) : bool :=
  match k with
  | blob | timestamp => false
  | _ => true
  end.

(** The kinds whose only RestXML handler reads [node.text]. *)
Definition text_only_kind (k : kind) : bool :=
  match k with
  | boolean | blob => true
  | _ => false
  end.

(** In a REST success parse the member is read from the status code, or
    from a header that the response has. *)
Definition located_scalar (response : Response) (member_name : string)
  (member_shape : Shape) : bool :=
  match location (serialization member_shape) with
  | Some loc =>
      String.eqb loc "statusCode"
      || (String.eqb loc "header"
          && header_in (member_header_name member_name member_shape)
                       (headers response))
  | None => false
  end.

Definition payload_serialization (member_name : string) : Serialization :=
  {| name := None; location := None; flattened := false;
     payload := Some member_name; resultWrapper := None |}.

Definition delete_marker_members : list (string * Shape) :=
  [("DeleteMarker",
    ScalarShape (location_serialization "header" (Some "x-amz-delete-marker"))
                boolean)].

(** * Properties *)

(** ** Results and dictionaries *)

Lemma value_eqb_refl (a : value) : value_eqb a a = true.
Proof. unfold value_eqb. destruct (value_eq_dec a a); congruence. Qed.

Lemma value_eqb_eq (a b : value) : value_eqb a b = true <-> a = b.
Proof.
  unfold value_eqb. destruct (value_eq_dec a b); split; congruence.
Qed.

Lemma value_eqb_neq (a b : value) : value_eqb a b = false <-> a <> b.
Proof.
  unfold value_eqb. destruct (value_eq_dec a b); split; congruence.
Qed.

Lemma bind_Ok {A B : Type} (m : result A) (k : A -> result B) (b : B) :
  bind m k = Ok b -> exists a, m = Ok a /\ k a = Ok b.
Proof. destruct m as [a | e]; simpl; [eauto | discriminate]. Qed.

Ltac inv_bind H :=
  let a := fresh "a" in
  let Ha := fresh "H" a in
  apply bind_Ok in H; destruct H as [a [Ha H]].

Lemma dict_get_set_same (d : dict) (k v : value) :
  dict_get (dict_set d k v) k = Some v.
Proof.
  induction d as [| [k' v'] d IH]; simpl.
  - now rewrite value_eqb_refl.
  - destruct (value_eqb k' k) eqn:Hk; simpl; rewrite Hk; auto.
Qed.

Lemma dict_get_set_other (d : dict) (k k' v : value) :
  k <> k' -> dict_get (dict_set d k v) k' = dict_get d k'.
Proof.
  intros Hne. induction d as [| [k0 v0] d IH]; simpl.
  - apply value_eqb_neq in Hne. now rewrite Hne.
  - destruct (value_eqb k0 k) eqn:Hk; simpl.
    + apply value_eqb_eq in Hk. subst k0.
      apply value_eqb_neq in Hne. now rewrite Hne.
    + destruct (value_eqb k0 k'); auto.
Qed.

Lemma dict_get_del_same (d : dict) (k : value) :
  dict_get (dict_del d k) k = None.
Proof.
  induction d as [| [k' v'] d IH]; simpl; auto.
  destruct (value_eqb k' k) eqn:Hk; simpl; auto. now rewrite Hk.
Qed.

Lemma dict_get_del_other (d : dict) (k k' : value) :
  k <> k' -> dict_get (dict_del d k) k' = dict_get d k'.
Proof.
  intros Hne. induction d as [| [k0 v0] d IH]; simpl; auto.
  destruct (value_eqb k0 k) eqn:Hk; simpl.
  - apply value_eqb_eq in Hk. subst k0.
    apply value_eqb_neq in Hne. now rewrite Hne.
  - destruct (value_eqb k0 k'); auto.
Qed.

(** ** The top-level result of the error path *)

(** C7: for the RestXML variant on the error path with an empty body the
    result is synthesized from the status and the headers alone:
    [Error.Code] is the stringified status code, [Error.Message] the reason
    phrase of [http_client.responses] for it (empty when the table has
    none), and [ResponseMetadata] holds [RequestId] and [HostId] from the
    [x-amz-request-id] and [x-amz-id-2] headers, each the empty string when
    its header is absent. *)
Theorem rest_xml_error_from_http_status {E : Externals}
  (response : Response) (shape : option Shape) :
  (status_code response >=? 301)%Z = true ->
  body response = [] ->
  parse rest_xml response shape =
    Ok (VDict
          ["Error" |->
             VDict ["Code" |-> VStr (str_of_int (status_code response));
                    "Message" |->
                      VStr (match http_responses (status_code response) with
                            | Some phrase => phrase
                            | None => ""
                            end)];
           "ResponseMetadata" |->
             VDict ["RequestId" |->
                      VStr (match header_get (headers response)
                                    "x-amz-request-id" with
                            | Some v => v
                            | None => ""
                            end);
                    "HostId" |->
                      VStr (match header_get (headers response)
                                    "x-amz-id-2" with
                            | Some v => v
                            | None => ""
                            end)]]).
Proof.
  intros Hstatus Hbody. unfold parse. rewrite Hstatus. simpl.
  unfold RestXMLParser_do_error_parse. rewrite Hbody. reflexivity.
Qed.

Lemma rest_xml_error_from_http_status_witness :
  let response :=
    {| status_code := 404; headers := [("x-amz-request-id", "r1")];
       body := [] |} in
  (status_code response >=? 301)%Z = true /\
  body response = [] /\
  parse (E := sample_externals) rest_xml response None =
    Ok (VDict
          ["Error" |->
             VDict ["Code" |-> VStr "404"; "Message" |-> VStr "Not Found"];
           "ResponseMetadata" |->
             VDict ["RequestId" |-> VStr "r1"; "HostId" |-> VStr ""]]).
Proof.
  split; [reflexivity | split; [reflexivity |]].
  apply (rest_xml_error_from_http_status (E := sample_externals)
           {| status_code := 404; headers := [("x-amz-request-id", "r1")];
              body := [] |} None); reflexivity.
Defined.

(** C1: the RestJSON error path never fills [ResponseMetadata]: whatever
    the headers are, the result of an error response with an empty body
    has an empty [ResponseMetadata]; with the request id header present,
    [parse] returns no [RequestId]. *)
Theorem rest_json_error_without_RequestId {E : Externals}
  (h : Headers) (shape : option Shape) :
  (exists error,
      parse rest_json {| status_code := 400; headers := h; body := [] |} shape
      = Ok (VDict ["Error" |-> VDict error; "ResponseMetadata" |-> VDict []]))
  /\ parse rest_json
           {| status_code := 400; headers := [("x-amzn-requestid", "rid")];
              body := [] |} shape
     = Ok (VDict ["Error" |-> VDict ["Message" |-> VStr ""];
                  "ResponseMetadata" |-> VDict []]).
Proof.
  split; [| reflexivity].
  unfold parse. simpl. unfold RestJSONParser_do_error_parse. simpl.
  eexists. reflexivity.
Qed.

Lemma rest_xml_error_shape {E : Externals} (response : Response) :
  body response = [] ->
  RestXMLParser_do_error_parse response =
    Ok (_parse_error_from_http_status response).
Proof. intros H. unfold RestXMLParser_do_error_parse. now rewrite H. Qed.

(** C2, as stated, fails for each variant: the RestJSON and JSON error
    results of a response without an error type have no [Code] under
    [Error]; the Query result, and the RestXML result of a wrapped body, is
    the leaf-collapsed body, whatever its keys are; the EC2Query result holds
    the [Error] child as the body has it, here without [Message]. *)
Lemma documented_error_result_counterexample :
  (400 >=? 301)%Z = true
  /\ (exists r,
         parse (E := sample_externals) rest_json
               {| status_code := 400; headers := []; body := [] |} None = Ok r
         /\ documented_error_result r = false)
  /\ (exists r,
         parse (E := sample_externals) json
               {| status_code := 400; headers := [];
                  body := list_byte_of_string "{}" |} None = Ok r
         /\ documented_error_result r = false)
  /\ (exists r,
         parse (E := sample_externals) query
               {| status_code := 400; headers := [];
                  body := list_byte_of_string ec2_error_text |} None = Ok r
         /\ documented_error_result r = false)
  /\ (exists r,
         parse (E := sample_externals) rest_xml
               {| status_code := 400; headers := [];
                  body := list_byte_of_string ec2_error_text |} None = Ok r
         /\ documented_error_result r = false)
  /\ (exists r,
         parse (E := sample_externals) ec2
               {| status_code := 400; headers := [];
                  body := list_byte_of_string code_only_text |} None = Ok r
         /\ documented_error_result r = false).
Proof.
  split; [reflexivity |].
  repeat split; eexists; split; vm_compute; reflexivity.
Qed.

Lemma JSONParser_inject_fresh {E : Externals} (error : dict) (h : Headers) :
  exists metadata,
    JSONParser_inject_response_metadata
      (VDict ["Error" |-> VDict error; "ResponseMetadata" |-> VDict []]) h =
    Ok (VDict ["Error" |-> VDict error; "ResponseMetadata" |-> VDict metadata]).
Proof.
  unfold JSONParser_inject_response_metadata.
  destruct (header_get h "x-amzn-requestid"); eexists; reflexivity.
Qed.

(** C2, amended: on the error path the JSON and RestJSON variants, and
    RestXML with an empty body, return exactly the keys [Error] and
    [ResponseMetadata], both mappings; [Error] always holds [Message]; it
    holds [Code] for RestXML, and for RestJSON exactly when the response has
    an [x-amzn-errortype] header. *)
Theorem error_result_keys {E : Externals} (p : protocol)
  (response : Response) (shape : option Shape) (r : value) :
  (status_code response >=? 301)%Z = true ->
  p = json \/ p = rest_json \/ (p = rest_xml /\ body response = []) ->
  parse p response shape = Ok r ->
  exists error metadata message,
    r = VDict ["Error" |-> VDict error; "ResponseMetadata" |-> VDict metadata]
    /\ dict_get error (VStr "Message") = Some message
    /\ (p = rest_xml -> dict_in (VStr "Code") error = true)
    /\ (p = rest_json ->
        dict_in (VStr "Code") error
        = header_in "x-amzn-errortype" (headers response)).
Proof.
  intros Hstatus Hp Hparse. unfold parse in Hparse. rewrite Hstatus in Hparse.
  destruct Hp as [-> | [-> | [-> Hbody]]]; simpl in Hparse.
  - unfold JSONParser_do_error_parse in Hparse.
    inv_bind Hparse. inv_bind Hparse. inv_bind Hparse. inv_bind Hparse.
    inv_bind Hparse. inv_bind Hparse.
    destruct (JSONParser_inject_fresh a4 (headers response)) as [md Hmd].
    rewrite Hmd in Hparse. injection Hparse as <-.
    exists a4, md, a2. repeat split; try discriminate.
    destruct (is_none a3).
    + injection Ha4 as <-. reflexivity.
    + inv_bind Ha4. inv_bind Ha4. injection Ha4 as <-. reflexivity.
  - unfold RestJSONParser_do_error_parse in Hparse.
    inv_bind Hparse. inv_bind Hparse. injection Hparse as <-.
    unfold header_in.
    destruct (header_get (headers response) "x-amzn-errortype");
      do 3 eexists; repeat split; try discriminate; reflexivity.
  - rewrite (rest_xml_error_shape response Hbody) in Hparse.
    injection Hparse as <-.
    do 3 eexists; repeat split; try discriminate; reflexivity.
Qed.

Lemma error_result_keys_witness :
  let response := {| status_code := 400; headers := []; body := [] |} in
  (status_code response >=? 301)%Z = true /\
  exists error metadata message,
    VDict ["Error" |-> VDict ["Message" |-> VStr ""];
           "ResponseMetadata" |-> VDict []]
    = VDict ["Error" |-> VDict error; "ResponseMetadata" |-> VDict metadata]
    /\ dict_get error (VStr "Message") = Some message
    /\ (rest_json = rest_xml -> dict_in (VStr "Code") error = true)
    /\ (rest_json = rest_json ->
        dict_in (VStr "Code") error = header_in "x-amzn-errortype" []).
Proof.
  split; [reflexivity |].
  apply (error_result_keys (E := sample_externals) rest_json
           {| status_code := 400; headers := []; body := [] |} None).
  - reflexivity.
  - right. left. reflexivity.
  - reflexivity.
Defined.

(** ** Blobs *)

(** The blob handler of every variant returns [bytes]. *)
Lemma blob_handler_yields_bytes {E : Externals} (p : protocol)
  (node v : value) :
  scalar_handler p blob node = Ok v -> exists b, v = VBytes b.
Proof.
  destruct p; simpl; intros H.
  - unfold QueryParser_handle_blob in H. inv_bind H. inv_bind H.
    injection H as <-. eauto.
  - unfold QueryParser_handle_blob in H. inv_bind H. inv_bind H.
    injection H as <-. eauto.
  - unfold BaseJSON_handle_blob in H. inv_bind H. injection H as <-. eauto.
  - unfold BaseJSON_handle_blob in H. inv_bind H. injection H as <-. eauto.
  - unfold RestXML_handle_blob in H. inv_bind H. inv_bind H.
    injection H as <-. eauto.
Qed.

(** C3: a REST payload member of kind blob does not receive the body as
    bytes: [_parse_payload] decodes the body as UTF-8, so the member holds
    text when the body decodes and the parse raises when it does not. *)
Theorem blob_payload_is_decoded_as_text {E : Externals} (b : list byte) :
  parse rest_xml {| status_code := 200; headers := []; body := b |}
        (Some blob_payload_shape)
  = (text <- decode b ;;
     Ok (VDict ["ResponseMetadata" |-> VDict []; "Body" |-> VStr text]))
  /\ parse rest_json {| status_code := 200; headers := []; body := b |}
           (Some blob_payload_shape)
     = (text <- decode b ;;
        Ok (VDict ["ResponseMetadata" |-> VDict []; "Body" |-> VStr text]))
  /\ parse (E := sample_externals) rest_xml
           {| status_code := 200; headers := []; body := [xff] |}
           (Some blob_payload_shape)
     = Raise UnicodeDecodeError
  /\ parse (E := sample_externals) rest_xml
           {| status_code := 200; headers := [];
              body := list_byte_of_string "hi" |}
           (Some blob_payload_shape)
     = Ok (VDict ["ResponseMetadata" |-> VDict []; "Body" |-> VStr "hi"]).
Proof.
  repeat split; try reflexivity.
  - unfold parse. simpl. unfold BaseRestParser_do_parse, _parse_payload.
    simpl. destruct (decode b); reflexivity.
  - unfold parse. simpl. unfold BaseRestParser_do_parse, _parse_payload.
    simpl. destruct (decode b); reflexivity.
Qed.

(** ** Lists *)

Lemma mapM_Forall2 {A B : Type} (f : A -> result B) (l : list A)
  (l' : list B) :
  mapM f l = Ok l' -> Forall2 (fun x y => f x = Ok y) l l'.
Proof.
  revert l'. induction l as [| x l IH]; simpl; intros l' H.
  - injection H as <-. constructor.
  - inv_bind H. inv_bind H. injection H as <-. constructor; auto.
Qed.

(** C4: for the XML variants a flattened list shape decodes a node that
    is not a sequence to the one-element sequence of the decoded member,
    and decodes a sequence element by element, in order. *)
Theorem flattened_list_decode {E : Externals} (p : protocol)
  (s : Serialization) (member : Shape) (node : value) :
  is_xml p = true ->
  flattened s = true ->
  (is_list node = false ->
   _parse_shape p (ListShape s member) node
   = (v <- _parse_shape p member node ;; Ok (VList [v])))
  /\ (forall items,
         node = VList items ->
         _parse_shape p (ListShape s member) node
         = (parsed <- mapM (_parse_shape p member) items ;; Ok (VList parsed)))
  /\ (forall items parsed,
         mapM (_parse_shape p member) items = Ok parsed ->
         Forall2 (fun item v => _parse_shape p member item = Ok v)
                 items parsed).
Proof.
  intros Hp Hflat. repeat split.
  - intros Hnode. simpl. rewrite Hp. unfold BaseXML_list_node.
    rewrite Hflat, Hnode. simpl.
    destruct (_parse_shape p member node); reflexivity.
  - intros items ->. simpl. rewrite Hp. unfold BaseXML_list_node.
    rewrite Hflat. reflexivity.
  - intros items parsed. apply mapM_Forall2.
Qed.

Lemma flattened_list_decode_witness :
  let node := VNode (Element "item" (Some "x") []) in
  is_xml query = true /\
  flattened flattened_serialization = true /\
  is_list node = false /\
  _parse_shape (E := sample_externals) query
    (ListShape flattened_serialization (ScalarShape no_serialization string_))
    node
  = Ok (VList [VStr "x"]).
Proof.
  split; [reflexivity | split; [reflexivity | split; [reflexivity |]]].
  apply (proj1 (flattened_list_decode (E := sample_externals) query
                  flattened_serialization
                  (ScalarShape no_serialization string_)
                  (VNode (Element "item" (Some "x") []))
                  eq_refl eq_refl)).
  reflexivity.
Defined.

(** ** Strings *)

Lemma rsplit_last_None (c : ascii) (s : string) :
  rsplit_last c s = None <-> contains_char c s = false.
Proof.
  induction s as [| a r IH]; simpl.
  - tauto.
  - destruct (rsplit_last c r) as [[h t] |].
    + split; [discriminate |]. intros H.
      apply orb_false_iff in H. destruct H as [_ H].
      apply IH in H. discriminate.
    + destruct (Ascii.eqb a c); simpl.
      * split; discriminate.
      * split; intros _; [now apply IH | reflexivity].
Qed.

Lemma rsplit_last_app (c : ascii) (h t : string) :
  contains_char c t = false ->
  rsplit_last c (h ++ String c t)%string = Some (h, t).
Proof.
  intros Ht. induction h as [| a h IH]; simpl.
  - apply rsplit_last_None in Ht. rewrite Ht.
    now rewrite Ascii.eqb_refl.
  - now rewrite IH.
Qed.

Lemma rsplit_last_Some (c : ascii) (s h t : string) :
  rsplit_last c s = Some (h, t) ->
  s = (h ++ String c t)%string /\ contains_char c t = false.
Proof.
  revert h t. induction s as [| a r IH]; simpl; intros h t H.
  - discriminate.
  - destruct (rsplit_last c r) as [[h' t'] |] eqn:Hr.
    + injection H as <- <-. destruct (IH _ _ eq_refl) as [-> Ht].
      split; [reflexivity | exact Ht].
    + destruct (Ascii.eqb a c) eqn:Hac; [| discriminate].
      injection H as <- <-. apply Ascii.eqb_eq in Hac. subst a.
      split; [reflexivity | now apply rsplit_last_None].
Qed.

(** [strip_namespace] removes everything up to and including the last
    ["#"]. *)
Lemma strip_namespace_spec (code : string) :
  (contains_char "#"%char code = false -> strip_namespace code = code)
  /\ (forall h t,
         code = (h ++ String "#"%char t)%string ->
         contains_char "#"%char t = false ->
         strip_namespace code = t).
Proof.
  unfold strip_namespace. split.
  - intros H. apply rsplit_last_None in H. now rewrite H.
  - intros h t -> Ht. now rewrite (rsplit_last_app _ h t Ht).
Qed.

Lemma strip_namespace_code {E : Externals} (base : dict) (c : string) :
  (has_hash <- contains_hash (VStr c) ;;
   code <- (if has_hash : bool then rsplit_hash_1 (VStr c) else Ok (VStr c)) ;;
   Ok (dict_set base (VStr "Code") code))
  = Ok (dict_set base (VStr "Code") (VStr (strip_namespace c))).
Proof.
  simpl. unfold strip_namespace, rsplit1.
  destruct (rsplit_last "#"%char c) as [[h t] |] eqn:Hr.
  - assert (Hc : contains_char "#"%char c = true).
    { destruct (contains_char "#"%char c) eqn:Hc; [reflexivity |].
      apply rsplit_last_None in Hc. congruence. }
    rewrite Hc. reflexivity.
  - apply rsplit_last_None in Hr. rewrite Hr. reflexivity.
Qed.

(** ** The JSON error path *)

Lemma bind_ret {A B : Type} (a : A) (k : A -> result B) : bind (Ok a) k = k a.
Proof. reflexivity. Qed.

Ltac step := rewrite bind_ret; cbv beta zeta.

Lemma py_get_dict (d : dict) (k : string) (default : value) :
  py_get (VDict d) k default
  = Ok (match dict_get d (VStr k) with Some v => v | None => default end).
Proof. unfold py_get. destruct (dict_get d (VStr k)); reflexivity. Qed.

Lemma JSONParser_inject_spec {E : Externals} (error : dict) (h : Headers) :
  JSONParser_inject_response_metadata
    (VDict ["Error" |-> VDict error; "ResponseMetadata" |-> VDict []]) h
  = Ok (VDict ["Error" |-> VDict error;
               "ResponseMetadata" |-> VDict (json_metadata h)]).
Proof.
  unfold JSONParser_inject_response_metadata, json_metadata.
  destruct (header_get h "x-amzn-requestid"); reflexivity.
Qed.

(** C6: on the error path of the JSON variant, for a body that is a JSON
    object [d]: [Error.Message] is [d]'s ["message"], else its ["Message"];
    [Error.Code] is [d]'s ["__type"] without everything up to and including
    its last ["#"], and is left out when ["__type"] is absent;
    [ResponseMetadata.RequestId] is the [x-amzn-requestid] header.  The body
    [{"__type":"com.x#FooException","message":"bad"}] with the header
    [x-amzn-requestid: rid2] gives
    [{"Error":{"Code":"FooException","Message":"bad"},
      "ResponseMetadata":{"RequestId":"rid2"}}]. *)
Theorem json_error_parse {E : Externals} (response : Response)
  (shape : option Shape) (text : string) (d : dict) :
  (status_code response >=? 301)%Z = true ->
  decode (body response) = Ok text ->
  json_loads text = Ok (VDict d) ->
  type_is_string d ->
  parse json response shape
  = Ok (VDict ["Error" |-> VDict (json_error d);
               "ResponseMetadata" |->
                 VDict (json_metadata (headers response))])
  /\ (response = foo_exception_response ->
      text = foo_exception_text ->
      d = ["__type" |-> VStr "com.x#FooException"; "message" |-> VStr "bad"] ->
      exists r,
        parse json response shape = Ok r /\
        py_eqb r (VDict ["Error" |->
                           VDict ["Code" |-> VStr "FooException";
                                  "Message" |-> VStr "bad"];
                         "ResponseMetadata" |->
                           VDict ["RequestId" |-> VStr "rid2"]]) = true).
Proof.
  intros Hstatus Hdecode Hloads Htype.
  assert (Hgen : parse json response shape
                 = Ok (VDict ["Error" |-> VDict (json_error d);
                              "ResponseMetadata" |->
                                VDict (json_metadata (headers response))])).
  { unfold parse. rewrite Hstatus. simpl.
    unfold JSONParser_do_error_parse.
    rewrite Hdecode. step. rewrite Hloads. step.
    rewrite py_get_dict. step. rewrite py_get_dict. step.
    rewrite py_get_dict. step.
    fold (json_message d).
    rewrite <- JSONParser_inject_spec.
    unfold json_error, type_is_string in *.
    destruct (dict_get d (VStr "__type")) as [[| | | | c | | | | |] |];
      try contradiction; try reflexivity.
    change (is_none (VStr c)) with false. cbv iota.
    rewrite strip_namespace_code. reflexivity. }
  split; [exact Hgen |].
  intros -> -> ->. eexists. split; [exact Hgen |]. vm_compute. reflexivity.
Qed.

Lemma json_error_parse_witness :
  (status_code foo_exception_response >=? 301)%Z = true /\
  decode (Externals := sample_externals) (body foo_exception_response)
  = Ok foo_exception_text /\
  json_loads (Externals := sample_externals) foo_exception_text
  = Ok (VDict ["__type" |-> VStr "com.x#FooException";
               "message" |-> VStr "bad"]) /\
  type_is_string
    ["__type" |-> VStr "com.x#FooException"; "message" |-> VStr "bad"] /\
  parse (E := sample_externals) json foo_exception_response None
  = Ok (VDict ["Error" |->
                 VDict ["Message" |-> VStr "bad";
                        "Code" |-> VStr "FooException"];
               "ResponseMetadata" |-> VDict ["RequestId" |-> VStr "rid2"]]).
Proof.
  split; [reflexivity | split; [reflexivity | split; [reflexivity |]]].
  split; [exact I |].
  apply (proj1 (json_error_parse (E := sample_externals)
                  foo_exception_response None foo_exception_text
                  ["__type" |-> VStr "com.x#FooException";
                   "message" |-> VStr "bad"]
                  eq_refl eq_refl eq_refl I)).
Defined.

(** ** The EC2 error path *)

(** C8: on the error path of the EC2Query variant the leaf-collapsed body
    [original] has its top-level [RequestID] moved to
    [ResponseMetadata.RequestId] and its top-level [Errors] replaced by the
    [Error] child of it; every other key is kept.  The body
    [<Response><Errors><Error><Code>E</Code><Message>bad</Message></Error>
    </Errors><RequestID>rid</RequestID></Response>] gives
    [{"Error":{"Code":"E","Message":"bad"},
      "ResponseMetadata":{"RequestId":"rid"}}]. *)
Theorem ec2_error_parse {E : Externals} (response : Response)
  (shape : option Shape) (original errors : dict) (rid error : value) :
  (status_code response >=? 301)%Z = true ->
  QueryParser_do_error_parse response = Ok original ->
  dict_get original (VStr "RequestID") = Some rid ->
  dict_get original (VStr "Errors") = Some (VDict errors) ->
  dict_get errors (VStr "Error") = Some error ->
  (exists r,
      parse ec2 response shape = Ok (VDict r)
      /\ dict_get r (VStr "ResponseMetadata")
         = Some (VDict ["RequestId" |-> rid])
      /\ dict_get r (VStr "Error") = Some error
      /\ dict_get r (VStr "RequestID") = None
      /\ dict_get r (VStr "Errors") = None
      /\ (forall k,
             k <> VStr "RequestID" -> k <> VStr "Errors" ->
             k <> VStr "ResponseMetadata" -> k <> VStr "Error" ->
             dict_get r k = dict_get original k))
  /\ (body response = list_byte_of_string ec2_error_text ->
      XMLParser (body response) = Ok ec2_error_root ->
      exists r,
        parse ec2 response shape = Ok r /\
        py_eqb r (VDict ["Error" |->
                           VDict ["Code" |-> VStr "E";
                                  "Message" |-> VStr "bad"];
                         "ResponseMetadata" |->
                           VDict ["RequestId" |-> VStr "rid"]]) = true).
Proof.
  intros Hstatus Horig Hrid Herrors Herror.
  assert (Hne1 : VStr "ResponseMetadata" <> VStr "Errors") by discriminate.
  assert (Hne2 : VStr "RequestID" <> VStr "Errors") by discriminate.
  assert (Hparse :
    parse ec2 response shape
    = Ok (VDict
            (dict_set
               (dict_del
                  (dict_set (dict_del original (VStr "RequestID"))
                            (VStr "ResponseMetadata")
                            (VDict ["RequestId" |-> rid]))
                  (VStr "Errors"))
               (VStr "Error") error))).
  { unfold parse. rewrite Hstatus. simpl.
    unfold EC2QueryParser_do_error_parse. rewrite Horig. step.
    unfold pop at 1. rewrite Hrid. step. simpl fst. simpl snd.
    unfold pop.
    rewrite dict_get_set_other by exact Hne1.
    rewrite dict_get_del_other by exact Hne2.
    rewrite Herrors. step. simpl fst. simpl snd.
    unfold py_getitem. rewrite Herror. reflexivity. }
  split.
  - eexists. split; [exact Hparse |]. repeat split.
    + rewrite dict_get_set_other by discriminate.
      rewrite dict_get_del_other by discriminate.
      apply dict_get_set_same.
    + apply dict_get_set_same.
    + rewrite dict_get_set_other by discriminate.
      rewrite dict_get_del_other by discriminate.
      rewrite dict_get_set_other by discriminate.
      apply dict_get_del_same.
    + rewrite dict_get_set_other by discriminate.
      apply dict_get_del_same.
    + intros k H1 H2 H3 H4.
      rewrite dict_get_set_other by congruence.
      rewrite dict_get_del_other by congruence.
      rewrite dict_get_set_other by congruence.
      apply dict_get_del_other. congruence.
  - intros Hbody Hxml.
    assert (Ho : original
                 = ["Errors" |->
                      VDict ["Error" |->
                               VDict ["Code" |-> VStr "E";
                                      "Message" |-> VStr "bad"]];
                    "RequestID" |-> VStr "rid"]).
    { unfold QueryParser_do_error_parse, _parse_xml_string_to_dom in Horig.
      rewrite Hxml in Horig. vm_compute in Horig. congruence. }
    subst original. vm_compute in Hrid, Herrors.
    injection Hrid as <-. injection Herrors as <-.
    vm_compute in Herror. injection Herror as <-.
    eexists. split; [exact Hparse |]. vm_compute. reflexivity.
Qed.

Lemma ec2_error_parse_witness :
  (status_code ec2_error_response >=? 301)%Z = true /\
  XMLParser (Externals := sample_externals) (body ec2_error_response)
  = Ok ec2_error_root /\
  exists r,
    parse (E := sample_externals) ec2 ec2_error_response None = Ok (VDict r)
    /\ dict_get r (VStr "ResponseMetadata")
       = Some (VDict ["RequestId" |-> VStr "rid"])
    /\ dict_get r (VStr "Error")
       = Some (VDict ["Code" |-> VStr "E"; "Message" |-> VStr "bad"])
    /\ dict_get r (VStr "RequestID") = None
    /\ dict_get r (VStr "Errors") = None
    /\ (forall k,
           k <> VStr "RequestID" -> k <> VStr "Errors" ->
           k <> VStr "ResponseMetadata" -> k <> VStr "Error" ->
           dict_get r k
           = dict_get ["Errors" |->
                         VDict ["Error" |->
                                  VDict ["Code" |-> VStr "E";
                                         "Message" |-> VStr "bad"]];
                       "RequestID" |-> VStr "rid"] k).
Proof.
  split; [reflexivity | split; [reflexivity |]].
  apply (proj1 (ec2_error_parse (E := sample_externals)
                  ec2_error_response None
                  ["Errors" |->
                     VDict ["Error" |->
                              VDict ["Code" |-> VStr "E";
                                     "Message" |-> VStr "bad"]];
                   "RequestID" |-> VStr "rid"]
                  ["Error" |->
                     VDict ["Code" |-> VStr "E"; "Message" |-> VStr "bad"]]
                  (VStr "rid")
                  (VDict ["Code" |-> VStr "E"; "Message" |-> VStr "bad"])
                  eq_refl eq_refl eq_refl eq_refl eq_refl)).
Defined.

(** ** The XML map handler *)

Lemma foldM_app {A S : Type} (f : S -> A -> result S) (l1 l2 : list A)
  (s : S) :
  foldM f (l1 ++ l2) s = (s' <- foldM f l1 s ;; foldM f l2 s').
Proof.
  revert s. induction l1 as [| x l1 IH]; simpl; intros s.
  - reflexivity.
  - destruct (f s x); simpl; auto.
Qed.

Lemma foldM_raise_in {A S : Type} (f : S -> A -> result S) (l : list A)
  (x : A) :
  In x l ->
  (forall s, exists e, f s x = Raise e) ->
  forall s, exists e, foldM f l s = Raise e.
Proof.
  intros Hin Hx. induction l as [| y l IH]; simpl; intros s.
  - contradiction.
  - destruct Hin as [-> | Hin].
    + destruct (Hx s) as [e He]. rewrite He. simpl. eauto.
    + destruct (f s y) as [s' | e]; simpl; eauto.
Qed.

Lemma dict_get_app (d1 d2 : dict) (k : value) :
  dict_get (d1 ++ d2) k
  = match dict_get d1 k with
    | Some v => Some v
    | None => dict_get d2 k
    end.
Proof.
  induction d1 as [| [k' v'] d1 IH]; simpl; auto.
  destruct (value_eqb k' k); auto.
Qed.

Lemma dict_get_set (d : dict) (k k' v : value) :
  dict_get (dict_set d k v) k'
  = if value_eqb k k' then Some v else dict_get d k'.
Proof.
  destruct (value_eqb k k') eqn:Hk.
  - apply value_eqb_eq in Hk. subst. apply dict_get_set_same.
  - apply value_eqb_neq in Hk. now apply dict_get_set_other.
Qed.

(** After a run of assignments a key holds the value of the last
    assignment to it. *)
Lemma dict_get_set_all (kvs : list (value * value)) (d : dict) (k : value) :
  dict_get (dict_set_all kvs d) k
  = match dict_get (rev kvs) k with
    | Some v => Some v
    | None => dict_get d k
    end.
Proof.
  revert d. induction kvs as [| [k1 v1] kvs IH]; simpl; intros d.
  - reflexivity.
  - unfold dict_set_all in *. simpl. rewrite IH, dict_get_app. simpl.
    destruct (dict_get (rev kvs) k); auto.
    rewrite dict_get_set. destruct (value_eqb k1 k); reflexivity.
Qed.

Section MapFacts.
Variables parse_key parse_value : value -> result value.
Variables key_location_name value_location_name : string.

Let pair := map_pair parse_key parse_value
                     key_location_name value_location_name.
Let entry := map_entry parse_key parse_value
                       key_location_name value_location_name.
Let loop := map_loop parse_key parse_value
                     key_location_name value_location_name.

Lemma map_pair_unknown (b : bindings) (c : Node) :
  local_name c <> key_location_name ->
  local_name c <> value_location_name ->
  pair b (VNode c)
  = Raise (ResponseParserError ("Unknown tag: " ++ local_name c)).
Proof.
  intros Hk Hv. unfold pair, map_pair. simpl. fold (local_name c).
  apply String.eqb_neq in Hk, Hv. now rewrite Hk, Hv.
Qed.

Lemma map_entry_unknown (st : dict * bindings) (e c : Node) :
  In c (getchildren e) ->
  local_name c <> key_location_name ->
  local_name c <> value_location_name ->
  exists err, entry st (VNode e) = Raise err.
Proof.
  intros Hin Hk Hv. unfold entry, map_entry. simpl.
  destruct (foldM_raise_in pair (map VNode (getchildren e)) (VNode c))
    with (s := snd st) as [err Herr].
  - now apply in_map.
  - intros b. eexists. now apply map_pair_unknown.
  - fold pair. rewrite Herr. simpl. eauto.
Qed.

Lemma map_loop_unknown (node : value) (entries : list value) (e c : Node) :
  py_iter node = Ok entries ->
  In (VNode e) entries ->
  In c (getchildren e) ->
  local_name c <> key_location_name ->
  local_name c <> value_location_name ->
  exists err, loop node = Raise err.
Proof.
  intros Hiter Hin Hc Hk Hv. unfold loop, map_loop. rewrite Hiter. step.
  destruct (foldM_raise_in entry entries (VNode e) Hin)
    with (s := (@nil (value * value), (@None value, @None value)))
    as [err Herr].
  - intros st. now apply map_entry_unknown with c.
  - fold entry. rewrite Herr. simpl. eauto.
Qed.

Lemma map_loop_first_unknown (node : value) (before after : list value)
  (e c : Node) (pre post : list Node) (st : dict * bindings) (b : bindings) :
  py_iter node = Ok (before ++ VNode e :: after) ->
  foldM entry before ([], (None, None)) = Ok st ->
  getchildren e = pre ++ c :: post ->
  foldM pair (map VNode pre) (snd st) = Ok b ->
  local_name c <> key_location_name ->
  local_name c <> value_location_name ->
  loop node = Raise (ResponseParserError ("Unknown tag: " ++ local_name c)).
Proof.
  intros Hiter Hbefore Hchildren Hpre Hk Hv.
  unfold loop, map_loop. rewrite Hiter. step.
  rewrite foldM_app. fold entry. rewrite Hbefore. step. simpl.
  unfold entry at 1, map_entry. simpl. rewrite Hchildren, map_app.
  rewrite foldM_app. fold pair. rewrite Hpre. step. simpl.
  rewrite map_pair_unknown by assumption. reflexivity.
Qed.

Lemma map_entry_key_value (parsed : dict) (b : bindings) [e k v : value] :
  key_value_entry parse_key parse_value
                  key_location_name value_location_name e k v ->
  entry (parsed, b) e = Ok (dict_set parsed k v, (Some k, Some v)).
Proof.
  intros (t & x & kc & vc & He & Hkc & Hvc & Hne & Hk & Hv & Hh).
  assert (Hvk : String.eqb (local_name vc) key_location_name = false).
  { apply String.eqb_neq. congruence. }
  unfold entry, map_entry, setitem.
  destruct He as [-> | ->]; simpl; unfold map_pair; simpl;
    fold (local_name kc); fold (local_name vc).
  - rewrite Hkc, String.eqb_refl, Hk. simpl.
    rewrite Hvk. rewrite Hvc, String.eqb_refl, Hv. simpl.
    now rewrite Hh.
  - rewrite Hvk. rewrite Hvc, String.eqb_refl, Hv. simpl.
    rewrite Hkc, String.eqb_refl, Hk. simpl.
    now rewrite Hh.
Qed.

Lemma map_entries_key_value [entries : list value]
  [kvs : list (value * value)] :
  Forall2 (fun e kv =>
             key_value_entry parse_key parse_value
                             key_location_name value_location_name
                             e (fst kv) (snd kv)) entries kvs ->
  forall parsed b,
  exists b',
    foldM entry entries (parsed, b) = Ok (dict_set_all kvs parsed, b').
Proof.
  induction 1 as [| e [k v] entries kvs He _ IH]; intros parsed b; simpl.
  - eauto.
  - simpl in He. rewrite (map_entry_key_value parsed b He). simpl. apply IH.
Qed.

Lemma map_loop_key_value (node : value) (entries : list value)
  (kvs : list (value * value)) :
  py_iter node = Ok entries ->
  Forall2 (fun e kv =>
             key_value_entry parse_key parse_value
                             key_location_name value_location_name
                             e (fst kv) (snd kv)) entries kvs ->
  loop node = Ok (VDict (dict_set_all kvs [])).
Proof.
  intros Hiter Hkvs. unfold loop, map_loop. rewrite Hiter. step.
  destruct (map_entries_key_value Hkvs [] (None, None)) as [b' Hb'].
  match goal with
  | |- context [foldM ?f ?l ?s] =>
      replace (foldM f l s) with (Ok (dict_set_all kvs [], b'))
        by (symmetry; exact Hb')
  end.
  reflexivity.
Qed.
End MapFacts.

Lemma xml_map_unfold {E : Externals} (p : protocol) (s : Serialization)
  (key_shape value_shape : Shape) (node : value) :
  is_xml p = true ->
  _parse_shape p (MapShape s key_shape value_shape) node
  = map_loop (_parse_shape p key_shape) (_parse_shape p value_shape)
             (or_default (name (serialization key_shape)) "key")
             (or_default (name (serialization value_shape)) "value")
             node.
Proof. intros Hp. simpl. now rewrite Hp. Qed.

Lemma integer_entry {E : Externals} (p : protocol) (k v : string) (n : Z) :
  is_xml p = true ->
  py_int (VStr v) = Ok n ->
  key_value_entry (_parse_shape p (ScalarShape no_serialization string_))
                  (_parse_shape p (ScalarShape no_serialization integer))
                  "key" "value"
                  (VNode (map_entry_node k v)) (VStr k) (VInt n).
Proof.
  intros Hp Hn.
  exists "entry", None, (Element "key" (Some k) []),
         (Element "value" (Some v) []).
  split; [left; reflexivity |].
  split; [reflexivity |]. split; [reflexivity |].
  split; [discriminate |].
  destruct p; try discriminate; simpl;
    (split; [reflexivity |]); (split; [| reflexivity]).
  - unfold BaseXML_handle_integer. simpl. now rewrite Hn.
  - unfold BaseXML_handle_integer. simpl. now rewrite Hn.
  - unfold RestXML_handle_integer. simpl. now rewrite Hn.
Qed.

(** C5: for the XML variants, decoding a map node whose entries are
    [entries]: (1) an entry child whose local name is neither the key
    shape's name (default ["key"]) nor the value shape's (default
    ["value"]) makes the decode raise, and when everything before that
    child decodes the exception is [ResponseParserError]; (2) entries with
    a key-tagged and a value-tagged child accumulate into a mapping in
    which a key holds the value of its last entry; (3) the two entries
    [<entry><key>a</key><value>1</value></entry>] and
    [<entry><key>b</key><value>2</value></entry>] with an integer value
    shape decode to [{"a": 1, "b": 2}]. *)
Theorem xml_map_decode {E : Externals} (p : protocol) (s : Serialization)
  (key_shape value_shape : Shape) (node : value) (entries : list value) :
  is_xml p = true ->
  py_iter node = Ok entries ->
  let key_location_name :=
    or_default (name (serialization key_shape)) "key" in
  let value_location_name :=
    or_default (name (serialization value_shape)) "value" in
  let parse_key := _parse_shape p key_shape in
  let parse_value := _parse_shape p value_shape in
  let decoded := _parse_shape p (MapShape s key_shape value_shape) node in
  (forall e c,
      In (VNode e) entries ->
      In c (getchildren e) ->
      local_name c <> key_location_name ->
      local_name c <> value_location_name ->
      exists err, decoded = Raise err)
  /\ (forall before after e pre c post st b,
         entries = before ++ VNode e :: after ->
         foldM (map_entry parse_key parse_value
                          key_location_name value_location_name)
               before ([], (None, None)) = Ok st ->
         getchildren e = pre ++ c :: post ->
         foldM (map_pair parse_key parse_value
                         key_location_name value_location_name)
               (map VNode pre) (snd st) = Ok b ->
         local_name c <> key_location_name ->
         local_name c <> value_location_name ->
         decoded
         = Raise (ResponseParserError ("Unknown tag: " ++ local_name c)))
  /\ (forall kvs,
         Forall2 (fun e kv =>
                    key_value_entry parse_key parse_value
                                    key_location_name value_location_name
                                    e (fst kv) (snd kv)) entries kvs ->
         decoded = Ok (VDict (dict_set_all kvs []))
         /\ forall k, dict_get (dict_set_all kvs []) k = dict_get (rev kvs) k)
  /\ (py_int (VStr "1") = Ok 1%Z ->
      py_int (VStr "2") = Ok 2%Z ->
      _parse_shape p string_to_integer_map (VNode two_entry_map)
      = Ok (VDict ["a" |-> VInt 1; "b" |-> VInt 2])).
Proof.
  intros Hp Hiter kl vl pk pv decoded. subst decoded.
  rewrite xml_map_unfold by exact Hp.
  fold kl vl pk pv.
  split; [| split; [| split]].
  - intros e c Hin Hc Hk Hv.
    eapply map_loop_unknown; eassumption.
  - intros before after e pre c post st b -> Hbefore Hchildren Hpre Hk Hv.
    eapply map_loop_first_unknown; eassumption.
  - intros kvs Hkvs. split.
    + eapply map_loop_key_value; eassumption.
    + intros k. rewrite dict_get_set_all.
      now destruct (dict_get (rev kvs) k).
  - intros H1 H2. unfold string_to_integer_map.
    rewrite xml_map_unfold by exact Hp.
    apply map_loop_key_value
      with (entries := [VNode (map_entry_node "a" "1");
                        VNode (map_entry_node "b" "2")])
           (kvs := [(VStr "a", VInt 1); (VStr "b", VInt 2)]).
    + reflexivity.
    + repeat constructor; now apply integer_entry.
Qed.

Lemma xml_map_decode_witness :
  is_xml query = true /\
  py_iter (VNode two_entry_map)
  = Ok [VNode (map_entry_node "a" "1"); VNode (map_entry_node "b" "2")] /\
  py_int (Externals := sample_externals) (VStr "1") = Ok 1%Z /\
  py_int (Externals := sample_externals) (VStr "2") = Ok 2%Z /\
  _parse_shape (E := sample_externals) query string_to_integer_map
               (VNode two_entry_map)
  = Ok (VDict ["a" |-> VInt 1; "b" |-> VInt 2]).
Proof.
  split; [reflexivity | split; [reflexivity |]].
  split; [reflexivity | split; [reflexivity |]].
  apply (proj2 (proj2 (proj2
           (xml_map_decode (E := sample_externals) query no_serialization
              (ScalarShape no_serialization string_)
              (ScalarShape no_serialization integer)
              (VNode two_entry_map)
              [VNode (map_entry_node "a" "1"); VNode (map_entry_node "b" "2")]
              eq_refl eq_refl))));
    reflexivity.
Defined.

(** *** Entries that lack a key or a value *)

Lemma last_cons_default (xs : list value) (a d d' : value) :
  last (a :: xs) d = last (a :: xs) d'.
Proof.
  revert a. induction xs as [| y xs IH]; intros a.
  - reflexivity.
  - change (last (y :: xs) d = last (y :: xs) d'). apply IH.
Qed.

Lemma rebind_Some (xs : list value) (x : value) :
  rebind xs (Some x) = Some (last xs x).
Proof.
  revert x. induction xs as [| y xs IH]; intros x.
  - reflexivity.
  - change (rebind xs (Some y) = Some (last (y :: xs) x)).
    rewrite IH. destruct xs as [| z xs]; [reflexivity |].
    f_equal. change (last (z :: xs) y = last (z :: xs) x).
    apply last_cons_default.
Qed.

Section IncompleteEntries.
Variables parse_key parse_value : value -> result value.
Variables key_location_name value_location_name : string.

Let pair := map_pair parse_key parse_value
                     key_location_name value_location_name.
Let entry := map_entry parse_key parse_value
                       key_location_name value_location_name.

Lemma map_pairs_only_keys (cs : list Node) (ks : list value)
  (b : bindings) :
  Forall2 (fun c k => local_name c = key_location_name
                      /\ parse_key (VNode c) = Ok k) cs ks ->
  foldM pair (map VNode cs) b = Ok (rebind ks (fst b), snd b).
Proof.
  intros H. revert b. induction H as [| c k cs ks [Hc Hk] _ IH];
    intros [bk bv]; simpl.
  - reflexivity.
  - unfold pair at 1, map_pair. simpl. fold (local_name c).
    rewrite Hc, String.eqb_refl, Hk. simpl. rewrite IH. reflexivity.
Qed.

Lemma map_pairs_only_values (cs : list Node) (vs : list value)
  (b : bindings) :
  Forall2 (fun c v => local_name c = value_location_name
                      /\ local_name c <> key_location_name
                      /\ parse_value (VNode c) = Ok v) cs vs ->
  foldM pair (map VNode cs) b = Ok (fst b, rebind vs (snd b)).
Proof.
  intros H. revert b. induction H as [| c v cs vs (Hc & Hne & Hv) _ IH];
    intros [bk bv]; simpl.
  - reflexivity.
  - unfold pair at 1, map_pair. simpl. fold (local_name c).
    apply String.eqb_neq in Hne. rewrite Hne.
    rewrite Hc, String.eqb_refl, Hv. simpl. rewrite IH. reflexivity.
Qed.

Lemma map_entry_only_keys (e : Node) (ks : list value) (parsed : dict)
  (b : bindings) :
  only_keys parse_key key_location_name e ks ->
  entry (parsed, b) (VNode e)
  = match rebind ks (fst b), snd b with
    | _, None => Raise (UnboundLocalError "val_name")
    | None, Some _ => Raise (UnboundLocalError "key_name")
    | Some k, Some v =>
        parsed' <- setitem parsed k v ;; Ok (parsed', (Some k, Some v))
    end.
Proof.
  intros H. unfold entry, map_entry. simpl. fold pair.
  rewrite (map_pairs_only_keys _ _ b H). simpl.
  destruct (rebind ks (fst b)), (snd b); reflexivity.
Qed.

Lemma map_entry_only_values (e : Node) (vs : list value) (parsed : dict)
  (b : bindings) :
  only_values parse_value key_location_name value_location_name e vs ->
  entry (parsed, b) (VNode e)
  = match fst b, rebind vs (snd b) with
    | _, None => Raise (UnboundLocalError "val_name")
    | None, Some _ => Raise (UnboundLocalError "key_name")
    | Some k, Some v =>
        parsed' <- setitem parsed k v ;; Ok (parsed', (Some k, Some v))
    end.
Proof.
  intros H. unfold entry, map_entry. simpl. fold pair.
  rewrite (map_pairs_only_values _ _ b H). simpl.
  destruct (fst b), (rebind vs (snd b)); reflexivity.
Qed.
End IncompleteEntries.

Lemma map_loop_split (parse_key parse_value : value -> result value)
  (key_location_name value_location_name : string)
  (node x : value) (before after : list value) (st : dict * bindings) :
  py_iter node = Ok (before ++ x :: after) ->
  foldM (map_entry parse_key parse_value
                   key_location_name value_location_name)
        before ([], (None, None)) = Ok st ->
  map_loop parse_key parse_value key_location_name value_location_name node
  = (st' <- map_entry parse_key parse_value
                      key_location_name value_location_name st x ;;
     st'' <- foldM (map_entry parse_key parse_value
                              key_location_name value_location_name)
                   after st' ;;
     Ok (VDict (fst st''))).
Proof.
  intros Hiter Hbefore. unfold map_loop. rewrite Hiter. step.
  rewrite foldM_app.
  match goal with
  | |- context [foldM ?f before ?s] =>
      replace (foldM f before s) with (Ok st) by (symmetry; exact Hbefore)
  end.
  step. simpl.
  destruct (map_entry parse_key parse_value key_location_name
                      value_location_name st x); reflexivity.
Qed.

(** C10, as stated, fails: a first entry whose only child is tagged
    [foo] lacks a key-tagged child, and the decode raises the declared
    [ResponseParserError]. *)
Lemma xml_map_incomplete_entry_counterexample :
  lacks "key" unknown_child_entry = true /\
  lacks "value" unknown_child_entry = true /\
  _parse_shape (E := sample_externals) query string_to_string_map
               (VNode (Element "Map" None [unknown_child_entry]))
  = Raise (ResponseParserError "Unknown tag: foo").
Proof. repeat split. Qed.

(** C10, amended: for the XML variants, when every child of an entry is
    key-tagged or value-tagged and decodes: a first entry without a
    value-tagged child, or without a key-tagged child, makes the decode
    raise [UnboundLocalError], not [ResponseParserError]; a later entry
    without a value-tagged child is stored with the value still bound from
    the entries before it, and one without a key-tagged child under the key
    still bound from them, and the decode goes on. *)
Theorem xml_map_incomplete_entry {E : Externals} (p : protocol)
  (s : Serialization) (key_shape value_shape : Shape) (node : value) :
  is_xml p = true ->
  let key_location_name :=
    or_default (name (serialization key_shape)) "key" in
  let value_location_name :=
    or_default (name (serialization value_shape)) "value" in
  let parse_key := _parse_shape p key_shape in
  let parse_value := _parse_shape p value_shape in
  let entry := map_entry parse_key parse_value
                         key_location_name value_location_name in
  let decoded := _parse_shape p (MapShape s key_shape value_shape) node in
  (forall e rest ks,
      py_iter node = Ok (VNode e :: rest) ->
      only_keys parse_key key_location_name e ks ->
      decoded = Raise (UnboundLocalError "val_name"))
  /\ (forall e rest vs,
         py_iter node = Ok (VNode e :: rest) ->
         only_values parse_value key_location_name value_location_name e vs ->
         exists var, decoded = Raise (UnboundLocalError var))
  /\ (forall before e after parsed k0 v0 ks,
         py_iter node = Ok (before ++ VNode e :: after) ->
         foldM entry before ([], (None, None))
         = Ok (parsed, (Some k0, Some v0)) ->
         only_keys parse_key key_location_name e ks ->
         hashable (last ks k0) = true ->
         decoded
         = (st <- foldM entry after
                        (dict_set parsed (last ks k0) v0,
                         (Some (last ks k0), Some v0)) ;;
            Ok (VDict (fst st))))
  /\ (forall before e after parsed k0 v0 vs,
         py_iter node = Ok (before ++ VNode e :: after) ->
         foldM entry before ([], (None, None))
         = Ok (parsed, (Some k0, Some v0)) ->
         only_values parse_value key_location_name value_location_name e vs ->
         hashable k0 = true ->
         decoded
         = (st <- foldM entry after
                        (dict_set parsed k0 (last vs v0),
                         (Some k0, Some (last vs v0))) ;;
            Ok (VDict (fst st)))).
Proof.
  intros Hp kl vl pk pv entry decoded. subst decoded entry.
  rewrite xml_map_unfold by exact Hp. fold kl vl pk pv.
  split; [| split; [| split]].
  - intros e rest ks Hiter Hks.
    rewrite (map_loop_split pk pv kl vl node (VNode e) [] rest
               ([], (None, None)) Hiter eq_refl).
    rewrite (map_entry_only_keys _ _ _ _ e ks [] (None, None) Hks). simpl.
    destruct (rebind ks None); reflexivity.
  - intros e rest vs Hiter Hvs.
    rewrite (map_loop_split pk pv kl vl node (VNode e) [] rest
               ([], (None, None)) Hiter eq_refl).
    rewrite (map_entry_only_values _ _ _ _ e vs [] (None, None) Hvs). simpl.
    destruct (rebind vs None); simpl; eauto.
  - intros before e after parsed k0 v0 ks Hiter Hbefore Hks Hh.
    rewrite (map_loop_split pk pv kl vl node (VNode e) before after
               (parsed, (Some k0, Some v0)) Hiter Hbefore).
    rewrite (map_entry_only_keys _ _ _ _ e ks parsed (Some k0, Some v0) Hks).
    simpl fst. simpl snd. rewrite rebind_Some. unfold setitem.
    rewrite Hh. reflexivity.
  - intros before e after parsed k0 v0 vs Hiter Hbefore Hvs Hh.
    rewrite (map_loop_split pk pv kl vl node (VNode e) before after
               (parsed, (Some k0, Some v0)) Hiter Hbefore).
    rewrite (map_entry_only_values _ _ _ _ e vs parsed (Some k0, Some v0)
               Hvs).
    simpl fst. simpl snd. rewrite rebind_Some. unfold setitem.
    rewrite Hh. reflexivity.
Qed.

Lemma xml_map_incomplete_entry_witness :
  let node := VNode (Element "Map" None [key_only_entry "a"]) in
  is_xml query = true /\
  py_iter node = Ok [VNode (key_only_entry "a")] /\
  only_keys (_parse_shape (E := sample_externals) query
                          (ScalarShape no_serialization string_))
            "key" (key_only_entry "a") [VStr "a"] /\
  _parse_shape (E := sample_externals) query string_to_string_map node
  = Raise (UnboundLocalError "val_name").
Proof.
  assert (Hks : only_keys (_parse_shape (E := sample_externals) query
                             (ScalarShape no_serialization string_))
                          "key" (key_only_entry "a") [VStr "a"]).
  { repeat constructor. }
  split; [reflexivity | split; [reflexivity | split; [exact Hks |]]].
  exact (proj1 (xml_map_incomplete_entry (E := sample_externals) query
                  no_serialization
                  (ScalarShape no_serialization string_)
                  (ScalarShape no_serialization string_)
                  (VNode (Element "Map" None [key_only_entry "a"]))
                  eq_refl)
               (key_only_entry "a") [] [VStr "a"] eq_refl Hks).
Defined.

(** A later entry without a value: the value of the entry before it is
    stored again. *)
Example xml_map_reuses_value :
  _parse_shape (E := sample_externals) query string_to_string_map
    (VNode (Element "Map" None [map_entry_node "a" "1"; key_only_entry "z"]))
  = Ok (VDict ["a" |-> VStr "1"; "z" |-> VStr "1"]).
Proof. reflexivity. Qed.

(** ** The REST attributes *)

Lemma lower_length (s : string) : String.length (lower s) = String.length s.
Proof. induction s; simpl; congruence. Qed.

Lemma lower_drop (n : nat) (s : string) :
  lower (str_drop n s) = str_drop n (lower s).
Proof.
  revert s. induction n as [| n IH]; intros s; destruct s; simpl; auto.
Qed.

Lemma prefix_drop (p s : string) :
  String.prefix p s = true -> s = (p ++ str_drop (String.length p) s)%string.
Proof.
  revert s. induction p as [| a p IH]; intros s H.
  - reflexivity.
  - destruct s as [| b s]; simpl in H; [discriminate |].
    destruct (ascii_dec a b) as [-> | Hne]; [| discriminate].
    simpl. f_equal. now apply IH.
Qed.

(** Two header names that match the prefix and are equal after it are
    equal up to case. *)
Lemma same_stripped_name (prefix h1 h2 : string) :
  startswith (lower h1) prefix = true ->
  startswith (lower h2) prefix = true ->
  str_drop (String.length prefix) h1 = str_drop (String.length prefix) h2 ->
  lower h1 = lower h2.
Proof.
  unfold startswith. intros H1 H2 Heq.
  rewrite (prefix_drop _ _ H1), (prefix_drop _ _ H2).
  now rewrite <- !lower_drop, Heq.
Qed.

Lemma header_map_sound (prefix : string) (hs : Headers) (acc : dict)
  (K V : value) :
  dict_get (fold_left (header_map_item prefix) hs acc) K = Some V ->
  dict_get acc K = Some V
  \/ exists h v,
       In (h, v) hs /\ startswith (lower h) prefix = true
       /\ K = VStr (str_drop (String.length prefix) h) /\ V = VStr v.
Proof.
  revert acc. induction hs as [| [h0 v0] hs IH]; simpl; intros acc H.
  - now left.
  - destruct (IH _ H) as [Hacc | (h & v & Hin & Hm & HK & HV)].
    + destruct (startswith (lower h0) prefix) eqn:Hm0; [| now left].
      rewrite dict_get_set in Hacc.
      destruct (value_eqb (VStr (str_drop (String.length prefix) h0)) K)
        eqn:HK.
      * apply value_eqb_eq in HK. injection Hacc as <-.
        right. exists h0, v0. auto.
      * now left.
    + right. exists h, v. auto.
Qed.

Lemma header_map_untouched (prefix h : string) (hs : Headers) (acc : dict) :
  startswith (lower h) prefix = true ->
  (forall h' v', In (h', v') hs -> lower h' <> lower h) ->
  dict_get (fold_left (header_map_item prefix) hs acc)
           (VStr (str_drop (String.length prefix) h))
  = dict_get acc (VStr (str_drop (String.length prefix) h)).
Proof.
  intros Hm. revert acc. induction hs as [| [h0 v0] hs IH]; simpl;
    intros acc Hne.
  - reflexivity.
  - rewrite IH by (intros h' v' Hin; apply (Hne h' v'); now right).
    destruct (startswith (lower h0) prefix) eqn:Hm0; [| reflexivity].
    apply dict_get_set_other. intros Heq. injection Heq as Heq.
    apply (Hne h0 v0); [now left |].
    now apply same_stripped_name with prefix.
Qed.

Lemma header_map_complete (prefix : string) (hs : Headers) (h v : string) :
  NoDup (map (fun x => lower (fst x)) hs) ->
  In (h, v) hs ->
  startswith (lower h) prefix = true ->
  forall acc,
    dict_get (fold_left (header_map_item prefix) hs acc)
             (VStr (str_drop (String.length prefix) h))
    = Some (VStr v).
Proof.
  intros Hnd Hin Hm. induction hs as [| [h0 v0] hs IH]; simpl; intros acc.
  - contradiction.
  - inversion Hnd as [| x l Hnotin Hnd']; subst.
    destruct Hin as [Heq | Hin].
    + injection Heq as -> ->. rewrite header_map_untouched; auto.
      * rewrite Hm. apply dict_get_set_same.
      * intros h' v' Hin' Hl. apply Hnotin. simpl. rewrite <- Hl.
        now apply (in_map (fun x => lower (fst x)) hs (h', v')).
    + now apply IH.
Qed.

(** The mapping of a [headers] member holds exactly the headers whose
    name starts with the prefix up to case, under the name without the
    prefix. *)
Lemma _parse_header_map_spec (shape : Shape) (hs : Headers) (k v : string) :
  NoDup (map (fun x => lower (fst x)) hs) ->
  dict_get (_parse_header_map shape hs) (VStr k) = Some (VStr v)
  <-> exists h,
        In (h, v) hs
        /\ startswith (lower h) (header_prefix shape) = true
        /\ k = str_drop (String.length (header_prefix shape)) h.
Proof.
  intros Hnd. unfold _parse_header_map. cbv zeta. split.
  - intros H. apply header_map_sound in H.
    destruct H as [H | (h & v' & Hin & Hm & HK & HV)]; [discriminate |].
    injection HK as ->. injection HV as ->. eauto.
  - intros (h & Hin & Hm & ->). now apply header_map_complete.
Qed.

Lemma passes_through_spec {E : Externals} (p : protocol) (s : Serialization)
  (k : kind) (raw : value) :
  passes_through p k = true ->
  hasattr_text raw = false ->
  _parse_shape p (ScalarShape s k) raw = Ok raw.
Proof.
  intros Hp Hraw. destruct p, k; try discriminate; simpl; try reflexivity;
    unfold RestXML_default_handle; now rewrite Hraw.
Qed.

Section NonPayloadAttrs.
Context {E : Externals}.
Variables (p : protocol) (response : Response).

Lemma non_payload_attr_other (fp fp' : dict) [n n' : string] [s' : Shape] :
  non_payload_attr p response fp (n', s') = Ok fp' ->
  n' <> n ->
  dict_get fp' (VStr n) = dict_get fp (VStr n).
Proof.
  intros H Hne. assert (Hk : VStr n' <> VStr n) by congruence.
  unfold non_payload_attr in H.
  destruct (location (serialization s')) as [loc |];
    [| injection H as <-; reflexivity].
  destruct (String.eqb loc "statusCode").
  { inv_bind H. injection H as <-. now apply dict_get_set_other. }
  destruct (String.eqb loc "headers").
  { injection H as <-. now apply dict_get_set_other. }
  destruct (String.eqb loc "header"); [| injection H as <-; reflexivity].
  destruct (header_get (headers response) _);
    [| injection H as <-; reflexivity].
  inv_bind H. injection H as <-. now apply dict_get_set_other.
Qed.

Lemma non_payload_attrs_other [ms : list (string * Shape)] (fp fp' : dict)
  [n : string] :
  foldM (non_payload_attr p response) ms fp = Ok fp' ->
  ~ In n (map fst ms) ->
  dict_get fp' (VStr n) = dict_get fp (VStr n).
Proof.
  revert fp. induction ms as [| [n' s'] ms IH]; intros fp H Hnotin;
    cbn [foldM] in H; simpl in Hnotin.
  - injection H as <-. reflexivity.
  - inv_bind H. rewrite (IH _ H) by tauto.
    eapply non_payload_attr_other; [eassumption | tauto].
Qed.

Lemma non_payload_attr_self (fp fp' : dict) (n : string) (s : Shape) :
  non_payload_attr p response fp (n, s) = Ok fp' ->
  attr_post p response n s (dict_get fp (VStr n)) (dict_get fp' (VStr n)).
Proof.
  intros H. unfold non_payload_attr in H. unfold attr_post.
  fold (member_header_name n s) in H.
  destruct (location (serialization s)) as [loc |];
    [| repeat split; discriminate].
  destruct (String.eqb loc "statusCode") eqn:H1.
  { apply String.eqb_eq in H1. subst loc. inv_bind H. injection H as <-.
    repeat split; try discriminate.
    intros _. exists a. split; [assumption | apply dict_get_set_same]. }
  destruct (String.eqb loc "headers") eqn:H2.
  { apply String.eqb_eq in H2. subst loc. injection H as <-.
    repeat split; try discriminate.
    intros _. apply dict_get_set_same. }
  destruct (String.eqb loc "header") eqn:H3.
  { apply String.eqb_eq in H3. subst loc.
    repeat split; try discriminate. intros _.
    destruct (header_get (headers response) (member_header_name n s)).
    - inv_bind H. injection H as <-.
      exists a. split; [assumption | apply dict_get_set_same].
    - injection H as <-. reflexivity. }
  apply String.eqb_neq in H1, H2, H3.
  repeat split; intros Heq; injection Heq as ->; contradiction.
Qed.

Lemma non_payload_attrs_member (ms : list (string * Shape)) (fp fp' : dict)
  (n : string) (s : Shape) :
  NoDup (map fst ms) ->
  foldM (non_payload_attr p response) ms fp = Ok fp' ->
  In (n, s) ms ->
  attr_post p response n s (dict_get fp (VStr n)) (dict_get fp' (VStr n)).
Proof.
  revert fp. induction ms as [| [n0 s0] ms IH]; intros fp Hnd H Hin;
    cbn [foldM] in H; simpl in Hnd, Hin.
  - contradiction.
  - inversion Hnd as [| x l Hnotin Hnd']; subst. inv_bind H.
    destruct Hin as [Heq | Hin].
    + injection Heq as -> ->.
      rewrite (non_payload_attrs_other _ _ H Hnotin).
      now apply non_payload_attr_self.
    + assert (Hne : n0 <> n).
      { intros ->. apply Hnotin.
        now apply (in_map fst ms (n, s)). }
      rewrite <- (non_payload_attr_other _ _ Ha Hne).
      now apply IH.
Qed.
End NonPayloadAttrs.

(** C9, as stated, fails: a member does not receive the status or the
    header itself but what its shape's handler makes of it.  In RestXML a
    boolean [statusCode] member makes the parse raise, and a [long] member
    read from [Content-Length: 42] holds the integer 42, not the header. *)
Lemma rest_attribute_counterexample :
  parse (E := sample_externals) rest_xml
        {| status_code := 200; headers := []; body := [] |} (Some flag_shape)
  = Raise AttributeError
  /\ parse (E := sample_externals) rest_xml
           {| status_code := 200; headers := [("Content-Length", "42")];
              body := [] |} (Some length_shape)
     = Ok (VDict ["ResponseMetadata" |-> VDict [];
                  "ContentLength" |-> VInt 42]).
Proof. split; reflexivity. Qed.

(** C9, amended: when the attribute extraction of a REST variant returns
    [final], then for every member with a declared location: a
    [statusCode] member holds what its shape's handler decodes from the
    numeric status, the status itself for the kinds the variant hands on
    unchanged; a [header] member holds what its shape's handler decodes
    from the header found, case-sensitively, under its declared (else its
    member) name, the header itself for those kinds, and keeps the entry it
    had before when that header is absent; a [headers] member holds the
    mapping of every header whose name starts with the declared prefix up
    to case, under the name without the prefix. *)
Theorem rest_non_payload_attrs {E : Externals} (p : protocol)
  (response : Response) (member_shapes : list (string * Shape))
  (final_parsed final : dict) (member_name : string) (member_shape : Shape) :
  NoDup (map fst member_shapes) ->
  _parse_non_payload_attrs p response member_shapes final_parsed = Ok final ->
  In (member_name, member_shape) member_shapes ->
  let status := VInt (status_code response) in
  let header_name := member_header_name member_name member_shape in
  let received := dict_get final (VStr member_name) in
  (location (serialization member_shape) = Some "statusCode" ->
   (exists v,
       _parse_shape p member_shape status = Ok v /\ received = Some v)
   /\ (forall s k,
          member_shape = ScalarShape s k ->
          passes_through p k = true ->
          received = Some status))
  /\ (location (serialization member_shape) = Some "header" ->
      forall h,
        header_get (headers response) header_name = Some h ->
        (exists v,
            _parse_shape p member_shape (VStr h) = Ok v /\ received = Some v)
        /\ (forall s k,
               member_shape = ScalarShape s k ->
               passes_through p k = true ->
               received = Some (VStr h)))
  /\ (location (serialization member_shape) = Some "header" ->
      header_get (headers response) header_name = None ->
      received = dict_get final_parsed (VStr member_name))
  /\ (location (serialization member_shape) = Some "headers" ->
      received
      = Some (VDict (_parse_header_map member_shape (headers response)))
      /\ (NoDup (map (fun x => lower (fst x)) (headers response)) ->
          forall k v,
            dict_get (_parse_header_map member_shape (headers response))
                     (VStr k) = Some (VStr v)
            <-> exists h,
                  In (h, v) (headers response)
                  /\ startswith (lower h) (header_prefix member_shape) = true
                  /\ k = str_drop (String.length (header_prefix member_shape))
                                  h)).
Proof.
  intros Hnd Hfold Hin status header_name received.
  destruct (non_payload_attrs_member p response member_shapes final_parsed
              final member_name member_shape Hnd Hfold Hin)
    as (Hstatus & Hheader & Hheaders).
  fold received in Hstatus, Hheader, Hheaders.
  fold header_name in Hheader.
  split; [| split; [| split]].
  - intros Hloc. destruct (Hstatus Hloc) as (v & Hv & Hr).
    split; [eauto |].
    intros s k -> Hk. rewrite passes_through_spec in Hv by auto.
    injection Hv as <-. exact Hr.
  - intros Hloc h Hh. specialize (Hheader Hloc). rewrite Hh in Hheader.
    destruct Hheader as (v & Hv & Hr). split; [eauto |].
    intros s k -> Hk. rewrite passes_through_spec in Hv by auto.
    injection Hv as <-. exact Hr.
  - intros Hloc Hh. specialize (Hheader Hloc). now rewrite Hh in Hheader.
  - intros Hloc. split; [auto |].
    intros Hnd' k v. now apply _parse_header_map_spec.
Qed.

Lemma rest_non_payload_attrs_witness :
  NoDup (map fst status_members) /\
  _parse_non_payload_attrs (E := sample_externals) rest_xml status_response
                           status_members []
  = Ok ["Status" |-> VInt 200; "Meta" |-> VDict ["Color" |-> VStr "red"]] /\
  In ("Status",
      ScalarShape (location_serialization "statusCode" None) integer)
     status_members /\
  exists v,
    _parse_shape (E := sample_externals) rest_xml
      (ScalarShape (location_serialization "statusCode" None) integer)
      (VInt 200) = Ok v
    /\ dict_get ["Status" |-> VInt 200;
                 "Meta" |-> VDict ["Color" |-> VStr "red"]]
                (VStr "Status") = Some v.
Proof.
  assert (Hnd : NoDup (map fst status_members)).
  { repeat constructor; simpl; intuition discriminate. }
  assert (Hin : In ("Status",
                    ScalarShape (location_serialization "statusCode" None)
                                integer) status_members).
  { left. reflexivity. }
  split; [exact Hnd | split; [reflexivity | split; [exact Hin |]]].
  exact (proj1 (proj1
           (rest_non_payload_attrs (E := sample_externals) rest_xml
              status_response status_members []
              ["Status" |-> VInt 200; "Meta" |-> VDict ["Color" |-> VStr "red"]]
              "Status"
              (ScalarShape (location_serialization "statusCode" None) integer)
              Hnd eq_refl Hin)
           eq_refl)).
Defined.

(** ** The leaf-collapse routine needs no more fuel than the height *)

Lemma height_child (n c : Node) : In c (getchildren n) -> height c < height n.
Proof.
  destruct n as [t x cs]. simpl.
  induction cs as [| d cs IH]; simpl; intros Hin.
  - contradiction.
  - destruct Hin as [-> | Hin].
    + lia.
    + specialize (IH Hin). lia.
Qed.

Lemma Forall_dict_set (P : value * value -> Prop) (d : dict) (k v : value) :
  (forall k1 k2, P (k1, v) -> P (k2, v)) ->
  Forall P d -> P (k, v) -> Forall P (dict_set d k v).
Proof.
  intros Hkey Hd Hv. induction Hd as [| [k' v'] d Hx Hd IH]; simpl.
  - constructor; [assumption | constructor].
  - destruct (value_eqb k' k).
    + constructor; [now apply (Hkey k) | assumption].
    + constructor; assumption.
Qed.

Lemma index_items_ok (n : Node) (cs : list Node) (acc : dict) :
  incl cs (getchildren n) ->
  Forall (indexed_from n) acc ->
  exists d,
    foldM index_item (map VNode cs) acc = Ok d /\ Forall (indexed_from n) d.
Proof.
  revert acc. induction cs as [| c cs IH]; simpl; intros acc Hincl Hacc.
  - eauto.
  - assert (Hstep : exists acc',
               index_item acc (VNode c) = Ok acc'
               /\ Forall (indexed_from n) acc').
    { unfold index_item. simpl.
      destruct (dict_get acc (VStr (namespace_re_sub (tag c))))
        as [[| | | | | | | l | |] |];
        eexists; (split; [reflexivity |]);
        apply Forall_dict_set; auto;
        try (intros k1 k2 H; exact H);
        try (right; eexists; reflexivity).
      left. exists c. split; [reflexivity |]. apply Hincl. now left. }
    destruct Hstep as (acc' & Hacc' & HF). rewrite Hacc'. simpl.
    apply IH; [| assumption].
    intros x Hx. apply Hincl. now right.
Qed.

Lemma build_node_ok (n : Node) :
  exists d,
    _build_name_to_xml_node (VNode n) = Ok d /\ Forall (indexed_from n) d.
Proof.
  unfold _build_name_to_xml_node. simpl.
  apply index_items_ok; [apply incl_refl | constructor].
Qed.

Lemma indexed_within (n : Node) (d : dict) (fuel : nat) :
  height n <= S fuel -> Forall (indexed_from n) d -> within fuel d.
Proof.
  intros Hn Hd. unfold within.
  apply Forall_impl with (2 := Hd).
  intros [k v] [(c & Hc & Hin) | (l & Hl)] m Hm; simpl in *.
  - rewrite Hc in Hm. injection Hm as <-.
    apply height_child in Hin. lia.
  - congruence.
Qed.

Lemma foldM_raise_only {A S : Type} (f : S -> A -> result S)
  (P : exn -> Prop) (l : list A) :
  (forall s x e, In x l -> f s x = Raise e -> P e) ->
  forall s e, foldM f l s = Raise e -> P e.
Proof.
  induction l as [| x l IH]; simpl; intros Hf s e H.
  - discriminate.
  - destruct (f s x) as [s' | e'] eqn:Hx; simpl in H.
    + apply (IH (fun s x e Hin => Hf s x e (or_intror Hin)) s' e H).
    + injection H as <-. apply (Hf s x e' (or_introl eq_refl) Hx).
Qed.

(** With fuel for the height of the elements it holds, [_replace_nodes]
    raises nothing but the [AttributeError] of a repeated tag: the bound on
    the recursion is never met. *)
Lemma _replace_nodes_fuel (fuel : nat) (parsed : dict) (e : exn) :
  1 <= fuel ->
  within fuel parsed ->
  _replace_nodes fuel parsed = Raise e ->
  e = AttributeError.
Proof.
  revert parsed e. induction fuel as [| fuel IH]; intros parsed e Hf Hw H.
  - lia.
  - cbn [_replace_nodes] in H.
    apply foldM_raise_only with (P := fun e => e = AttributeError) in H;
      [assumption |].
    clear H. intros acc [key v] e' Hin He'.
    unfold within in Hw. rewrite Forall_forall in Hw.
    specialize (Hw _ Hin). simpl in Hw.
    destruct v; simpl in He'; try (injection He' as <-; reflexivity).
    specialize (Hw n eq_refl).
    destruct (getchildren n) as [| c cs] eqn:Hcs.
    + simpl in He'. discriminate.
    + destruct (build_node_ok n) as (d & Hd & HF).
      rewrite Hd in He'. simpl in He'.
      destruct (_replace_nodes fuel d) as [r | e0] eqn:Hr; simpl in He'.
      * discriminate.
      * injection He' as <-.
        apply (IH d e0); [| now apply indexed_within with n | assumption].
        assert (Hc : height c < height n).
        { apply height_child. rewrite Hcs. now left. }
        destruct c; simpl in Hc. lia.
Qed.

(** The error paths that collapse a body never raise [RecursionError]. *)
Lemma QueryParser_do_error_parse_fuel {E : Externals} (response : Response)
  (root : Node) (e : exn) :
  XMLParser (body response) = Ok root ->
  QueryParser_do_error_parse response = Raise e ->
  e = AttributeError.
Proof.
  intros Hroot H. unfold QueryParser_do_error_parse in H.
  unfold _parse_xml_string_to_dom in H. rewrite Hroot, bind_ret in H.
  destruct (build_node_ok root) as (d & Hd & HF).
  rewrite Hd, bind_ret in H.
  destruct (_replace_nodes (height root) d) as [r | e0] eqn:Hr;
    simpl in H; [discriminate |].
  injection H as <-.
  destruct (height root) as [| h] eqn:Hh.
  - destruct root; discriminate.
  - apply (_replace_nodes_fuel (S h) d); [lia | | assumption].
    apply indexed_within with root; [lia | assumption].
Qed.

(** * Further properties *)

(** ** The tag index *)

Lemma value_eqb_VStr (a b : string) :
  value_eqb (VStr a) (VStr b) = String.eqb a b.
Proof.
  destruct (String.eqb a b) eqn:Hab.
  - apply String.eqb_eq in Hab. subst. apply value_eqb_refl.
  - apply String.eqb_neq in Hab. apply value_eqb_neq. congruence.
Qed.

Lemma children_named_app (t : string) (l1 l2 : list Node) :
  children_named t (l1 ++ l2) = children_named t l1 ++ children_named t l2.
Proof. apply filter_app. Qed.

Lemma index_items_spec (cs pre : list Node) (acc : dict) :
  (forall t, dict_get acc (VStr t) = indexed (children_named t pre)) ->
  exists d,
    foldM index_item (map VNode cs) acc = Ok d
    /\ forall t, dict_get d (VStr t) = indexed (children_named t (pre ++ cs)).
Proof.
  revert pre acc. induction cs as [| c cs IH]; intros pre acc Hacc.
  - exists acc. split; [reflexivity |]. now rewrite app_nil_r.
  - cbn [map foldM].
    assert (Hstep : exists acc',
               index_item acc (VNode c) = Ok acc'
               /\ forall t, dict_get acc' (VStr t)
                            = indexed (children_named t (pre ++ [c]))).
    { unfold index_item. cbn [_node_tag bind]. fold (local_name c).
      rewrite (Hacc (local_name c)).
      destruct (children_named (local_name c) pre) as [| x [| y l]] eqn:Hl;
        cbn [indexed]; eexists; (split; [reflexivity |]); intros t;
        rewrite dict_get_set, value_eqb_VStr, children_named_app;
        cbn [children_named filter];
        destruct (String.eqb (local_name c) t) eqn:Ht;
        try (rewrite app_nil_r; apply Hacc);
        apply String.eqb_eq in Ht; subst t; fold (children_named (local_name c) pre);
        rewrite Hl; cbn [app indexed map]; try reflexivity.
      now rewrite map_app. }
    destruct Hstep as (acc' & Hacc' & Hspec). rewrite Hacc'. cbn [bind].
    destruct (IH (pre ++ [c]) acc' Hspec) as (d & Hd & Hdspec).
    exists d. split; [exact Hd |].
    intros t. rewrite Hdspec, <- app_assoc. reflexivity.
Qed.

(** X1: indexing the children of an element never fails, and the index
    holds under a local name nothing when no child has it, the child itself
    when one has, and the sequence of those children, in document order,
    when several have. *)
Theorem _build_name_to_xml_node_spec (n : Node) :
  exists xml_dict,
    _build_name_to_xml_node (VNode n) = Ok xml_dict
    /\ forall t,
         dict_get xml_dict (VStr t)
         = indexed (children_named t (getchildren n)).
Proof.
  unfold _build_name_to_xml_node. cbn [py_iter bind].
  apply (index_items_spec (getchildren n) [] []). reflexivity.
Qed.

(** ** Namespaces *)

Lemma split_nonempty (c : ascii) (s : string) : split c s <> [].
Proof.
  destruct s as [| a r]; simpl; [discriminate |].
  destruct (Ascii.eqb a c); [discriminate |].
  destruct (split c r); discriminate.
Qed.

Lemma join_split (c : ascii) (s : string) :
  join (String c EmptyString) (split c s) = s.
Proof.
  induction s as [| a r IH]; simpl; [reflexivity |].
  destruct (Ascii.eqb a c) eqn:Hac.
  - apply Ascii.eqb_eq in Hac. subst a.
    destruct (split c r) as [| h t] eqn:Hs.
    + now apply split_nonempty in Hs.
    + cbn [join]. cbn [join] in IH. simpl.
      destruct t; simpl in *; now rewrite IH.
  - destruct (split c r) as [| h t] eqn:Hs.
    + now apply split_nonempty in Hs.
    + destruct t; simpl in *; now rewrite IH.
Qed.

Lemma split_without (b c : ascii) (s : string) :
  contains_char b s = false ->
  Forall (fun x => contains_char b x = false) (split c s).
Proof.
  induction s as [| a r IH]; simpl; intros H.
  - repeat constructor.
  - apply orb_false_iff in H. destruct H as [Hab Hr].
    specialize (IH Hr).
    destruct (Ascii.eqb a c).
    + constructor; [reflexivity | assumption].
    + destruct (split c r) as [| h t].
      * repeat constructor. simpl. now rewrite Hab.
      * inversion IH; subst. constructor; [| assumption].
        simpl. rewrite Hab. assumption.
Qed.

Lemma find_char_None (c : ascii) (s : string) :
  contains_char c s = false -> find_char c s = None.
Proof.
  induction s as [| a r IH]; simpl; intros H; [reflexivity |].
  apply orb_false_iff in H. destruct H as [Hac Hr].
  rewrite Hac. now rewrite IH.
Qed.

Lemma split_whole (c : ascii) (s : string) :
  contains_char c s = false -> split c s = [s].
Proof.
  induction s as [| a r IH]; simpl; intros H; [reflexivity |].
  apply orb_false_iff in H. destruct H as [Hac Hr].
  rewrite Hac, (IH Hr). reflexivity.
Qed.

Lemma contains_char_app (c : ascii) (s1 s2 : string) :
  contains_char c (s1 ++ s2)%string
  = contains_char c s1 || contains_char c s2.
Proof.
  induction s1 as [| a r IH]; simpl; [reflexivity |].
  now rewrite IH, orb_assoc.
Qed.

(** X2: [_node_tag] leaves a tag without an opening brace as it is, and
    turns a namespace-qualified tag [{ns}name] into [name]; it raises
    [AttributeError] on what is not an element. *)
Theorem _node_tag_strips_namespace (t : string) (x : option string)
  (cs : list Node) :
  (contains_char "{"%char t = false ->
   _node_tag (VNode (Element t x cs)) = Ok t)
  /\ (forall ns,
         contains_char newline ns = false ->
         contains_char newline t = false ->
         contains_char "}"%char t = false ->
         _node_tag (VNode (Element ("{" ++ ns ++ "}" ++ t) x cs)) = Ok t)
  /\ (forall v, hasattr_text v = false -> _node_tag v = Raise AttributeError).
Proof.
  split; [| split].
  - intros H. cbn [_node_tag tag]. f_equal. unfold namespace_re_sub.
    rewrite <- (join_split newline t) at 2. f_equal.
    pose proof (split_without "{"%char newline t H) as HF.
    induction HF as [| l ls Hl _ IH]; cbn [map]; [reflexivity |].
    rewrite IH. f_equal. unfold sub_braces_line.
    now rewrite (find_char_None _ _ Hl).
  - intros ns Hns Ht Hbrace. cbn [_node_tag tag]. f_equal.
    unfold namespace_re_sub. rewrite split_whole.
    + cbn [map join]. unfold sub_braces_line. cbn [String.append find_char].
      cbn [Ascii.eqb Bool.eqb]. cbn [str_drop str_take].
      now rewrite rsplit_last_app.
    + cbn [String.append contains_char]. rewrite contains_char_app.
      cbn [contains_char]. rewrite Hns, Ht. reflexivity.
  - intros v Hv. destruct v; try reflexivity. discriminate.
Qed.

Lemma _node_tag_strips_namespace_witness :
  contains_char "{"%char "Name" = false /\
  contains_char newline "http://ec2.amazonaws.com/doc/" = false /\
  contains_char newline "Name" = false /\
  contains_char "}"%char "Name" = false /\
  _node_tag (VNode (Element "Name" None [])) = Ok "Name" /\
  _node_tag
    (VNode (Element "{http://ec2.amazonaws.com/doc/}Name" None []))
  = Ok "Name".
Proof.
  split; [reflexivity | split; [reflexivity |]].
  split; [reflexivity | split; [reflexivity |]].
  split.
  - exact (proj1 (_node_tag_strips_namespace "Name" None []) eq_refl).
  - exact (proj1 (proj2 (_node_tag_strips_namespace "Name" None []))
                 "http://ec2.amazonaws.com/doc/" eq_refl eq_refl eq_refl).
Defined.

(** ** Structures *)

Lemma xml_structure_unfold {E : Externals} (p : protocol)
  (s : Serialization) (ms : list (string * Shape)) (node : value) :
  is_xml p = true ->
  _parse_shape p (StructureShape s ms) node
  = (xml_dict <- _build_name_to_xml_node node ;;
     parsed <- foldM (xml_member p xml_dict) ms [] ;;
     Ok (VDict parsed)).
Proof.
  intros Hp. cbn [_parse_shape]. rewrite Hp.
  destruct (_build_name_to_xml_node node) as [xml_dict | e];
    [| reflexivity].
  cbn [bind]. f_equal. generalize (@nil (value * value)).
  induction ms as [| [n sh] ms IH]; intros parsed; [reflexivity |].
  cbn [foldM xml_member].
  destruct (location (serialization sh)); cbn [bind]; [apply IH |].
  destruct (dict_get xml_dict (VStr (_member_key_name sh n)));
    cbn [bind]; [| apply IH].
  destruct (_parse_shape p sh v); cbn [bind]; [apply IH | reflexivity].
Qed.

Lemma json_structure_unfold {E : Externals} (p : protocol)
  (s : Serialization) (ms : list (string * Shape)) (node : value) :
  is_xml p = false ->
  _parse_shape p (StructureShape s ms) node
  = (final_parsed <- foldM (json_member p node) ms [] ;;
     Ok (VDict final_parsed)).
Proof.
  intros Hp. cbn [_parse_shape]. rewrite Hp.
  f_equal. generalize (@nil (value * value)).
  induction ms as [| [n sh] ms IH]; intros parsed; [reflexivity |].
  cbn [foldM json_member]. fold (json_name n sh).
  destruct (py_get node (json_name n sh) VNone) as [raw | e];
    cbn [bind]; [| reflexivity].
  destruct (is_none raw); [apply IH |].
  destruct (_parse_shape p sh raw); cbn [bind]; [apply IH | reflexivity].
Qed.

Section OwnKey.
Variable step : dict -> string * Shape -> result dict.
Variable post : string * Shape -> option value -> option value -> Prop.

Hypothesis step_own :
  forall fp m fp',
    step fp m = Ok fp' ->
    fp' = fp \/ exists v, fp' = dict_set fp (VStr (fst m)) v.

Hypothesis step_post :
  forall fp m fp',
    step fp m = Ok fp' ->
    post m (dict_get fp (VStr (fst m))) (dict_get fp' (VStr (fst m))).

Lemma own_key_other (ms : list (string * Shape)) (fp fp' : dict)
  (k : value) :
  foldM step ms fp = Ok fp' ->
  (forall m, In m ms -> k <> VStr (fst m)) ->
  dict_get fp' k = dict_get fp k.
Proof.
  revert fp. induction ms as [| m ms IH]; intros fp H Hk; cbn [foldM] in H.
  - injection H as <-. reflexivity.
  - inv_bind H. rewrite (IH _ H) by (intros m' Hm'; apply Hk; now right).
    destruct (step_own _ _ _ Ha) as [-> | [v ->]]; [reflexivity |].
    apply dict_get_set_other. intros Heq. apply (Hk m); [now left | auto].
Qed.

Lemma own_key_member (ms : list (string * Shape)) (fp fp' : dict)
  (m : string * Shape) :
  NoDup (map fst ms) ->
  foldM step ms fp = Ok fp' ->
  In m ms ->
  post m (dict_get fp (VStr (fst m))) (dict_get fp' (VStr (fst m))).
Proof.
  revert fp. induction ms as [| m0 ms IH]; intros fp Hnd H Hin;
    cbn [foldM] in H; simpl in Hnd, Hin.
  - contradiction.
  - inversion Hnd as [| x l Hnotin Hnd']; subst. inv_bind H.
    destruct Hin as [-> | Hin].
    + rewrite (own_key_other _ _ _ _ H).
      * now apply step_post.
      * intros m' Hm' Heq. injection Heq as Heq. apply Hnotin.
        rewrite Heq. now apply in_map.
    + assert (Hne : VStr (fst m0) <> VStr (fst m)).
      { intros Heq. injection Heq as Heq. apply Hnotin. rewrite Heq.
        now apply in_map. }
      replace (dict_get fp (VStr (fst m)))
        with (dict_get a (VStr (fst m))); [now apply IH |].
      destruct (step_own _ _ _ Ha) as [-> | [v ->]]; [reflexivity |].
      now apply dict_get_set_other.
Qed.
End OwnKey.

Lemma xml_member_own {E : Externals} (p : protocol) (xml_dict : dict)
  (fp : dict) (m : string * Shape) (fp' : dict) :
  xml_member p xml_dict fp m = Ok fp' ->
  fp' = fp \/ exists v, fp' = dict_set fp (VStr (fst m)) v.
Proof.
  destruct m as [n sh]. cbn [xml_member fst]. intros H.
  destruct (location (serialization sh)); [injection H as <-; now left |].
  destruct (dict_get xml_dict (VStr (_member_key_name sh n)));
    [| injection H as <-; now left].
  inv_bind H. injection H as <-. right. eauto.
Qed.

Lemma json_member_own {E : Externals} (p : protocol) (node : value)
  (fp : dict) (m : string * Shape) (fp' : dict) :
  json_member p node fp m = Ok fp' ->
  fp' = fp \/ exists v, fp' = dict_set fp (VStr (fst m)) v.
Proof.
  destruct m as [n sh]. cbn [json_member fst]. intros H. inv_bind H.
  destruct (is_none a); [injection H as <-; now left |].
  inv_bind H. injection H as <-. right. eauto.
Qed.

(** X3: the XML structure handler, on an element, returns a mapping that
    holds a member exactly when the member has no location and a child of
    the element bears its name ([_member_key_name]): the value is then what
    the member's shape decodes from that child, or from the sequence of
    those children; a member without such a child is left out, and no other
    key appears. *)
Theorem xml_structure_decode {E : Externals} (p : protocol)
  (s : Serialization) (ms : list (string * Shape)) (n : Node) (r : value) :
  is_xml p = true ->
  NoDup (map fst ms) ->
  _parse_shape p (StructureShape s ms) (VNode n) = Ok r ->
  exists parsed,
    r = VDict parsed
    /\ (forall member_name member_shape,
           In (member_name, member_shape) ms ->
           match location (serialization member_shape),
                 indexed (children_named
                            (_member_key_name member_shape member_name)
                            (getchildren n)) with
           | None, Some member_node =>
               exists v,
                 _parse_shape p member_shape member_node = Ok v
                 /\ dict_get parsed (VStr member_name) = Some v
           | _, _ => dict_get parsed (VStr member_name) = None
           end)
    /\ (forall k,
           (forall member_name member_shape,
               In (member_name, member_shape) ms -> k <> VStr member_name) ->
           dict_get parsed k = None).
Proof.
  intros Hp Hnd H. rewrite xml_structure_unfold in H by exact Hp.
  unfold _build_name_to_xml_node in H. cbn [py_iter] in H.
  rewrite bind_ret in H.
  destruct (index_items_spec (getchildren n) [] [] (fun t => eq_refl))
    as (xml_dict & Hd & Hspec).
  cbn [app] in Hspec. rewrite Hd, bind_ret in H.
  inv_bind H. injection H as <-. exists a. split; [reflexivity |]. split.
  - intros member_name member_shape Hin.
    rewrite <- Hspec.
    set (post := fun (m : string * Shape) (before after : option value) =>
                   match location (serialization (snd m)),
                         dict_get xml_dict
                           (VStr (_member_key_name (snd m) (fst m))) with
                   | None, Some member_node =>
                       exists v,
                         _parse_shape p (snd m) member_node = Ok v
                         /\ after = Some v
                   | _, _ => after = before
                   end).
    assert (Hpost : forall fp m fp',
               xml_member p xml_dict fp m = Ok fp' ->
               post m (dict_get fp (VStr (fst m)))
                    (dict_get fp' (VStr (fst m)))).
    { intros fp [mn msh] fp' Hstep. unfold post.
      cbn [xml_member fst snd] in *.
      destruct (location (serialization msh));
        [injection Hstep as <-; reflexivity |].
      destruct (dict_get xml_dict (VStr (_member_key_name msh mn)));
        [| injection Hstep as <-; reflexivity].
      inv_bind Hstep. injection Hstep as <-.
      exists a0. split; [assumption | apply dict_get_set_same]. }
    exact (own_key_member (xml_member p xml_dict) post
             (xml_member_own p xml_dict) Hpost ms [] a
             (member_name, member_shape) Hnd Ha Hin).
  - intros k Hk.
    rewrite (own_key_other (xml_member p xml_dict)
               (xml_member_own p xml_dict) ms [] a k Ha); [reflexivity |].
    intros [mn msh] Hin. now apply (Hk mn msh).
Qed.

Lemma xml_structure_decode_witness :
  let n := Element "Result" None
                   [Element "A" (Some "x") []; Element "B" (Some "y") []] in
  is_xml query = true /\
  NoDup (map fst [("A", ScalarShape no_serialization string_)]) /\
  _parse_shape (E := sample_externals) query one_string_member (VNode n)
  = Ok (VDict ["A" |-> VStr "x"]) /\
  exists parsed,
    VDict ["A" |-> VStr "x"] = VDict parsed
    /\ dict_get parsed (VStr "B") = None.
Proof.
  assert (Hnd : NoDup (map fst [("A", ScalarShape no_serialization string_)])).
  { repeat constructor. intros []. }
  split; [reflexivity | split; [exact Hnd | split; [reflexivity |]]].
  destruct (xml_structure_decode (E := sample_externals) query
              no_serialization
              [("A", ScalarShape no_serialization string_)]
              (Element "Result" None
                 [Element "A" (Some "x") []; Element "B" (Some "y") []])
              (VDict ["A" |-> VStr "x"]) eq_refl Hnd eq_refl)
    as (parsed & Hr & _ & Hother).
  exists parsed. split; [exact Hr |].
  apply Hother. intros member_name member_shape [Heq | []].
  injection Heq as <- _. discriminate.
Defined.

(** X4: the JSON structure handler, on a JSON object, returns a mapping
    that holds a member exactly when the object has a non-null value under
    the member's serialized name (else its own name): the value is then what
    the member's shape decodes from it; an absent or null member is left
    out, and no other key appears.  On anything but an object it raises
    [AttributeError], unless the structure has no member: then the result
    is the empty mapping. *)
Theorem json_structure_decode {E : Externals} (p : protocol)
  (s : Serialization) (ms : list (string * Shape)) (node : value) :
  is_xml p = false ->
  (forall d r,
      node = VDict d ->
      NoDup (map fst ms) ->
      _parse_shape p (StructureShape s ms) node = Ok r ->
      exists parsed,
        r = VDict parsed
        /\ (forall member_name member_shape,
               In (member_name, member_shape) ms ->
               match dict_get d (VStr (json_name member_name member_shape))
               with
               | Some raw_value =>
                   if is_none raw_value
                   then dict_get parsed (VStr member_name) = None
                   else exists v,
                          _parse_shape p member_shape raw_value = Ok v
                          /\ dict_get parsed (VStr member_name) = Some v
               | None => dict_get parsed (VStr member_name) = None
               end)
        /\ (forall k,
               (forall member_name member_shape,
                   In (member_name, member_shape) ms ->
                   k <> VStr member_name) ->
               dict_get parsed k = None))
  /\ (ms <> [] ->
      (forall d, node <> VDict d) ->
      _parse_shape p (StructureShape s ms) node = Raise AttributeError)
  /\ (ms = [] -> _parse_shape p (StructureShape s ms) node = Ok (VDict [])).
Proof.
  intros Hp. rewrite json_structure_unfold by exact Hp.
  split; [| split].
  - intros d r -> Hnd H. inv_bind H. injection H as <-.
    exists a. split; [reflexivity |]. split.
    + intros member_name member_shape Hin.
      set (post := fun (m : string * Shape) (before after : option value) =>
                     match dict_get d (VStr (json_name (fst m) (snd m))) with
                     | Some raw_value =>
                         if is_none raw_value then after = before
                         else exists v,
                                _parse_shape p (snd m) raw_value = Ok v
                                /\ after = Some v
                     | None => after = before
                     end).
      assert (Hpost : forall fp m fp',
                 json_member p (VDict d) fp m = Ok fp' ->
                 post m (dict_get fp (VStr (fst m)))
                      (dict_get fp' (VStr (fst m)))).
      { intros fp [mn msh] fp' Hstep. unfold post.
        cbn [json_member fst snd] in *. rewrite py_get_dict in Hstep.
        rewrite bind_ret in Hstep.
        destruct (dict_get d (VStr (json_name mn msh))) as [raw |].
        - destruct (is_none raw); [injection Hstep as <-; reflexivity |].
          inv_bind Hstep. injection Hstep as <-.
          exists a0. split; [assumption | apply dict_get_set_same].
        - cbn [is_none] in Hstep. injection Hstep as <-. reflexivity. }
      exact (own_key_member (json_member p (VDict d)) post
               (json_member_own p (VDict d)) Hpost ms [] a
               (member_name, member_shape) Hnd Ha Hin).
    + intros k Hk.
      rewrite (own_key_other (json_member p (VDict d))
                 (json_member_own p (VDict d)) ms [] a k Ha);
        [reflexivity |].
      intros [mn msh] Hin. now apply (Hk mn msh).
  - intros Hms Hnode. destruct ms as [| [n sh] ms]; [contradiction |].
    cbn [foldM json_member].
    destruct node; try reflexivity. now destruct (Hnode d).
  - intros ->. reflexivity.
Qed.

Lemma json_structure_decode_witness :
  let d := ["A" |-> VStr "x"; "B" |-> VInt 1] in
  is_xml json = false /\
  NoDup (map fst [("A", ScalarShape no_serialization string_)]) /\
  _parse_shape (E := sample_externals) json one_string_member (VDict d)
  = Ok (VDict ["A" |-> VStr "x"]) /\
  _parse_shape (E := sample_externals) json one_string_member (VList [])
  = Raise AttributeError.
Proof.
  assert (Hnd : NoDup (map fst [("A", ScalarShape no_serialization string_)])).
  { repeat constructor. intros []. }
  split; [reflexivity | split; [exact Hnd | split; [reflexivity |]]].
  apply (proj1 (proj2
           (json_structure_decode (E := sample_externals) json
              no_serialization
              [("A", ScalarShape no_serialization string_)]
              (VList []) eq_refl))).
  - discriminate.
  - discriminate.
Defined.

(** ** The leaf-collapse routine *)

Lemma collapse_unfold (n : Node) :
  collapse n
  = match getchildren n with
    | [] => of_text (text n)
    | _ :: _ => VDict (collapse_children (getchildren n))
    end.
Proof.
  destruct n as [t x [| c cs]]; reflexivity.
Qed.

Lemma distinct_tags_children (n : Node) :
  distinct_tags n ->
  NoDup (map local_name (getchildren n))
  /\ Forall distinct_tags (getchildren n).
Proof.
  destruct n as [t x cs]. cbn [distinct_tags getchildren].
  intros [Hnd Hall]. split; [exact Hnd |]. clear Hnd.
  induction cs as [| c cs IH]; constructor; destruct Hall; auto.
Qed.

Lemma _replace_nodes_unfold (fuel : nat) (parsed : dict) :
  _replace_nodes (S fuel) parsed = foldM (replace_item fuel) parsed parsed.
Proof. reflexivity. Qed.

Lemma dict_set_fresh (d : dict) (k v : value) :
  dict_get d k = None -> dict_set d k v = d ++ [(k, v)].
Proof.
  induction d as [| [k' v'] d IH]; cbn [dict_get dict_set app]; intros H.
  - reflexivity.
  - destruct (value_eqb k' k); [discriminate |]. now rewrite IH.
Qed.

Lemma dict_set_middle (d1 d2 : dict) (k v v' : value) :
  dict_get d1 k = None ->
  dict_set (d1 ++ (k, v) :: d2) k v' = d1 ++ (k, v') :: d2.
Proof.
  induction d1 as [| [k1 v1] d1 IH]; cbn [dict_get dict_set app]; intros H.
  - now rewrite value_eqb_refl.
  - destruct (value_eqb k1 k); [discriminate |]. now rewrite IH.
Qed.

Lemma dict_get_fresh_name (f : Node -> value) (l : list Node) (t : string) :
  ~ In t (map local_name l) ->
  dict_get (map (fun c => (VStr (local_name c), f c)) l) (VStr t) = None.
Proof.
  induction l as [| c l IH]; cbn [map dict_get In]; intros H.
  - reflexivity.
  - rewrite value_eqb_VStr.
    destruct (String.eqb (local_name c) t) eqn:Hc.
    + apply String.eqb_eq in Hc. tauto.
    + apply IH. tauto.
Qed.

Lemma index_items_distinct (cs pre : list Node) :
  NoDup (map local_name (pre ++ cs)) ->
  foldM index_item (map VNode cs) (index_entries pre)
  = Ok (index_entries (pre ++ cs)).
Proof.
  revert pre. induction cs as [| c cs IH]; intros pre Hnd.
  - now rewrite app_nil_r.
  - cbn [map foldM]. unfold index_item at 1. cbn [_node_tag bind].
    fold (local_name c).
    assert (Hfresh : ~ In (local_name c) (map local_name pre)).
    { rewrite map_app in Hnd. apply NoDup_remove_2 in Hnd.
      intros Hin. apply Hnd. apply in_or_app. now left. }
    unfold index_entries at 1.
    rewrite (dict_get_fresh_name VNode pre _ Hfresh).
    fold (index_entries pre).
    rewrite dict_set_fresh by now apply dict_get_fresh_name.
    cbn [bind].
    replace (index_entries pre ++ [(VStr (local_name c), VNode c)])
      with (index_entries (pre ++ [c]))
      by (unfold index_entries; now rewrite map_app).
    rewrite IH by now rewrite <- app_assoc.
    now rewrite <- app_assoc.
Qed.

Lemma build_distinct (n : Node) :
  NoDup (map local_name (getchildren n)) ->
  _build_name_to_xml_node (VNode n) = Ok (index_entries (getchildren n)).
Proof.
  intros Hnd. unfold _build_name_to_xml_node. cbn [py_iter bind].
  exact (index_items_distinct (getchildren n) [] Hnd).
Qed.

Lemma replace_items_collapse (fuel : nat) :
  (forall c,
      height c <= S fuel -> distinct_tags c -> getchildren c <> [] ->
      _replace_nodes fuel (index_entries (getchildren c))
      = Ok (collapse_children (getchildren c))) ->
  forall cs pre,
    NoDup (map local_name (pre ++ cs)) ->
    Forall (fun c => height c <= S fuel /\ distinct_tags c) cs ->
    foldM (replace_item fuel) (index_entries cs)
          (collapse_children pre ++ index_entries cs)
    = Ok (collapse_children (pre ++ cs)).
Proof.
  intros Hrec. induction cs as [| c cs IH]; intros pre Hnd HF.
  - cbn [index_entries map foldM]. now rewrite !app_nil_r.
  - inversion HF as [| c' cs' [Hh Hd] HF']; subst.
    assert (Hfresh : dict_get (collapse_children pre) (VStr (local_name c))
                     = None).
    { apply dict_get_fresh_name. rewrite map_app in Hnd.
      apply NoDup_remove_2 in Hnd. intros Hin. apply Hnd.
      apply in_or_app. now left. }
    assert (Hitem : replace_item fuel
                      (collapse_children pre ++ index_entries (c :: cs))
                      (VStr (local_name c), VNode c)
                    = Ok (collapse_children (pre ++ [c])
                          ++ index_entries cs)).
    { replace (collapse_children (pre ++ [c]) ++ index_entries cs)
        with (collapse_children pre
              ++ (VStr (local_name c), collapse c) :: index_entries cs)
        by (unfold collapse_children; rewrite map_app, <- app_assoc;
            reflexivity).
      change (index_entries (c :: cs))
        with ((VStr (local_name c), VNode c) :: index_entries cs).
      pose proof (build_distinct c
                    (proj1 (distinct_tags_children c Hd))) as Hbuild.
      pose proof (Hrec c Hh Hd) as Hsub.
      unfold replace_item. cbn [node_children bind].
      rewrite (collapse_unfold c).
      destruct (getchildren c) as [| c1 cs1] eqn:Hcs.
      - cbn [node_text bind]. now rewrite dict_set_middle.
      - rewrite Hbuild. cbn [bind]. rewrite Hsub by discriminate.
        cbn [bind]. now rewrite dict_set_middle. }
    cbn [index_entries map foldM]. fold (index_entries cs).
    change ((VStr (local_name c), VNode c) :: index_entries cs)
      with (index_entries (c :: cs)).
    rewrite Hitem. cbn [bind].
    rewrite IH; [now rewrite <- app_assoc | now rewrite <- app_assoc
                | assumption].
Qed.

Lemma _replace_nodes_collapse (fuel : nat) (cs : list Node) :
  1 <= fuel ->
  NoDup (map local_name cs) ->
  Forall (fun c => height c <= fuel /\ distinct_tags c) cs ->
  _replace_nodes fuel (index_entries cs) = Ok (collapse_children cs).
Proof.
  revert cs. induction fuel as [| fuel IH]; intros cs Hf Hnd HF; [lia |].
  rewrite _replace_nodes_unfold.
  apply (replace_items_collapse fuel) with (pre := []); try assumption.
  intros c Hh Hd Hcs.
  destruct (distinct_tags_children c Hd) as [Hnd' HF'].
  destruct (getchildren c) as [| c1 cs1] eqn:Hc; [contradiction |].
  assert (Hc1 : height c1 < height c).
  { apply height_child. rewrite Hc. now left. }
  apply IH.
  - destruct c1; cbn [height] in Hc1. lia.
  - assumption.
  - rewrite Forall_forall in *. intros x Hx. split.
    + assert (height x < height c) by (apply height_child; now rewrite Hc).
      lia.
    + now apply HF'.
Qed.

Lemma height_children_within (root : Node) :
  distinct_tags root ->
  Forall (fun c => height c <= height root /\ distinct_tags c)
         (getchildren root).
Proof.
  intros Hd. destruct (distinct_tags_children root Hd) as [_ HF].
  rewrite Forall_forall in *. intros c Hc. split; [| now apply HF].
  apply height_child in Hc. lia.
Qed.

Lemma height_positive (n : Node) : 1 <= height n.
Proof. destruct n. cbn [height]. lia. Qed.

Lemma collapse_body {E : Externals} (response : Response) (root : Node) :
  XMLParser (body response) = Ok root ->
  distinct_tags root ->
  (root' <- _parse_xml_string_to_dom (body response) ;;
   parsed <- _build_name_to_xml_node (VNode root') ;;
   _replace_nodes (height root') parsed)
  = Ok (collapse_children (getchildren root)).
Proof.
  intros Hroot Hd. unfold _parse_xml_string_to_dom.
  rewrite Hroot, bind_ret.
  rewrite build_distinct by apply (distinct_tags_children root Hd).
  rewrite bind_ret.
  apply _replace_nodes_collapse.
  - apply height_positive.
  - apply (distinct_tags_children root Hd).
  - now apply height_children_within.
Qed.

(** X5: when no element of the body has two children with the same
    local name, the Query error path returns the leaf-collapsed children of
    the root (each element is its text if it has no child, else the mapping
    of its children), with a top-level [RequestId] moved under
    [ResponseMetadata]. *)
Theorem QueryParser_do_error_parse_collapse {E : Externals}
  (response : Response) (root : Node) :
  XMLParser (body response) = Ok root ->
  distinct_tags root ->
  QueryParser_do_error_parse response
  = Ok (promote_RequestId (collapse_children (getchildren root))).
Proof.
  intros Hroot Hd. pose proof (collapse_body response root Hroot Hd) as H.
  unfold QueryParser_do_error_parse.
  destruct (_parse_xml_string_to_dom (body response)) as [root' | e];
    [| discriminate].
  cbn [bind] in *.
  destruct (_build_name_to_xml_node (VNode root')) as [parsed | e];
    [| discriminate].
  cbn [bind] in *. rewrite H. reflexivity.
Qed.

Lemma QueryParser_do_error_parse_collapse_witness :
  XMLParser (Externals := tokenizing_to query_error_root) [] =
  Ok query_error_root /\
  distinct_tags query_error_root /\
  QueryParser_do_error_parse (E := tokenizing_to query_error_root)
    {| status_code := 400; headers := []; body := [] |}
  = Ok ["Error" |-> VDict ["Code" |-> VStr "E"];
        "ResponseMetadata" |-> VDict ["RequestId" |-> VStr "r1"]].
Proof.
  assert (Hd : distinct_tags query_error_root).
  { cbn. repeat split; repeat constructor; cbn; intuition discriminate. }
  split; [reflexivity | split; [exact Hd |]].
  exact (QueryParser_do_error_parse_collapse
           (E := tokenizing_to query_error_root)
           {| status_code := 400; headers := []; body := [] |}
           query_error_root eq_refl Hd).
Defined.

Lemma repeated_name (cs : list Node) :
  ~ NoDup (map local_name cs) ->
  exists t x y l, children_named t cs = x :: y :: l.
Proof.
  induction cs as [| c cs IH]; cbn [map]; intros H.
  - destruct H. constructor.
  - destruct (in_dec string_dec (local_name c) (map local_name cs))
      as [Hin | Hnotin].
    + apply in_map_iff in Hin. destruct Hin as (c' & Hc' & Hin).
      exists (local_name c). cbn [children_named filter].
      rewrite String.eqb_refl. fold (children_named (local_name c) cs).
      destruct (children_named (local_name c) cs) as [| y l] eqn:Hf.
      * assert (Hc : In c' (children_named (local_name c) cs)).
        { apply filter_In. split; [assumption |].
          now apply String.eqb_eq. }
        rewrite Hf in Hc. contradiction.
      * eauto.
    + destruct IH as (t & x & y & l & Hf).
      { intros Hnd. apply H. now constructor. }
      exists t. cbn [children_named filter].
      fold (children_named t cs). rewrite Hf.
      destruct (String.eqb (local_name c) t); eauto.
Qed.

Lemma dict_get_In (d : dict) (k v : value) :
  dict_get d k = Some v -> In (k, v) d.
Proof.
  induction d as [| [k' v'] d IH]; cbn [dict_get]; intros H.
  - discriminate.
  - destruct (value_eqb k' k) eqn:Hk.
    + apply value_eqb_eq in Hk. injection H as <-. subst. now left.
    + right. now apply IH.
Qed.

Lemma build_repeated (n : Node) :
  ~ NoDup (map local_name (getchildren n)) ->
  exists d k l,
    _build_name_to_xml_node (VNode n) = Ok d /\ In (k, VList l) d.
Proof.
  intros H. destruct (repeated_name _ H) as (t & x & y & l & Hf).
  unfold _build_name_to_xml_node. cbn [py_iter bind].
  destruct (index_items_spec (getchildren n) [] [] (fun t => eq_refl))
    as (d & Hd & Hspec).
  exists d, (VStr t), (map VNode (x :: y :: l)). split; [exact Hd |].
  apply dict_get_In. rewrite Hspec. cbn [app]. now rewrite Hf.
Qed.

Lemma replace_raises_on_list (fuel : nat) (d : dict) (k : value)
  (l : list value) :
  In (k, VList l) d -> exists e, _replace_nodes (S fuel) d = Raise e.
Proof.
  intros Hin. rewrite _replace_nodes_unfold.
  apply (foldM_raise_in (replace_item fuel) d (k, VList l) Hin).
  intros acc. exists AttributeError. reflexivity.
Qed.

Lemma has_repeated_children (n : Node) :
  has_repeated n -> getchildren n <> [].
Proof.
  intros H Hcs. destruct H as [n Hnd | n c Hin _]; rewrite Hcs in *.
  - apply Hnd. constructor.
  - contradiction.
Qed.

Lemma has_repeated_raises (n : Node) :
  has_repeated n ->
  forall fuel,
    height n <= fuel ->
    exists e,
      (d <- _build_name_to_xml_node (VNode n) ;; _replace_nodes fuel d)
      = Raise e.
Proof.
  induction 1 as [n Hnd | n c Hin Hc IH]; intros fuel Hfuel.
  - destruct (build_repeated n Hnd) as (d & k & l & Hd & Hl).
    rewrite Hd, bind_ret. pose proof (height_positive n).
    destruct fuel as [| fuel]; [lia |].
    now apply replace_raises_on_list with k l.
  - destruct (ListDec.NoDup_dec string_dec (map local_name (getchildren n)))
      as [Hnd | Hnd].
    + rewrite (build_distinct n Hnd), bind_ret.
      pose proof (height_child n c Hin) as Hh.
      destruct fuel as [| fuel]; [lia |].
      rewrite _replace_nodes_unfold.
      apply (foldM_raise_in (replace_item fuel)
               (index_entries (getchildren n))
               (VStr (local_name c), VNode c)).
      * unfold index_entries.
        now apply (in_map (fun c => (VStr (local_name c), VNode c))).
      * intros acc. unfold replace_item. cbn [node_children bind].
        pose proof (has_repeated_children c Hc) as Hne.
        destruct (getchildren c) as [| c1 cs1]; [contradiction |].
        destruct (IH fuel) as [e He]; [lia |].
        exists e.
        destruct (_build_name_to_xml_node (VNode c)) as [d | e'];
          cbn [bind] in *; [now rewrite He | exact He].
    + destruct (build_repeated n Hnd) as (d & k & l & Hd & Hl).
      rewrite Hd, bind_ret. pose proof (height_positive n).
      destruct fuel as [| fuel]; [lia |].
      now apply replace_raises_on_list with k l.
Qed.

Lemma collapse_xml_body_raises {E : Externals} (xml_contents : list byte)
  (root : Node) :
  XMLParser xml_contents = Ok root ->
  has_repeated root ->
  collapse_xml_body xml_contents = Raise AttributeError.
Proof.
  intros Hroot Hrep. unfold collapse_xml_body, _parse_xml_string_to_dom.
  rewrite Hroot, bind_ret.
  destruct (has_repeated_raises root Hrep (height root) (le_n _))
    as [e He].
  rewrite He. f_equal.
  destruct (build_node_ok root) as (d & Hd & HF).
  rewrite Hd, bind_ret in He.
  apply (_replace_nodes_fuel (height root) d e); try assumption.
  - apply height_positive.
  - apply indexed_within with root; [lia | assumption].
Qed.

(** X6: when some element of the body has two children with the same
    local name (two [Error] elements, say), the error paths of the Query,
    EC2Query and RestXML variants return nothing: they raise
    [AttributeError]. *)
Theorem repeated_tag_raises {E : Externals} (p : protocol)
  (response : Response) (shape : option Shape) (root : Node) :
  (status_code response >=? 301)%Z = true ->
  XMLParser (body response) = Ok root ->
  has_repeated root ->
  p = query \/ p = ec2 \/ (p = rest_xml /\ body response <> []) ->
  parse p response shape = Raise AttributeError.
Proof.
  intros Hstatus Hroot Hrep Hp. unfold parse. rewrite Hstatus.
  pose proof (collapse_xml_body_raises (body response) root Hroot Hrep)
    as Hraise.
  assert (Hq : QueryParser_do_error_parse response = Raise AttributeError).
  { unfold QueryParser_do_error_parse. unfold collapse_xml_body in Hraise.
    destruct (_parse_xml_string_to_dom (body response)) as [r | e];
      cbn [bind] in *; [| exact Hraise].
    destruct (_build_name_to_xml_node (VNode r)) as [d | e];
      cbn [bind] in *; [| exact Hraise].
    now rewrite Hraise. }
  destruct Hp as [-> | [-> | [-> Hbody]]]; cbn [_do_error_parse].
  - now rewrite Hq.
  - unfold EC2QueryParser_do_error_parse. now rewrite Hq.
  - unfold RestXMLParser_do_error_parse.
    destruct (body response) as [| b bs] eqn:Hb; [contradiction |].
    rewrite <- Hb in *. unfold _parse_error_from_body.
    unfold collapse_xml_body in Hraise.
    destruct (_parse_xml_string_to_dom (body response)) as [r | e];
      cbn [bind] in *; [| congruence].
    destruct (_build_name_to_xml_node (VNode r)) as [d | e];
      cbn [bind] in *; [| congruence].
    now rewrite Hraise.
Qed.

Lemma repeated_tag_raises_witness :
  let response := {| status_code := 400; headers := []; body := [x3c] |} in
  (status_code response >=? 301)%Z = true /\
  XMLParser (Externals := tokenizing_to two_errors_below) (body response)
  = Ok two_errors_below /\
  has_repeated two_errors_below /\
  parse (E := tokenizing_to two_errors_below) ec2 response None
  = Raise AttributeError.
Proof.
  assert (Hrep : has_repeated two_errors_below).
  { apply repeated_below
      with (c := Element "Errors" None
                   [Element "Error" (Some "a") [];
                    Element "Error" (Some "b") []]).
    - left. reflexivity.
    - apply repeated_here. cbn. intros Hnd. inversion Hnd as [| x l Hx _].
      apply Hx. now left. }
  split; [reflexivity | split; [reflexivity | split; [exact Hrep |]]].
  apply (repeated_tag_raises (E := tokenizing_to two_errors_below) ec2
           {| status_code := 400; headers := []; body := [x3c] |} None
           two_errors_below eq_refl eq_refl Hrep).
  right. left. reflexivity.
Defined.

(** ** The request id of an error body *)

Lemma QueryParser_do_error_parse_unfold {E : Externals}
  (response : Response) :
  QueryParser_do_error_parse response
  = (parsed <- collapse_xml_body (body response) ;;
     Ok (promote_RequestId parsed)).
Proof.
  unfold QueryParser_do_error_parse, collapse_xml_body.
  destruct (_parse_xml_string_to_dom (body response)); cbn [bind];
    [| reflexivity].
  destruct (_build_name_to_xml_node (VNode a)); reflexivity.
Qed.

(** X7: the Query error result never has a top-level [RequestId]: when
    the collapsed body has one it is moved to [ResponseMetadata], replacing
    what the body held there, and every other key is kept; without one the
    result is the collapsed body itself. *)
Theorem query_error_promotes_RequestId {E : Externals}
  (response : Response) (r : dict) :
  QueryParser_do_error_parse response = Ok r ->
  exists parsed,
    collapse_xml_body (body response) = Ok parsed
    /\ dict_get r (VStr "RequestId") = None
    /\ (forall rid,
           dict_get parsed (VStr "RequestId") = Some rid ->
           dict_get r (VStr "ResponseMetadata")
           = Some (VDict ["RequestId" |-> rid]))
    /\ (dict_get parsed (VStr "RequestId") = None -> r = parsed)
    /\ (forall k,
           k <> VStr "RequestId" -> k <> VStr "ResponseMetadata" ->
           dict_get r k = dict_get parsed k).
Proof.
  rewrite QueryParser_do_error_parse_unfold. intros H. inv_bind H.
  injection H as <-. exists a. split; [exact Ha |].
  unfold promote_RequestId.
  destruct (dict_get a (VStr "RequestId")) as [rid |] eqn:Hrid.
  - repeat split.
    + rewrite dict_get_set_other by discriminate. apply dict_get_del_same.
    + intros rid' Heq. injection Heq as <-. apply dict_get_set_same.
    + discriminate.
    + intros k H1 H2. rewrite dict_get_set_other by congruence.
      apply dict_get_del_other. congruence.
  - repeat split; try assumption; discriminate.
Qed.

Lemma query_error_promotes_RequestId_witness :
  QueryParser_do_error_parse (E := tokenizing_to query_error_root)
    {| status_code := 400; headers := []; body := [] |}
  = Ok ["Error" |-> VDict ["Code" |-> VStr "E"];
        "ResponseMetadata" |-> VDict ["RequestId" |-> VStr "r1"]] /\
  dict_get ["Error" |-> VDict ["Code" |-> VStr "E"];
            "ResponseMetadata" |-> VDict ["RequestId" |-> VStr "r1"]]
           (VStr "RequestId") = None.
Proof.
  split; [reflexivity |].
  destruct (query_error_promotes_RequestId
              (E := tokenizing_to query_error_root)
              {| status_code := 400; headers := []; body := [] |}
              ["Error" |-> VDict ["Code" |-> VStr "E"];
               "ResponseMetadata" |-> VDict ["RequestId" |-> VStr "r1"]]
              eq_refl) as (parsed & _ & H & _).
  exact H.
Defined.

(** ** The metadata of a REST success *)

Lemma non_payload_attr_own {E : Externals} (p : protocol)
  (response : Response) (fp : dict) (m : string * Shape) (fp' : dict) :
  non_payload_attr p response fp m = Ok fp' ->
  fp' = fp \/ exists v, fp' = dict_set fp (VStr (fst m)) v.
Proof.
  destruct m as [n sh]. unfold non_payload_attr. cbn [fst]. intros H.
  destruct (location (serialization sh)) as [loc |];
    [| injection H as <-; now left].
  destruct (String.eqb loc "statusCode").
  { inv_bind H. injection H as <-. right. eauto. }
  destruct (String.eqb loc "headers").
  { injection H as <-. right. eauto. }
  destruct (String.eqb loc "header"); [| injection H as <-; now left].
  destruct (header_get (headers response) _);
    [| injection H as <-; now left].
  inv_bind H. injection H as <-. right. eauto.
Qed.

Lemma dict_get_update (d1 d2 : dict) (k : value) :
  dict_get d2 k = None -> dict_get (dict_update d1 d2) k = dict_get d1 k.
Proof.
  unfold dict_update. revert d1.
  induction d2 as [| [k2 v2] d2 IH]; cbn [fold_left dict_get fst snd];
    intros d1 H; [reflexivity |].
  destruct (value_eqb k2 k) eqn:Hk; [discriminate |].
  rewrite IH by assumption. apply dict_get_set_other.
  now apply value_eqb_neq.
Qed.

Lemma members_get_In (ms : list (string * Shape)) (k : string) (sh : Shape) :
  members_get ms k = Ok sh -> In (k, sh) ms.
Proof.
  induction ms as [| [k' s'] ms IH]; cbn [members_get]; intros H.
  - discriminate.
  - destruct (String.eqb k' k) eqn:Hk.
    + apply String.eqb_eq in Hk. injection H as <-. subst. now left.
    + right. now apply IH.
Qed.

Lemma structure_keys {E : Externals} (p : protocol) (s : Serialization)
  (ms : list (string * Shape)) (node : value) (d : dict) (k : value) :
  _parse_shape p (StructureShape s ms) node = Ok (VDict d) ->
  (forall n sh, In (n, sh) ms -> k <> VStr n) ->
  dict_get d k = None.
Proof.
  intros H Hk. destruct (is_xml p) eqn:Hp.
  - rewrite xml_structure_unfold in H by exact Hp.
    inv_bind H. inv_bind H. injection H as <-.
    rewrite (own_key_other (xml_member p a) (xml_member_own p a)
               ms [] a0 k Ha0); [reflexivity |].
    intros [n sh] Hin. now apply (Hk n sh).
  - rewrite json_structure_unfold in H by exact Hp.
    inv_bind H. injection H as <-.
    rewrite (own_key_other (json_member p node) (json_member_own p node)
               ms [] a k Ha); [reflexivity |].
    intros [n sh] Hin. now apply (Hk n sh).
Qed.

Lemma structure_is_dict {E : Externals} (p : protocol) (s : Serialization)
  (ms : list (string * Shape)) (node r : value) :
  _parse_shape p (StructureShape s ms) node = Ok r -> exists d, r = VDict d.
Proof.
  intros H. destruct (is_xml p) eqn:Hp.
  - rewrite xml_structure_unfold in H by exact Hp.
    inv_bind H. inv_bind H. injection H as <-. eauto.
  - rewrite json_structure_unfold in H by exact Hp.
    inv_bind H. injection H as <-. eauto.
Qed.

(** X8: a success parse of a REST variant that returns, returns a
    mapping, and unless the output shape has a member named
    [ResponseMetadata] the mapping holds under that key the metadata read
    from the headers, whatever the body and the other members are. *)
Theorem rest_success_ResponseMetadata {E : Externals} (p : protocol)
  (response : Response) (shape : option Shape) (r : value) :
  is_rest p = true ->
  (status_code response >=? 301)%Z = false ->
  (forall n sh, In (n, sh) (output_members shape) -> n <> "ResponseMetadata") ->
  parse p response shape = Ok r ->
  exists d,
    r = VDict d
    /\ dict_get d (VStr "ResponseMetadata")
       = Some (VDict (_populate_response_metadata response)).
Proof.
  intros Hp Hstatus Hms H. unfold parse in H. rewrite Hstatus in H.
  assert (Hdo : BaseRestParser_do_parse p response shape = Ok r).
  { destruct p; try discriminate; exact H. }
  clear H. unfold BaseRestParser_do_parse in Hdo.
  destruct shape as [[s ms | | |] |]; cbn [bind] in Hdo; try discriminate.
  - cbn [output_members] in Hms.
    inv_bind Hdo. inv_bind Hdo. injection Hdo as <-.
    exists a0. split; [reflexivity |].
    assert (Hk : forall m : string * Shape,
               In m ms -> VStr "ResponseMetadata" <> VStr (fst m)).
    { intros [n sh] Hin Heq. injection Heq as Heq.
      now apply (Hms n sh Hin). }
    assert (Ha' : dict_get a (VStr "ResponseMetadata")
                  = Some (VDict (_populate_response_metadata response))).
    { unfold _parse_non_payload_attrs in Ha.
      rewrite (own_key_other (non_payload_attr p response)
                 (non_payload_attr_own p response) ms _ a _ Ha Hk).
      reflexivity. }
    unfold _parse_payload in Ha0.
    destruct (payload (serialization (StructureShape s ms))) as [pn |].
    + inv_bind Ha0. apply members_get_In in Ha1.
      assert (Hpn : VStr pn <> VStr "ResponseMetadata").
      { intros Heq. injection Heq as ->. now apply (Hms _ _ Ha1). }
      destruct (is_stream a1).
      * inv_bind Ha0. injection Ha0 as <-.
        now rewrite dict_get_set_other.
      * inv_bind Ha0. inv_bind Ha0. injection Ha0 as <-.
        now rewrite dict_get_set_other.
    + inv_bind Ha0. inv_bind Ha0.
      destruct (structure_is_dict _ _ _ _ _ Ha2) as [bd ->].
      injection Ha0 as <-. rewrite dict_get_update; [exact Ha' |].
      apply (structure_keys _ _ _ _ _ _ Ha2).
      intros n sh Hin Heq. injection Heq as Heq.
      now apply (Hms n sh Hin).
  - injection Hdo as <-. eexists. split; reflexivity.
Qed.

Lemma rest_success_ResponseMetadata_witness :
  is_rest rest_xml = true /\
  (status_code status_response >=? 301)%Z = false /\
  (forall n sh,
      In (n, sh) (output_members
                    (Some (StructureShape no_serialization status_members))) ->
      n <> "ResponseMetadata") /\
  parse (E := sample_externals) rest_xml status_response
        (Some (StructureShape no_serialization status_members))
  = Ok (VDict ["ResponseMetadata" |-> VDict [];
               "Status" |-> VInt 200;
               "Meta" |-> VDict ["Color" |-> VStr "red"]]) /\
  exists d,
    VDict ["ResponseMetadata" |-> VDict [];
           "Status" |-> VInt 200;
           "Meta" |-> VDict ["Color" |-> VStr "red"]] = VDict d
    /\ dict_get d (VStr "ResponseMetadata")
       = Some (VDict (_populate_response_metadata status_response)).
Proof.
  assert (Hms : forall n sh,
             In (n, sh) (output_members
                           (Some (StructureShape no_serialization
                                                 status_members))) ->
             n <> "ResponseMetadata").
  { intros n sh [Heq | [Heq | []]]; injection Heq as <- _; discriminate. }
  split; [reflexivity | split; [reflexivity | split; [exact Hms |]]].
  split; [reflexivity |].
  exact (rest_success_ResponseMetadata (E := sample_externals) rest_xml
           status_response
           (Some (StructureShape no_serialization status_members))
           _ eq_refl eq_refl Hms eq_refl).
Defined.

(** ** Parsing without an output shape *)

(** X9: a success response parsed without an output shape: the REST
    variants return the header metadata alone and never look at the body;
    the Query and EC2Query variants return the empty mapping or the
    [ResponseMetadata] of the body alone; the JSON variant returns nothing,
    it always raises. *)
Theorem parse_without_shape {E : Externals} (p : protocol)
  (response : Response) :
  (status_code response >=? 301)%Z = false ->
  match p with
  | rest_json | rest_xml =>
      parse p response None
      = Ok (VDict ["ResponseMetadata" |->
                     VDict (_populate_response_metadata response)])
  | json => forall r, parse p response None <> Ok r
  | query | ec2 =>
      forall r,
        parse p response None = Ok r ->
        r = VDict []
        \/ exists metadata, r = VDict ["ResponseMetadata" |-> VDict metadata]
  end.
Proof.
  intros Hstatus. unfold parse. rewrite Hstatus.
  destruct p; cbn [_do_parse]; try reflexivity.
  - intros r H. unfold QueryParser_do_parse in H. inv_bind H.
    rewrite bind_ret in H.
    unfold EC2QueryParser_inject_response_metadata in H. inv_bind H.
    destruct (dict_get a0 (VStr "requestId")).
    + inv_bind H. injection H as <-. right. eauto.
    + injection H as <-. now left.
  - intros r H. unfold QueryParser_do_parse in H. inv_bind H.
    rewrite bind_ret in H.
    unfold QueryParser_inject_response_metadata in H. inv_bind H.
    destruct (dict_get a0 (VStr "ResponseMetadata")).
    + inv_bind H. inv_bind H. injection H as <-. right. eauto.
    + injection H as <-. now left.
  - intros r H. unfold JSONParser_do_parse in H. inv_bind H. inv_bind H.
    inv_bind H. discriminate.
Qed.

Lemma parse_without_shape_witness :
  let response :=
    {| status_code := 204; headers := [("x-amzn-requestid", "r1")];
       body := [xff] |} in
  (status_code response >=? 301)%Z = false /\
  parse (E := sample_externals) rest_json response None
  = Ok (VDict ["ResponseMetadata" |-> VDict ["RequestId" |-> VStr "r1"]]).
Proof.
  split; [reflexivity |].
  exact (parse_without_shape (E := sample_externals) rest_json
           {| status_code := 204; headers := [("x-amzn-requestid", "r1")];
              body := [xff] |} eq_refl).
Defined.

(** ** The RestJSON error path *)

Lemma split_hd (c : ascii) (s : string) :
  contains_char c (hd EmptyString (split c s)) = false
  /\ (s = hd EmptyString (split c s)
      \/ exists rest,
           s = (hd EmptyString (split c s) ++ String c rest)%string).
Proof.
  induction s as [| a r IH]; cbn [split].
  - split; [reflexivity | now left].
  - destruct (Ascii.eqb a c) eqn:Hac.
    + apply Ascii.eqb_eq in Hac. subst a. cbn [hd].
      split; [reflexivity |]. right. exists r. reflexivity.
    + destruct IH as [Hno Hs].
      destruct (split c r) as [| h t]; cbn [hd] in *.
      * split; [cbn [contains_char]; now rewrite Hac |].
        destruct Hs as [-> | [rest ->]]; [now left |].
        right. exists rest. reflexivity.
      * split; [cbn [contains_char]; now rewrite Hac |].
        destruct Hs as [-> | [rest ->]]; [now left |].
        right. exists rest. reflexivity.
Qed.

(** X10: on the error path of the RestJSON variant with an
    [x-amzn-errortype] header, [Error.Code] is the header up to its first
    colon (the whole header when it has none); [Error.Message] is the
    ["message"] of the body object, the empty string when the body has none
    or is empty; a capitalised ["Message"] is not looked at. *)
Theorem rest_json_error_code {E : Externals} (response : Response)
  (shape : option Shape) (code : string) (r : value) :
  (status_code response >=? 301)%Z = true ->
  header_get (headers response) "x-amzn-errortype" = Some code ->
  parse rest_json response shape = Ok r ->
  exists b c,
    RestJSON_initial_body_parse (body response) = Ok (VDict b)
    /\ r = VDict ["Error" |->
                    VDict ["Message" |->
                             match dict_get b (VStr "message") with
                             | Some m => m
                             | None => VStr ""
                             end;
                           "Code" |-> VStr c];
                  "ResponseMetadata" |-> VDict []]
    /\ contains_char ":"%char c = false
    /\ (code = c \/ exists rest, code = (c ++ String ":"%char rest)%string).
Proof.
  intros Hstatus Hcode H. unfold parse in H. rewrite Hstatus in H.
  cbn [_do_error_parse] in H. unfold RestJSONParser_do_error_parse in H.
  rewrite Hcode in H. inv_bind H. inv_bind H. injection H as <-.
  destruct a; try discriminate. rewrite py_get_dict in Ha0.
  injection Ha0 as <-.
  exists d, (hd EmptyString (split ":"%char code)).
  split; [exact Ha |]. split; [reflexivity |]. apply split_hd.
Qed.

Lemma rest_json_error_code_witness :
  let response :=
    {| status_code := 400;
       headers := [("x-amzn-errortype", "ValidationException:http://x/")];
       body := [] |} in
  (status_code response >=? 301)%Z = true /\
  header_get (headers response) "x-amzn-errortype"
  = Some "ValidationException:http://x/" /\
  parse (E := sample_externals) rest_json response None
  = Ok (VDict ["Error" |->
                 VDict ["Message" |-> VStr "";
                        "Code" |-> VStr "ValidationException"];
               "ResponseMetadata" |-> VDict []]) /\
  exists b c,
    RestJSON_initial_body_parse (E := sample_externals) [] = Ok (VDict b)
    /\ VDict ["Error" |->
                VDict ["Message" |-> VStr "";
                       "Code" |-> VStr "ValidationException"];
              "ResponseMetadata" |-> VDict []]
       = VDict ["Error" |->
                  VDict ["Message" |->
                           match dict_get b (VStr "message") with
                           | Some m => m
                           | None => VStr ""
                           end;
                         "Code" |-> VStr c];
                "ResponseMetadata" |-> VDict []]
    /\ contains_char ":"%char c = false
    /\ ("ValidationException:http://x/" = c
        \/ exists rest,
             "ValidationException:http://x/"
             = (c ++ String ":"%char rest)%string).
Proof.
  split; [reflexivity | split; [reflexivity | split; [reflexivity |]]].
  exact (rest_json_error_code (E := sample_externals)
           {| status_code := 400;
              headers := [("x-amzn-errortype",
                           "ValidationException:http://x/")];
              body := [] |} None "ValidationException:http://x/" _
           eq_refl eq_refl eq_refl).
Defined.

(** ** The RestXML error path with a body *)

Lemma _parse_error_from_body_unfold {E : Externals} (response : Response)
  (root : Node) :
  XMLParser (body response) = Ok root ->
  _parse_error_from_body response
  = (parsed <- collapse_xml_body (body response) ;;
     if String.eqb (tag root) "Error" then
       Ok (VDict
             ["Error" |->
                VDict (dict_del (dict_del parsed (VStr "RequestId"))
                                (VStr "HostId"));
              "ResponseMetadata" |->
                VDict (_populate_response_metadata response)])
     else Ok (VDict (promote_RequestId parsed))).
Proof.
  intros Hroot.
  unfold _parse_error_from_body, collapse_xml_body, _parse_xml_string_to_dom.
  rewrite Hroot, !bind_ret.
  destruct (_build_name_to_xml_node (VNode root)); cbn [bind];
    [| reflexivity].
  destruct (_replace_nodes (height root) a); reflexivity.
Qed.

(** X11: on the error path of the RestXML variant with a body: when the
    tag of the root is [Error], the result is the collapsed body under
    [Error], without its [RequestId] and [HostId], and the metadata of the
    headers under [ResponseMetadata]; with any other root tag it is the
    collapsed body with a top-level [RequestId] moved under
    [ResponseMetadata], and the headers are not read. *)
Theorem rest_xml_error_from_body {E : Externals} (response : Response)
  (shape : option Shape) (root : Node) (r : value) :
  (status_code response >=? 301)%Z = true ->
  body response <> [] ->
  XMLParser (body response) = Ok root ->
  parse rest_xml response shape = Ok r ->
  exists parsed,
    collapse_xml_body (body response) = Ok parsed
    /\ (distinct_tags root -> parsed = collapse_children (getchildren root))
    /\ (tag root = "Error" ->
        exists error,
          r = VDict ["Error" |-> VDict error;
                     "ResponseMetadata" |->
                       VDict (_populate_response_metadata response)]
          /\ dict_get error (VStr "RequestId") = None
          /\ dict_get error (VStr "HostId") = None
          /\ forall k,
               k <> VStr "RequestId" -> k <> VStr "HostId" ->
               dict_get error k = dict_get parsed k)
    /\ (tag root <> "Error" -> r = VDict (promote_RequestId parsed)).
Proof.
  intros Hstatus Hbody Hroot H. unfold parse in H. rewrite Hstatus in H.
  cbn [_do_error_parse] in H. unfold RestXMLParser_do_error_parse in H.
  destruct (body response) as [| b bs] eqn:Hb; [contradiction |].
  rewrite <- Hb in *.
  rewrite (_parse_error_from_body_unfold response root Hroot) in H.
  inv_bind H. exists a. split; [exact Ha |]. split; [| split].
  - intros Hd. pose proof (collapse_body response root Hroot Hd) as Hc.
    unfold collapse_xml_body in Ha. congruence.
  - intros Htag. rewrite Htag in H. cbn [String.eqb] in H.
    rewrite String.eqb_refl in H || idtac.
    injection H as <-. eexists. split; [reflexivity |]. repeat split.
    + rewrite dict_get_del_other by discriminate. apply dict_get_del_same.
    + apply dict_get_del_same.
    + intros k H1 H2. rewrite dict_get_del_other by congruence.
      apply dict_get_del_other. congruence.
  - intros Htag. apply String.eqb_neq in Htag. rewrite Htag in H.
    now injection H as <-.
Qed.

Lemma rest_xml_error_from_body_witness :
  let response :=
    {| status_code := 404; headers := [("x-amz-request-id", "r9")];
       body := [x3c] |} in
  (status_code response >=? 301)%Z = true /\
  body response <> [] /\
  XMLParser (Externals := tokenizing_to s3_error_root) (body response)
  = Ok s3_error_root /\
  parse (E := tokenizing_to s3_error_root) rest_xml response None
  = Ok (VDict ["Error" |-> VDict ["Code" |-> VStr "NoSuchKey"];
               "ResponseMetadata" |->
                 VDict ["RequestId" |-> VStr "r9"; "HostId" |-> VStr ""]]) /\
  exists parsed,
    collapse_xml_body (E := tokenizing_to s3_error_root) [x3c] = Ok parsed.
Proof.
  assert (Hbody : [x3c] <> @nil byte) by discriminate.
  split; [reflexivity | split; [exact Hbody | split; [reflexivity |]]].
  split; [reflexivity |].
  destruct (rest_xml_error_from_body (E := tokenizing_to s3_error_root)
              {| status_code := 404; headers := [("x-amz-request-id", "r9")];
                 body := [x3c] |} None s3_error_root _
              eq_refl Hbody eq_refl eq_refl) as (parsed & Hp & _).
  exists parsed. exact Hp.
Defined.

(** ** The body of a REST success *)

Lemma xml_members_empty_index {E : Externals} (p : protocol)
  (ms : list (string * Shape)) (acc : dict) :
  foldM (xml_member p []) ms acc = Ok acc.
Proof.
  induction ms as [| [n sh] ms IH]; cbn [foldM xml_member dict_get];
    [reflexivity |].
  destruct (location (serialization sh)); cbn [bind]; exact IH.
Qed.

Lemma json_members_empty_object {E : Externals} (p : protocol)
  (ms : list (string * Shape)) (acc : dict) :
  foldM (json_member p (VDict [])) ms acc = Ok acc.
Proof.
  induction ms as [| [n sh] ms IH]; cbn [foldM json_member];
    [reflexivity |].
  rewrite py_get_dict. cbn [dict_get bind is_none]. exact IH.
Qed.

Lemma BaseRestParser_do_parse_unfold {E : Externals} (p : protocol)
  (response : Response) (s : Serialization) (ms : list (string * Shape)) :
  BaseRestParser_do_parse p response (Some (StructureShape s ms))
  = (final_parsed <-
       _parse_non_payload_attrs p response ms (initial_parsed response) ;;
     final_parsed <-
       _parse_payload p response (StructureShape s ms) ms final_parsed ;;
     Ok (VDict final_parsed)).
Proof. reflexivity. Qed.

(** X12: a success response of a REST variant with an empty body, for a
    structure shape without a payload member, decodes to the metadata and
    the attributes taken from the status and the headers alone: the body
    adds no member, and nothing is tokenized. *)
Theorem rest_empty_body {E : Externals} (p : protocol) (response : Response)
  (s : Serialization) (ms : list (string * Shape)) :
  is_rest p = true ->
  (status_code response >=? 301)%Z = false ->
  body response = [] ->
  payload s = None ->
  parse p response (Some (StructureShape s ms))
  = (final_parsed <-
       _parse_non_payload_attrs p response ms (initial_parsed response) ;;
     Ok (VDict final_parsed)).
Proof.
  intros Hp Hstatus Hbody Hpayload. unfold parse. rewrite Hstatus.
  assert (Hdo : _do_parse p response (Some (StructureShape s ms))
                = BaseRestParser_do_parse p response
                    (Some (StructureShape s ms))).
  { destruct p; try discriminate; reflexivity. }
  rewrite Hdo, BaseRestParser_do_parse_unfold.
  destruct (_parse_non_payload_attrs p response ms (initial_parsed response))
    as [final | e]; cbn [bind]; [| reflexivity].
  unfold _parse_payload. cbn [serialization]. rewrite Hpayload, Hbody.
  destruct p; try discriminate; cbn [_initial_body_parse].
  - cbn [RestJSON_initial_body_parse bind].
    rewrite json_structure_unfold by reflexivity.
    rewrite json_members_empty_object. reflexivity.
  - cbn [RestXML_initial_body_parse bind].
    rewrite xml_structure_unfold by reflexivity.
    unfold _build_name_to_xml_node. cbn [py_iter getchildren map foldM bind].
    rewrite xml_members_empty_index. reflexivity.
Qed.

Lemma rest_empty_body_witness :
  is_rest rest_xml = true /\
  (status_code status_response >=? 301)%Z = false /\
  body status_response = [] /\
  payload no_serialization = None /\
  parse (E := sample_externals) rest_xml status_response
        (Some (StructureShape no_serialization status_members))
  = Ok (VDict ["ResponseMetadata" |-> VDict [];
               "Status" |-> VInt 200;
               "Meta" |-> VDict ["Color" |-> VStr "red"]]).
Proof.
  split; [reflexivity | split; [reflexivity | split; [reflexivity |]]].
  split; [reflexivity |].
  exact (rest_empty_body (E := sample_externals) rest_xml status_response
           no_serialization status_members
           eq_refl eq_refl eq_refl eq_refl).
Defined.

Lemma xml_members_skip_location {E : Externals} (p : protocol)
  (xml_dict : dict) (ms : list (string * Shape)) (acc parsed : dict)
  (n : string) (sh : Shape) :
  NoDup (map fst ms) ->
  foldM (xml_member p xml_dict) ms acc = Ok parsed ->
  In (n, sh) ms ->
  location (serialization sh) <> None ->
  dict_get parsed (VStr n) = dict_get acc (VStr n).
Proof.
  intros Hnd H Hin Hloc.
  set (post := fun (m : string * Shape) (before after : option value) =>
                 location (serialization (snd m)) <> None -> after = before).
  assert (Hpost : forall fp m fp',
             xml_member p xml_dict fp m = Ok fp' ->
             post m (dict_get fp (VStr (fst m)))
                  (dict_get fp' (VStr (fst m)))).
  { intros fp [mn msh] fp' Hstep. unfold post. cbn [xml_member fst snd] in *.
    destruct (location (serialization msh));
      [injection Hstep as <-; reflexivity |].
    intros Hne. now destruct Hne. }
  exact (own_key_member (xml_member p xml_dict) post
           (xml_member_own p xml_dict) Hpost ms acc parsed (n, sh)
           Hnd H Hin Hloc).
Qed.

(** X13: in a success parse of the RestXML variant for a structure shape
    without a payload member, the body never touches a member that has a
    location: such a member holds in the result exactly what the attribute
    extraction gave it. *)
Theorem rest_xml_body_keeps_attributes {E : Externals} (response : Response)
  (s : Serialization) (ms : list (string * Shape)) (r : value) :
  (status_code response >=? 301)%Z = false ->
  payload s = None ->
  NoDup (map fst ms) ->
  parse rest_xml response (Some (StructureShape s ms)) = Ok r ->
  exists final d,
    _parse_non_payload_attrs rest_xml response ms (initial_parsed response)
    = Ok final
    /\ r = VDict d
    /\ forall n sh,
         In (n, sh) ms ->
         location (serialization sh) <> None ->
         dict_get d (VStr n) = dict_get final (VStr n).
Proof.
  intros Hstatus Hpayload Hnd H. unfold parse in H. rewrite Hstatus in H.
  cbn [_do_parse] in H. rewrite BaseRestParser_do_parse_unfold in H.
  inv_bind H. inv_bind H. injection H as <-.
  exists a, a0. split; [exact Ha |]. split; [reflexivity |].
  intros n sh Hin Hloc. unfold _parse_payload in Ha0.
  cbn [serialization] in Ha0. rewrite Hpayload in Ha0.
  inv_bind Ha0. inv_bind Ha0.
  rewrite xml_structure_unfold in Ha2 by reflexivity.
  inv_bind Ha2. inv_bind Ha2. injection Ha2 as <-.
  injection Ha0 as <-. apply dict_get_update.
  match goal with
  | Hm : foldM (xml_member rest_xml ?x) ms [] = Ok ?parsed |- _ =>
      exact (xml_members_skip_location rest_xml x ms [] parsed n sh
               Hnd Hm Hin Hloc)
  end.
Qed.

Lemma rest_xml_body_keeps_attributes_witness :
  let response :=
    {| status_code := 200; headers := [("X-A", "from-header")];
       body := [x3c] |} in
  let root :=
    Element "R" None
      [Element "A" (Some "from-body") []; Element "B" (Some "b") []] in
  let ms :=
    [("A", ScalarShape (location_serialization "header" (Some "X-A"))
                       string_);
     ("B", ScalarShape no_serialization string_)] in
  (status_code response >=? 301)%Z = false /\
  payload no_serialization = None /\
  NoDup (map fst ms) /\
  parse (E := tokenizing_to root) rest_xml response
        (Some header_and_body_shape)
  = Ok (VDict ["ResponseMetadata" |-> VDict [];
               "A" |-> VStr "from-header"; "B" |-> VStr "b"]) /\
  exists final d,
    _parse_non_payload_attrs (E := tokenizing_to root) rest_xml response ms
                             (initial_parsed response)
    = Ok final
    /\ VDict ["ResponseMetadata" |-> VDict [];
              "A" |-> VStr "from-header"; "B" |-> VStr "b"] = VDict d
    /\ forall n sh,
         In (n, sh) ms ->
         location (serialization sh) <> None ->
         dict_get d (VStr n) = dict_get final (VStr n).
Proof.
  assert (Hnd : NoDup (map fst
                  [("A", ScalarShape
                           (location_serialization "header" (Some "X-A"))
                           string_);
                   ("B", ScalarShape no_serialization string_)])).
  { repeat constructor; cbn; intuition discriminate. }
  split; [reflexivity | split; [reflexivity | split; [exact Hnd |]]].
  split; [reflexivity |].
  exact (rest_xml_body_keeps_attributes
           (E := tokenizing_to
                   (Element "R" None
                      [Element "A" (Some "from-body") [];
                       Element "B" (Some "b") []]))
           {| status_code := 200; headers := [("X-A", "from-header")];
              body := [x3c] |}
           no_serialization _ _ eq_refl eq_refl Hnd eq_refl).
Defined.

Lemma keys_dict_set (d : dict) (k v : value) :
  NoDup (keys d) -> NoDup (keys (dict_set d k v)).
Proof.
  intros Hnd.
  assert (Hkeys : keys (dict_set d k v) = keys d
                  \/ (keys (dict_set d k v) = keys d ++ [k]
                      /\ ~ In k (keys d))).
  { clear Hnd. induction d as [| [k' v'] d IH]; cbn [dict_set keys map fst].
    - right. split; [reflexivity | intros []].
    - destruct (value_eqb k' k) eqn:Hk; cbn [map fst].
      + now left.
      + apply value_eqb_neq in Hk.
        destruct IH as [IH | [IH Hnotin]]; unfold keys in *; rewrite IH.
        * now left.
        * right. split; [reflexivity |]. intros [Heq | Hin]; auto. }
  destruct Hkeys as [-> | [-> Hnotin]]; [assumption |].
  apply NoDup_app; [assumption | repeat constructor; intros [] |].
  intros x Hx [<- | []]. contradiction.
Qed.

Lemma dict_get_not_key (d : dict) (k : value) :
  ~ In k (keys d) -> dict_get d k = None.
Proof.
  induction d as [| [k' v'] d IH]; cbn [dict_get keys map fst In];
    intros H; [reflexivity |].
  destruct (value_eqb k' k) eqn:Hk.
  - apply value_eqb_eq in Hk. tauto.
  - apply IH. tauto.
Qed.

Lemma dict_get_update_present (d1 d2 : dict) (k v : value) :
  NoDup (keys d2) ->
  dict_get d2 k = Some v ->
  dict_get (dict_update d1 d2) k = Some v.
Proof.
  revert d1. induction d2 as [| [k2 v2] d2 IH]; intros d1 Hnd H.
  - discriminate.
  - cbn [keys map fst] in Hnd. inversion Hnd as [| x l Hnotin Hnd']; subst.
    cbn [dict_get] in H. unfold dict_update. cbn [fold_left fst snd].
    fold (dict_update (dict_set d1 k2 v2) d2).
    destruct (value_eqb k2 k) eqn:Hk.
    + apply value_eqb_eq in Hk. subst k2. injection H as <-.
      rewrite dict_get_update by now apply dict_get_not_key.
      apply dict_get_set_same.
    + now apply IH.
Qed.

Section OwnKeyDistinct.
Variable step : dict -> string * Shape -> result dict.

Hypothesis step_own :
  forall fp m fp',
    step fp m = Ok fp' ->
    fp' = fp \/ exists v, fp' = dict_set fp (VStr (fst m)) v.

Lemma own_key_distinct (ms : list (string * Shape)) (fp fp' : dict) :
  NoDup (keys fp) -> foldM step ms fp = Ok fp' -> NoDup (keys fp').
Proof.
  revert fp. induction ms as [| m ms IH]; intros fp Hnd H; cbn [foldM] in H.
  - now injection H as <-.
  - inv_bind H. apply (IH a); [| assumption].
    destruct (step_own _ _ _ Ha) as [-> | [v ->]]; [assumption |].
    now apply keys_dict_set.
Qed.
End OwnKeyDistinct.

Lemma json_members_lookup {E : Externals} (p : protocol) (d : dict)
  (ms : list (string * Shape)) (parsed : dict) (n : string) (sh : Shape)
  (raw : value) :
  NoDup (map fst ms) ->
  foldM (json_member p (VDict d)) ms [] = Ok parsed ->
  In (n, sh) ms ->
  dict_get d (VStr (json_name n sh)) = Some raw ->
  is_none raw = false ->
  exists v,
    _parse_shape p sh raw = Ok v /\ dict_get parsed (VStr n) = Some v.
Proof.
  intros Hnd H Hin Hraw Hnone.
  set (post := fun (m : string * Shape) (before after : option value) =>
                 forall raw,
                   dict_get d (VStr (json_name (fst m) (snd m))) = Some raw ->
                   is_none raw = false ->
                   exists v,
                     _parse_shape p (snd m) raw = Ok v /\ after = Some v).
  assert (Hpost : forall fp m fp',
             json_member p (VDict d) fp m = Ok fp' ->
             post m (dict_get fp (VStr (fst m)))
                  (dict_get fp' (VStr (fst m)))).
  { intros fp [mn msh] fp' Hstep. unfold post.
    cbn [json_member fst snd] in *. intros raw' Hraw' Hnone'.
    rewrite py_get_dict, Hraw', bind_ret, Hnone' in Hstep.
    inv_bind Hstep. injection Hstep as <-.
    exists a. split; [assumption | apply dict_get_set_same]. }
  exact (own_key_member (json_member p (VDict d)) post
           (json_member_own p (VDict d)) Hpost ms [] parsed (n, sh)
           Hnd H Hin raw Hraw Hnone).
Qed.

(** X14: in a success parse of the RestJSON variant for a structure shape
    without a payload member, a member that the JSON body carries with a
    non-null value holds the decoding of the body's value, also when the
    member has a location: the body is merged over the attributes taken from
    the headers and the status. *)
Theorem rest_json_body_overrides {E : Externals} (response : Response)
  (s : Serialization) (ms : list (string * Shape)) (b : dict)
  (n : string) (sh : Shape) (raw r : value) :
  (status_code response >=? 301)%Z = false ->
  payload s = None ->
  NoDup (map fst ms) ->
  RestJSON_initial_body_parse (body response) = Ok (VDict b) ->
  In (n, sh) ms ->
  dict_get b (VStr (json_name n sh)) = Some raw ->
  is_none raw = false ->
  parse rest_json response (Some (StructureShape s ms)) = Ok r ->
  exists v d,
    _parse_shape rest_json sh raw = Ok v
    /\ r = VDict d
    /\ dict_get d (VStr n) = Some v.
Proof.
  intros Hstatus Hpayload Hnd Hbody Hin Hraw Hnone H.
  unfold parse in H. rewrite Hstatus in H.
  cbn [_do_parse] in H. rewrite BaseRestParser_do_parse_unfold in H.
  inv_bind H. inv_bind H. injection H as <-.
  unfold _parse_payload in Ha0. cbn [serialization] in Ha0.
  rewrite Hpayload in Ha0. cbn [_initial_body_parse] in Ha0.
  rewrite Hbody, bind_ret in Ha0. inv_bind Ha0.
  rewrite json_structure_unfold in Ha1 by reflexivity.
  inv_bind Ha1. injection Ha1 as <-. injection Ha0 as <-.
  match goal with
  | Hm : foldM (json_member rest_json (VDict b)) ms [] = Ok ?parsed |- _ =>
      destruct (json_members_lookup rest_json b ms parsed n sh raw
                  Hnd Hm Hin Hraw Hnone) as (v & Hv & Hget);
      exists v, (dict_update a parsed);
      split; [exact Hv |]; split; [reflexivity |];
      apply dict_get_update_present; [| exact Hget];
      apply (own_key_distinct (json_member rest_json (VDict b))
               (json_member_own rest_json (VDict b)) ms [] parsed);
      [constructor | exact Hm]
  end.
Qed.

Lemma rest_json_body_overrides_witness :
  let response :=
    {| status_code := 200; headers := [("X-A", "from-header")];
       body := list_byte_of_string "{}" |} in
  let b := ["X-A" |-> VStr "from-body"] in
  let sh := ScalarShape (location_serialization "header" (Some "X-A"))
                        string_ in
  (status_code response >=? 301)%Z = false /\
  payload no_serialization = None /\
  NoDup (map fst [("A", sh)]) /\
  RestJSON_initial_body_parse (E := loading (VDict b)) (body response)
  = Ok (VDict b) /\
  In ("A", sh) [("A", sh)] /\
  dict_get b (VStr (json_name "A" sh)) = Some (VStr "from-body") /\
  is_none (VStr "from-body") = false /\
  parse (E := loading (VDict b)) rest_json response
        (Some (StructureShape no_serialization [("A", sh)]))
  = Ok (VDict ["ResponseMetadata" |-> VDict []; "A" |-> VStr "from-body"]) /\
  exists v d,
    _parse_shape (E := loading (VDict b)) rest_json sh (VStr "from-body")
    = Ok v
    /\ VDict ["ResponseMetadata" |-> VDict []; "A" |-> VStr "from-body"]
       = VDict d
    /\ dict_get d (VStr "A") = Some v.
Proof.
  assert (Hnd : NoDup (map fst
                  [("A", ScalarShape
                           (location_serialization "header" (Some "X-A"))
                           string_)])).
  { repeat constructor. intros []. }
  assert (Hin : In ("A", ScalarShape
                           (location_serialization "header" (Some "X-A"))
                           string_)
                   [("A", ScalarShape
                            (location_serialization "header" (Some "X-A"))
                            string_)]).
  { now left. }
  split; [reflexivity | split; [reflexivity | split; [exact Hnd |]]].
  split; [reflexivity | split; [exact Hin |]].
  split; [reflexivity | split; [reflexivity | split; [reflexivity |]]].
  exact (rest_json_body_overrides
           (E := loading (VDict ["X-A" |-> VStr "from-body"]))
           {| status_code := 200; headers := [("X-A", "from-header")];
              body := list_byte_of_string "{}" |}
           no_serialization _ ["X-A" |-> VStr "from-body"] "A" _
           (VStr "from-body") _
           eq_refl eq_refl Hnd eq_refl Hin eq_refl eq_refl eq_refl).
Defined.

(** ** The request id of a JSON success *)

(** X15: a success parse of the JSON variant whose shape decodes the body
    to the mapping [d] returns [d] unchanged when the response has no
    [x-amzn-requestid] header (no [ResponseMetadata] is added); with the
    header it appends [ResponseMetadata] with the [RequestId] when [d] has
    no such member, adds the [RequestId] to the member when [d] holds a
    mapping there, and raises [TypeError] when [d] holds anything else
    there. *)
Theorem json_success_metadata {E : Externals} (response : Response)
  (shape : Shape) (text : string) (original : value) (d : dict) :
  (status_code response >=? 301)%Z = false ->
  decode (body response) = Ok text ->
  json_loads text = Ok original ->
  _parse_shape json shape original = Ok (VDict d) ->
  let result := parse json response (Some shape) in
  let header := header_get (headers response) "x-amzn-requestid" in
  (header = None -> result = Ok (VDict d))
  /\ (forall rid,
         header = Some rid ->
         dict_get d (VStr "ResponseMetadata") = None ->
         result
         = Ok (VDict (d ++ ["ResponseMetadata" |->
                              VDict ["RequestId" |-> VStr rid]])))
  /\ (forall rid m,
         header = Some rid ->
         dict_get d (VStr "ResponseMetadata") = Some (VDict m) ->
         result
         = Ok (VDict (dict_set d (VStr "ResponseMetadata")
                        (VDict (dict_set m (VStr "RequestId") (VStr rid))))))
  /\ (forall rid x,
         header = Some rid ->
         dict_get d (VStr "ResponseMetadata") = Some x ->
         (forall m, x <> VDict m) ->
         result = Raise TypeError).
Proof.
  intros Hstatus Hdecode Hloads Hshape result header.
  assert (Hres : result
                 = JSONParser_inject_response_metadata (VDict d)
                     (headers response)).
  { unfold result, parse. rewrite Hstatus. cbn [_do_parse].
    unfold JSONParser_do_parse.
    rewrite Hdecode, bind_ret, Hloads, bind_ret, Hshape, bind_ret.
    reflexivity. }
  rewrite Hres. unfold JSONParser_inject_response_metadata. fold header.
  split; [| split; [| split]].
  - intros ->. reflexivity.
  - intros rid -> Hget. rewrite Hget. cbn [py_setitem dict_set bind].
    now rewrite dict_set_fresh.
  - intros rid m -> Hget. rewrite Hget. reflexivity.
  - intros rid x -> Hget Hx. rewrite Hget.
    destruct x; try reflexivity. now destruct (Hx d0).
Qed.

Lemma json_success_metadata_witness :
  let response :=
    {| status_code := 200; headers := [("x-amzn-requestid", "r1")];
       body := list_byte_of_string "{}" |} in
  (status_code response >=? 301)%Z = false /\
  decode (Externals := loading (VDict ["A" |-> VStr "x"])) (body response)
  = Ok "{}" /\
  json_loads (Externals := loading (VDict ["A" |-> VStr "x"])) "{}"
  = Ok (VDict ["A" |-> VStr "x"]) /\
  _parse_shape (E := loading (VDict ["A" |-> VStr "x"])) json
               one_string_member (VDict ["A" |-> VStr "x"])
  = Ok (VDict ["A" |-> VStr "x"]) /\
  parse (E := loading (VDict ["A" |-> VStr "x"])) json response
        (Some one_string_member)
  = Ok (VDict (["A" |-> VStr "x"]
               ++ ["ResponseMetadata" |-> VDict ["RequestId" |-> VStr "r1"]])).
Proof.
  split; [reflexivity | split; [reflexivity | split; [reflexivity |]]].
  split; [reflexivity |].
  exact (proj1 (proj2
           (json_success_metadata (E := loading (VDict ["A" |-> VStr "x"]))
              {| status_code := 200; headers := [("x-amzn-requestid", "r1")];
                 body := list_byte_of_string "{}" |}
              one_string_member "{}" (VDict ["A" |-> VStr "x"])
              ["A" |-> VStr "x"] eq_refl eq_refl eq_refl eq_refl))
           "r1" eq_refl eq_refl).
Defined.

(** ** The result wrapper of a Query success *)

Lemma QueryParser_do_parse_unfold {E : Externals} (p : protocol)
  (response : Response) (shape : Shape) (root : Node) :
  XMLParser (body response) = Ok root ->
  QueryParser_do_parse p response (Some shape)
  = (start <-
       match resultWrapper (serialization shape) with
       | Some wrapper => _find_result_wrapped_shape wrapper (VNode root)
       | None => Ok (VNode root)
       end ;;
     parsed <- _parse_shape p shape start ;;
     query_inject p (VNode root) parsed).
Proof.
  intros Hroot. unfold QueryParser_do_parse, _parse_xml_string_to_dom.
  rewrite Hroot, bind_ret.
  destruct (match resultWrapper (serialization shape) with
            | Some wrapper => _find_result_wrapped_shape wrapper (VNode root)
            | None => Ok (VNode root)
            end) as [start | e]; cbn [bind]; [| reflexivity].
  destruct (_parse_shape p shape start); cbn [bind]; [| reflexivity].
  destruct p; reflexivity.
Qed.

Lemma _find_result_wrapped_shape_spec (w : string) (root : Node) :
  _find_result_wrapped_shape w (VNode root)
  = match indexed (children_named w (getchildren root)) with
    | Some v => Ok v
    | None => Raise (KeyError w)
    end.
Proof.
  unfold _find_result_wrapped_shape, _build_name_to_xml_node.
  cbn [py_iter bind].
  destruct (index_items_spec (getchildren root) [] [] (fun t => eq_refl))
    as (d & Hd & Hspec).
  rewrite Hd, bind_ret. cbn [py_getitem]. rewrite Hspec. reflexivity.
Qed.

(** X16: a success parse of the Query or EC2Query variant whose shape
    names a result wrapper raises [KeyError] when no child of the root
    bears that name, and decodes the shape from that child, not from the
    root, when exactly one does; the metadata is still read from the
    root. *)
Theorem query_result_wrapper {E : Externals} (p : protocol)
  (response : Response) (shape : Shape) (root : Node) (wrapper : string) :
  p = query \/ p = ec2 ->
  (status_code response >=? 301)%Z = false ->
  XMLParser (body response) = Ok root ->
  resultWrapper (serialization shape) = Some wrapper ->
  (children_named wrapper (getchildren root) = [] ->
   parse p response (Some shape) = Raise (KeyError wrapper))
  /\ (forall c,
         children_named wrapper (getchildren root) = [c] ->
         parse p response (Some shape)
         = (parsed <- _parse_shape p shape (VNode c) ;;
            query_inject p (VNode root) parsed)).
Proof.
  intros Hp Hstatus Hroot Hw. unfold parse. rewrite Hstatus.
  assert (Hdo : _do_parse p response (Some shape)
                = QueryParser_do_parse p response (Some shape)).
  { destruct Hp as [-> | ->]; reflexivity. }
  rewrite Hdo, (QueryParser_do_parse_unfold p response shape root Hroot).
  rewrite Hw, _find_result_wrapped_shape_spec.
  split.
  - intros ->. reflexivity.
  - intros c ->. reflexivity.
Qed.

Lemma query_result_wrapper_witness :
  let response := {| status_code := 200; headers := []; body := [x3c] |} in
  let inner := Element "Result" None [Element "A" (Some "x") []] in
  let root := Element "Response" None [inner; Element "A" (Some "outside") []] in
  (query = query \/ query = ec2) /\
  (status_code response >=? 301)%Z = false /\
  XMLParser (Externals := tokenizing_to root) (body response) = Ok root /\
  resultWrapper (serialization (wrapped_shape "Result")) = Some "Result" /\
  children_named "Result" (getchildren root) = [inner] /\
  parse (E := tokenizing_to root) query response
        (Some (wrapped_shape "Result"))
  = Ok (VDict ["A" |-> VStr "x"]).
Proof.
  intros response inner root.
  split; [left; reflexivity | split; [reflexivity | split; [reflexivity |]]].
  split; [reflexivity | split; [reflexivity |]].
  exact (proj2
           (query_result_wrapper (E := tokenizing_to root) query response
              (wrapped_shape "Result") root "Result"
              (or_introl eq_refl) eq_refl eq_refl eq_refl)
           inner eq_refl).
Defined.

(** ** The metadata of a Query success *)

Lemma QueryParser_do_parse_split {E : Externals} (p : protocol)
  (response : Response) (shape : option Shape) (root : Node) :
  XMLParser (body response) = Ok root ->
  QueryParser_do_parse p response shape
  = (parsed <- query_body_parse p shape root ;;
     query_inject p (VNode root) parsed).
Proof.
  intros Hroot. unfold QueryParser_do_parse, _parse_xml_string_to_dom.
  rewrite Hroot, bind_ret. unfold query_body_parse.
  destruct shape as [shape |]; [| destruct p; reflexivity].
  destruct (match resultWrapper (serialization shape) with
            | Some wrapper => _find_result_wrapped_shape wrapper (VNode root)
            | None => Ok (VNode root)
            end) as [start | e]; cbn [bind]; [| reflexivity].
  destruct (_parse_shape p shape start); cbn [bind]; [| reflexivity].
  destruct p; reflexivity.
Qed.

Lemma children_named_idem (t : string) (cs : list Node) :
  children_named t (children_named t cs) = children_named t cs.
Proof.
  unfold children_named. induction cs as [| c cs IH]; cbn [filter].
  - reflexivity.
  - destruct (String.eqb (local_name c) t) eqn:Hc; cbn [filter].
    + rewrite Hc. now f_equal.
    + exact IH.
Qed.

Lemma texts_fold (cs pre : list Node) :
  NoDup (map local_name (pre ++ cs)) ->
  foldM (fun (acc : dict) (kv : value * value) =>
           t <- node_text (snd kv) ;; Ok (dict_set acc (fst kv) t))
        (index_entries cs) (texts pre ++ index_entries cs)
  = Ok (texts (pre ++ cs)).
Proof.
  revert pre. induction cs as [| c cs IH]; intros pre Hnd.
  - cbn [index_entries map foldM]. now rewrite !app_nil_r.
  - cbn [index_entries map foldM snd fst node_text bind].
    fold (index_entries cs).
    assert (Hfresh : ~ In (local_name c) (map local_name pre)).
    { rewrite map_app in Hnd. apply NoDup_remove_2 in Hnd.
      intros Hin. apply Hnd. apply in_or_app. now left. }
    rewrite dict_set_middle
      by (unfold texts; now apply dict_get_fresh_name).
    replace (texts pre ++ (VStr (local_name c), of_text (text c))
                            :: index_entries cs)
      with (texts (pre ++ [c]) ++ index_entries cs)
      by (unfold texts; rewrite map_app, <- app_assoc; reflexivity).
    rewrite IH by now rewrite <- app_assoc.
    now rewrite <- app_assoc.
Qed.

Lemma texts_raise (items : dict) (k : value) (l : list value) (acc : dict) :
  In (k, VList l) items ->
  foldM (fun (acc : dict) (kv : value * value) =>
           t <- node_text (snd kv) ;; Ok (dict_set acc (fst kv) t))
        items acc
  = Raise AttributeError.
Proof.
  revert acc. induction items as [| [k' v'] items IH]; intros acc Hin.
  - contradiction.
  - destruct Hin as [Heq | Hin].
    + injection Heq as -> ->. reflexivity.
    + destruct v'; cbn [foldM snd fst node_text bind]; try reflexivity.
      now apply IH.
Qed.

(** X17: a success parse of the Query variant whose shape decodes to the
    mapping [d] returns [d] itself when the root has no [ResponseMetadata]
    child; when it has exactly one, whose children have distinct local
    names, the result holds under [ResponseMetadata] the texts of those
    children by local name, in document order; when that element has two
    children with the same name, or the root has several [ResponseMetadata]
    children, the parse raises [AttributeError]. *)
Theorem query_success_metadata {E : Externals} (response : Response)
  (shape : option Shape) (root : Node) (d : dict) :
  (status_code response >=? 301)%Z = false ->
  XMLParser (body response) = Ok root ->
  query_body_parse query shape root = Ok (VDict d) ->
  let found := children_named "ResponseMetadata" (getchildren root) in
  let result := parse query response shape in
  (found = [] -> result = Ok (VDict d))
  /\ (forall rm,
         found = [rm] ->
         NoDup (map local_name (getchildren rm)) ->
         result
         = Ok (VDict (dict_set d (VStr "ResponseMetadata")
                        (VDict (texts (getchildren rm))))))
  /\ (forall rm,
         found = [rm] ->
         ~ NoDup (map local_name (getchildren rm)) ->
         result = Raise AttributeError)
  /\ (forall a b l, found = a :: b :: l -> result = Raise AttributeError).
Proof.
  intros Hstatus Hroot Hbody found result.
  assert (Hres : result
                 = QueryParser_inject_response_metadata (VNode root)
                     (VDict d)).
  { unfold result, parse. rewrite Hstatus. cbn [_do_parse].
    rewrite (QueryParser_do_parse_split query response shape root Hroot).
    rewrite Hbody, bind_ret. reflexivity. }
  assert (Hinj : QueryParser_inject_response_metadata (VNode root) (VDict d)
                 = match indexed found with
                   | Some child_node =>
                       sub_mapping <- _build_name_to_xml_node child_node ;;
                       sub_mapping <-
                         foldM (fun (acc : dict) (kv : value * value) =>
                                  t <- node_text (snd kv) ;;
                                  Ok (dict_set acc (fst kv) t))
                               sub_mapping sub_mapping ;;
                       py_setitem (VDict d) "ResponseMetadata"
                                  (VDict sub_mapping)
                   | None => Ok (VDict d)
                   end).
  { unfold QueryParser_inject_response_metadata.
    destruct (index_items_spec (getchildren root) [] [] (fun t => eq_refl))
      as (m & Hm & Hspec).
    unfold _build_name_to_xml_node at 1. cbn [py_iter bind].
    rewrite Hm, bind_ret, Hspec. reflexivity. }
  rewrite Hres, Hinj. clear Hres Hinj. subst found.
  split; [| split; [| split]].
  - intros Hfound. rewrite Hfound. reflexivity.
  - intros rm Hfound Hnd. rewrite Hfound. cbn [indexed].
    rewrite (build_distinct rm Hnd), bind_ret.
    pose proof (texts_fold (getchildren rm) [] Hnd) as Hfold.
    change (foldM (fun (acc : dict) (kv : value * value) =>
                     t <- node_text (snd kv) ;; Ok (dict_set acc (fst kv) t))
                  (index_entries (getchildren rm))
                  (index_entries (getchildren rm))
            = Ok (texts (getchildren rm))) in Hfold.
    rewrite Hfold, bind_ret. reflexivity.
  - intros rm Hfound Hrep. rewrite Hfound. cbn [indexed].
    destruct (build_repeated rm Hrep) as (d' & k & l & Hd' & Hin).
    rewrite Hd', bind_ret.
    now rewrite (texts_raise d' k l d' Hin).
  - intros a b l Hfound. rewrite Hfound. cbn [indexed].
    unfold _build_name_to_xml_node. cbn [py_iter bind].
    destruct (index_items_spec (a :: b :: l) [] [] (fun t => eq_refl))
      as (m' & Hm' & Hspec').
    rewrite Hm', bind_ret.
    assert (Hin : In (VStr "ResponseMetadata", VList (map VNode (a :: b :: l)))
                     m').
    { apply dict_get_In. rewrite Hspec'. cbn [app].
      rewrite <- Hfound, children_named_idem, Hfound. reflexivity. }
    now rewrite (texts_raise m' _ _ m' Hin).
Qed.

Lemma query_success_metadata_witness :
  let response := {| status_code := 200; headers := []; body := [x3c] |} in
  let rm :=
    Element "ResponseMetadata" None
      [Element "RequestId" (Some "r1") []; Element "Extra" None []] in
  (status_code response >=? 301)%Z = false /\
  XMLParser (Externals := tokenizing_to query_metadata_root) (body response)
  = Ok query_metadata_root /\
  query_body_parse (E := tokenizing_to query_metadata_root) query None
                   query_metadata_root
  = Ok (VDict []) /\
  children_named "ResponseMetadata" (getchildren query_metadata_root)
  = [rm] /\
  NoDup (map local_name (getchildren rm)) /\
  parse (E := tokenizing_to query_metadata_root) query response None
  = Ok (VDict ["ResponseMetadata" |->
                 VDict ["RequestId" |-> VStr "r1"; "Extra" |-> VNone]]).
Proof.
  intros response rm.
  assert (Hnd : NoDup (map local_name (getchildren rm))).
  { apply (NoDup_count_occ' string_dec). intros x Hx. simpl in Hx.
    destruct Hx as [<- | [<- | []]]; reflexivity. }
  split; [reflexivity | split; [reflexivity | split; [reflexivity |]]].
  split; [reflexivity | split; [exact Hnd |]].
  exact (proj1 (proj2
           (query_success_metadata (E := tokenizing_to query_metadata_root)
              response None query_metadata_root [] eq_refl eq_refl eq_refl))
           rm eq_refl Hnd).
Defined.

(** X18: a success parse of the EC2Query variant whose shape decodes to
    the mapping [d] returns [d] itself when the root has no [requestId]
    child, sets [ResponseMetadata] to the mapping with [RequestId] alone,
    the text of the child, when it has exactly one, and raises
    [AttributeError] when it has several. *)
Theorem ec2_success_metadata {E : Externals} (response : Response)
  (shape : option Shape) (root : Node) (d : dict) :
  (status_code response >=? 301)%Z = false ->
  XMLParser (body response) = Ok root ->
  query_body_parse ec2 shape root = Ok (VDict d) ->
  let found := children_named "requestId" (getchildren root) in
  let result := parse ec2 response shape in
  (found = [] -> result = Ok (VDict d))
  /\ (forall c,
         found = [c] ->
         result
         = Ok (VDict (dict_set d (VStr "ResponseMetadata")
                        (VDict ["RequestId" |-> of_text (text c)]))))
  /\ (forall a b l, found = a :: b :: l -> result = Raise AttributeError).
Proof.
  intros Hstatus Hroot Hbody found result.
  assert (Hres : result
                 = EC2QueryParser_inject_response_metadata (VNode root)
                     (VDict d)).
  { unfold result, parse. rewrite Hstatus. cbn [_do_parse].
    rewrite (QueryParser_do_parse_split ec2 response shape root Hroot).
    rewrite Hbody, bind_ret. reflexivity. }
  assert (Hinj : EC2QueryParser_inject_response_metadata (VNode root)
                   (VDict d)
                 = match indexed found with
                   | Some child_node =>
                       t <- node_text child_node ;;
                       py_setitem (VDict d) "ResponseMetadata"
                                  (VDict ["RequestId" |-> t])
                   | None => Ok (VDict d)
                   end).
  { unfold EC2QueryParser_inject_response_metadata.
    destruct (index_items_spec (getchildren root) [] [] (fun t => eq_refl))
      as (m & Hm & Hspec).
    unfold _build_name_to_xml_node. cbn [py_iter bind].
    rewrite Hm, bind_ret, Hspec. reflexivity. }
  rewrite Hres, Hinj. clear Hres Hinj. subst found.
  split; [| split].
  - intros Hfound. rewrite Hfound. reflexivity.
  - intros c Hfound. rewrite Hfound. reflexivity.
  - intros a b l Hfound. rewrite Hfound. reflexivity.
Qed.

Lemma ec2_success_metadata_witness :
  let response := {| status_code := 200; headers := []; body := [x3c] |} in
  (status_code response >=? 301)%Z = false /\
  XMLParser (Externals := tokenizing_to ec2_request_root) (body response)
  = Ok ec2_request_root /\
  query_body_parse (E := tokenizing_to ec2_request_root) ec2 None
                   ec2_request_root
  = Ok (VDict []) /\
  children_named "requestId" (getchildren ec2_request_root)
  = [Element "requestId" (Some "r1") []] /\
  parse (E := tokenizing_to ec2_request_root) ec2 response None
  = Ok (VDict ["ResponseMetadata" |-> VDict ["RequestId" |-> VStr "r1"]]).
Proof.
  intros response.
  split; [reflexivity | split; [reflexivity | split; [reflexivity |]]].
  split; [reflexivity |].
  exact (proj1 (proj2
           (ec2_success_metadata (E := tokenizing_to ec2_request_root)
              response None ec2_request_root [] eq_refl eq_refl eq_refl))
           (Element "requestId" (Some "r1") []) eq_refl).
Defined.

(** ** Maps of the JSON variants *)

Lemma json_scalar_default {E : Externals} (p : protocol) (s : Serialization)
  (k : kind) (v : value) :
  is_xml p = false -> json_default_kind k = true ->
  _parse_shape p (ScalarShape s k) v = Ok v.
Proof. destruct p, k; try discriminate; reflexivity. Qed.

Lemma json_map_unfold {E : Externals} (p : protocol) (s : Serialization)
  (key_shape value_shape : Shape) (node : value) :
  is_xml p = false ->
  _parse_shape p (MapShape s key_shape value_shape) node
  = (items <- py_items node ;;
     parsed <- foldM (fun (parsed : dict) (kv : value * value) =>
                        actual_key <- _parse_shape p key_shape (fst kv) ;;
                        actual_value <- _parse_shape p value_shape (snd kv) ;;
                        setitem parsed actual_key actual_value)
                     items [] ;;
     Ok (VDict parsed)).
Proof. intros Hp. cbn [_parse_shape]. now rewrite Hp. Qed.

Lemma json_map_entries {E : Externals} (p : protocol) (ks : Serialization)
  (k : kind) (value_shape : Shape) :
  is_xml p = false -> json_default_kind k = true ->
  forall b acc,
    NoDup (keys (acc ++ b)) ->
    (forall kv, In kv b -> hashable (fst kv) = true) ->
    foldM (fun (parsed : dict) (kv : value * value) =>
             actual_key <- _parse_shape p (ScalarShape ks k) (fst kv) ;;
             actual_value <- _parse_shape p value_shape (snd kv) ;;
             setitem parsed actual_key actual_value)
          b acc
    = (vs <- mapM (fun kv => _parse_shape p value_shape (snd kv)) b ;;
       Ok (acc ++ combine (keys b) vs)).
Proof.
  intros Hp Hk. induction b as [| [k0 v0] b IH]; intros acc Hnd Hhash.
  - cbn [foldM mapM bind keys map combine]. now rewrite app_nil_r.
  - cbn [foldM fst snd]. rewrite (json_scalar_default p ks k k0 Hp Hk).
    rewrite bind_ret.
    change (mapM (fun kv => _parse_shape p value_shape (snd kv))
                 ((k0, v0) :: b))
      with (y <- _parse_shape p value_shape v0 ;;
            ys <- mapM (fun kv => _parse_shape p value_shape (snd kv)) b ;;
            Ok (y :: ys)).
    destruct (_parse_shape p value_shape v0) as [v |]; cbn [bind];
      [| reflexivity].
    unfold setitem.
    replace (hashable k0) with true
      by (symmetry; exact (Hhash (k0, v0) (or_introl eq_refl))).
    cbn [bind].
    assert (Hfresh : dict_get acc k0 = None).
    { apply dict_get_not_key. unfold keys in *. rewrite map_app in Hnd.
      cbn [map fst] in Hnd. apply NoDup_remove_2 in Hnd.
      intros Hin. apply Hnd. apply in_or_app. now left. }
    rewrite (dict_set_fresh acc k0 v Hfresh).
    rewrite IH.
    + destruct (mapM (fun kv => _parse_shape p value_shape (snd kv)) b);
        cbn [bind keys map fst combine]; [| reflexivity].
      now rewrite <- app_assoc.
    + unfold keys in *. rewrite <- app_assoc. cbn [app].
      rewrite map_app in *. exact Hnd.
    + intros kv Hin. apply Hhash. now right.
Qed.

(** X19: for the JSON variants, a map shape whose keys are decoded by the
    default handler decodes a JSON object with distinct, hashable keys to
    the mapping with the same keys in the same order, each value decoded
    by the value shape, and fails with the error of the first value that
    fails; on anything that is not an object it raises [AttributeError]. *)
Theorem json_map_decode {E : Externals} (p : protocol)
  (s ks : Serialization) (k : kind) (value_shape : Shape) (node : value) :
  is_xml p = false ->
  json_default_kind k = true ->
  let shape := MapShape s (ScalarShape ks k) value_shape in
  ((forall b, node <> VDict b) ->
   _parse_shape p shape node = Raise AttributeError)
  /\ (forall b,
         node = VDict b ->
         NoDup (keys b) ->
         (forall kv, In kv b -> hashable (fst kv) = true) ->
         _parse_shape p shape node
         = (vs <- mapM (fun kv => _parse_shape p value_shape (snd kv)) b ;;
            Ok (VDict (combine (keys b) vs)))).
Proof.
  intros Hp Hk shape. subst shape. rewrite json_map_unfold by exact Hp.
  split.
  - intros Hnode. destruct node; try reflexivity. now destruct (Hnode d).
  - intros b -> Hnd Hhash. cbn [py_items]. rewrite bind_ret.
    rewrite (json_map_entries p ks k value_shape Hp Hk b [] Hnd Hhash).
    destruct (mapM (fun kv => _parse_shape p value_shape (snd kv)) b);
      reflexivity.
Qed.

Lemma json_map_decode_witness :
  let b := ["a" |-> VStr "1"; "b" |-> VStr "2"] in
  is_xml json = false /\
  json_default_kind string_ = true /\
  NoDup (keys b) /\
  (forall kv, In kv b -> hashable (fst kv) = true) /\
  _parse_shape (E := sample_externals) json string_to_integer_map (VDict b)
  = (vs <- mapM (fun kv =>
                   _parse_shape (E := sample_externals) json
                     (ScalarShape no_serialization integer) (snd kv)) b ;;
     Ok (VDict (combine (keys b) vs))).
Proof.
  intros b.
  assert (Hnd : NoDup (keys b)).
  { apply (NoDup_count_occ' value_eq_dec). intros x Hx. simpl in Hx.
    destruct Hx as [<- | [<- | []]]; reflexivity. }
  assert (Hhash : forall kv, In kv b -> hashable (fst kv) = true).
  { intros kv [<- | [<- | []]]; reflexivity. }
  split; [reflexivity | split; [reflexivity | split; [exact Hnd |]]].
  split; [exact Hhash |].
  exact (proj2
           (json_map_decode (E := sample_externals) json no_serialization
              no_serialization string_
              (ScalarShape no_serialization integer) (VDict b)
              eq_refl eq_refl)
           b eq_refl Hnd Hhash).
Defined.

(** ** Scalars of the RestXML variant outside the body *)

(** X20: a success parse of the RestXML variant returns no result when
    the shape has a boolean or blob member that is read from the status
    code or from a header of the response: the only handlers for these
    kinds read the text of an element. *)
Theorem rest_xml_located_boolean_raises {E : Externals}
  (response : Response) (s ser : Serialization)
  (ms : list (string * Shape)) (n : string) (k : kind) :
  (status_code response >=? 301)%Z = false ->
  In (n, ScalarShape ser k) ms ->
  text_only_kind k = true ->
  located_scalar response n (ScalarShape ser k) = true ->
  exists e, parse rest_xml response (Some (StructureShape s ms)) = Raise e.
Proof.
  intros Hstatus Hin Hk Hloc. unfold parse. rewrite Hstatus.
  cbn [_do_parse]. rewrite BaseRestParser_do_parse_unfold.
  assert (Hstep : forall fp, exists e,
             non_payload_attr rest_xml response fp (n, ScalarShape ser k)
             = Raise e).
  { intros fp. exists AttributeError. unfold non_payload_attr.
    unfold located_scalar in Hloc. cbn [serialization] in *.
    destruct (location ser) as [loc |]; [| discriminate].
    destruct (String.eqb loc "statusCode").
    { destruct k; try discriminate; reflexivity. }
    destruct (String.eqb loc "headers") eqn:Hhs.
    { cbn [orb] in Hloc. apply andb_prop in Hloc as [Hloc _].
      destruct (String.eqb loc "header") eqn:Hh; [| discriminate].
      apply String.eqb_eq in Hh. subst loc. vm_compute in Hhs.
      discriminate. }
    cbn [orb] in Hloc. apply andb_prop in Hloc as [Hh Hhdr]. rewrite Hh.
    unfold header_in, member_header_name in Hhdr.
    cbn [serialization] in Hhdr.
    destruct (header_get (headers response) _); [| discriminate].
    destruct k; try discriminate; reflexivity. }
  destruct (foldM_raise_in (non_payload_attr rest_xml response) ms
              (n, ScalarShape ser k) Hin Hstep (initial_parsed response))
    as [e He].
  exists e. unfold _parse_non_payload_attrs. now rewrite He.
Qed.

Lemma rest_xml_located_boolean_raises_witness :
  let response :=
    {| status_code := 200; headers := [("x-amz-delete-marker", "true")];
       body := [] |} in
  (status_code response >=? 301)%Z = false /\
  In ("DeleteMarker",
      ScalarShape (location_serialization "header"
                                          (Some "x-amz-delete-marker"))
                  boolean) delete_marker_members /\
  text_only_kind boolean = true /\
  located_scalar response "DeleteMarker"
    (ScalarShape (location_serialization "header"
                                         (Some "x-amz-delete-marker"))
                 boolean) = true /\
  exists e,
    parse (E := sample_externals) rest_xml response
          (Some (StructureShape no_serialization delete_marker_members))
    = Raise e.
Proof.
  intros response.
  split; [reflexivity | split; [left; reflexivity |]].
  split; [reflexivity | split; [reflexivity |]].
  exact (rest_xml_located_boolean_raises (E := sample_externals) response
           no_serialization
           (location_serialization "header" (Some "x-amz-delete-marker"))
           delete_marker_members "DeleteMarker" boolean
           eq_refl (or_introl eq_refl) eq_refl eq_refl).
Defined.

(** ** The payload member of the REST variants *)

Lemma members_get_missing (ms : list (string * Shape)) (k : string) :
  ~ In k (map fst ms) -> members_get ms k = Raise (KeyError k).
Proof.
  induction ms as [| [k' s'] ms IH]; cbn [members_get map fst In]; intros H.
  - reflexivity.
  - destruct (String.eqb k' k) eqn:Hk.
    + apply String.eqb_eq in Hk. tauto.
    + apply IH. tauto.
Qed.

Lemma non_payload_attrs_unlocated {E : Externals} (p : protocol)
  (response : Response) (ms : list (string * Shape)) (fp fp' : dict)
  (n : string) :
  foldM (non_payload_attr p response) ms fp = Ok fp' ->
  (forall sh, In (n, sh) ms -> location (serialization sh) = None) ->
  dict_get fp' (VStr n) = dict_get fp (VStr n).
Proof.
  revert fp. induction ms as [| [n' s'] ms IH]; intros fp H Hloc;
    cbn [foldM] in H.
  - now injection H as <-.
  - inv_bind H.
    rewrite (IH _ H) by (intros sh Hin; apply Hloc; now right).
    destruct (string_dec n' n) as [-> | Hne].
    + unfold non_payload_attr in Ha.
      rewrite (Hloc s' (or_introl eq_refl)) in Ha. now injection Ha as <-.
    + exact (non_payload_attr_other p response fp a Ha Hne).
Qed.

(** X21: in a success parse of a REST variant whose shape names a payload
    member, the parse returns no result when the shape has no member of
    that name; when the member is neither a string nor a blob, a result
    holds under the member's name the decoding of the whole body by the
    member's shape, and no other member without a location is read from
    the body: each is absent from the result. *)
Theorem rest_payload_member {E : Externals} (p : protocol)
  (response : Response) (s : Serialization) (ms : list (string * Shape))
  (pm : string) :
  is_rest p = true ->
  (status_code response >=? 301)%Z = false ->
  payload s = Some pm ->
  let result := parse p response (Some (StructureShape s ms)) in
  (~ In pm (map fst ms) -> forall r, result <> Ok r)
  /\ (forall body_shape r,
         members_get ms pm = Ok body_shape ->
         is_stream body_shape = false ->
         result = Ok r ->
         exists original v d,
           _initial_body_parse p (body response) = Ok original
           /\ _parse_shape p body_shape original = Ok v
           /\ r = VDict d
           /\ dict_get d (VStr pm) = Some v
           /\ forall n,
                n <> pm ->
                n <> "ResponseMetadata" ->
                (forall sh, In (n, sh) ms ->
                            location (serialization sh) = None) ->
                dict_get d (VStr n) = None).
Proof.
  intros Hp Hstatus Hpayload result.
  assert (Hres : result
                 = (final_parsed <-
                      _parse_non_payload_attrs p response ms
                        (initial_parsed response) ;;
                    final_parsed <-
                      (body_shape <- members_get ms pm ;;
                       if is_stream body_shape then
                         body <- decode (body response) ;;
                         Ok (dict_set final_parsed (VStr pm) (VStr body))
                       else
                         original_parsed <-
                           _initial_body_parse p (body response) ;;
                         v <- _parse_shape p body_shape original_parsed ;;
                         Ok (dict_set final_parsed (VStr pm) v)) ;;
                    Ok (VDict final_parsed))).
  { unfold result, parse. rewrite Hstatus.
    assert (Hdo : _do_parse p response (Some (StructureShape s ms))
                  = BaseRestParser_do_parse p response
                      (Some (StructureShape s ms))).
    { destruct p; try discriminate; reflexivity. }
    rewrite Hdo, BaseRestParser_do_parse_unfold. unfold _parse_payload.
    cbn [serialization]. now rewrite Hpayload. }
  rewrite Hres. clear Hres result. split.
  - intros Hmissing r H. inv_bind H. inv_bind H.
    rewrite (members_get_missing ms pm Hmissing) in Ha0. discriminate.
  - intros body_shape r Hget Hstream H. inv_bind H. inv_bind H.
    injection H as <-. rewrite Hget, bind_ret, Hstream in Ha0.
    inv_bind Ha0. inv_bind Ha0. injection Ha0 as <-.
    match goal with
    | Ho : _initial_body_parse p (body response) = Ok ?o,
      Hv : _parse_shape p body_shape ?o = Ok ?v |- _ =>
        exists o, v, (dict_set a (VStr pm) v);
        split; [exact Ho |]; split; [exact Hv |]
    end.
    split; [reflexivity |]. split; [apply dict_get_set_same |].
    intros n Hne Hrm Hloc.
    rewrite dict_get_set_other by congruence.
    unfold _parse_non_payload_attrs in Ha.
    rewrite (non_payload_attrs_unlocated p response ms _ a n Ha Hloc).
    unfold initial_parsed. cbn [dict_get]. rewrite value_eqb_VStr.
    destruct (String.eqb "ResponseMetadata" n) eqn:Hn; [| reflexivity].
    apply String.eqb_eq in Hn. congruence.
Qed.

Lemma rest_payload_member_witness :
  let response :=
    {| status_code := 200; headers := [];
       body := list_byte_of_string "{}" |} in
  let loaded := VDict ["A" |-> VStr "x"; "Other" |-> VStr "y"] in
  let ms := [("Body", one_string_member);
             ("Other", ScalarShape no_serialization string_)] in
  let r := VDict ["ResponseMetadata" |-> VDict [];
                  "Body" |-> VDict ["A" |-> VStr "x"]] in
  is_rest rest_json = true /\
  (status_code response >=? 301)%Z = false /\
  payload (payload_serialization "Body") = Some "Body" /\
  members_get ms "Body" = Ok one_string_member /\
  is_stream one_string_member = false /\
  parse (E := loading loaded) rest_json response
        (Some (StructureShape (payload_serialization "Body") ms))
  = Ok r /\
  exists original v d,
    _initial_body_parse (E := loading loaded) rest_json (body response)
    = Ok original
    /\ _parse_shape (E := loading loaded) rest_json one_string_member
                    original = Ok v
    /\ r = VDict d
    /\ dict_get d (VStr "Body") = Some v
    /\ forall n,
         n <> "Body" ->
         n <> "ResponseMetadata" ->
         (forall sh, In (n, sh) ms -> location (serialization sh) = None) ->
         dict_get d (VStr n) = None.
Proof.
  intros response loaded ms r.
  split; [reflexivity | split; [reflexivity | split; [reflexivity |]]].
  split; [reflexivity | split; [reflexivity | split; [reflexivity |]]].
  exact (proj2
           (rest_payload_member (E := loading loaded) rest_json response
              (payload_serialization "Body") ms "Body"
              eq_refl eq_refl eq_refl)
           one_string_member r eq_refl eq_refl eq_refl).
Defined.
